(** * lsst_build: the build orchestrator of python/lsst/ci/build.py

    A shallow embedding of [ProgressReporter], [Builder] and their helper
    functions, and the properties of the build pipeline proved about it.

    Python objects with effects (the file system, [os.environ], the EUPS
    package database, [sys.stdout], the wall clock) are gathered in a
    [World] that every operation passes along; an operation either returns
    a value or raises, and the world survives the exception.  What the
    program cannot decide by itself (the output and exit code of a child
    build script, the answer of the GitHub endpoint, the readings of the
    clock) is supplied by an [Ext] record of oracles.  Failures of the
    file system itself (a missing product directory, a full disk) are not
    modelled. *)

From Stdlib Require Import ZArith Ascii String List Sorted.
From stdpp Require Import gmap strings list fin_maps pretty.

Set Warnings "-register-all".
Open Scope Z_scope.
Open Scope string_scope.
Open Scope list_scope.

(** ** Byte strings and text *)

(** A Python [bytes] value and a Python [str] are both kept as a [string]
    of 8-bit characters; a [str] is represented by its UTF-8 encoding. *)

Definition LF : ascii := "010"%char.
Definition TAB : ascii := "009"%char.
Definition NL : string := String LF "".

Definition byte_val (c : ascii) : N := N_of_ascii c.

Definition in_range (lo hi : N) (c : ascii) : bool :=
  ((lo <=? byte_val c) && (byte_val c <=? hi))%N.

Definition is_cont (c : ascii) : bool := in_range 128 191 c.

(** Strict UTF-8 well-formedness, as [bytes.decode()] checks it: shortest
    form only, no surrogates, nothing above U+10FFFF. *)
Fixpoint utf8_valid (s : string) : bool :=
  match s with
  | "" => true
  | String b0 r0 =>
      if in_range 0 127 b0 then utf8_valid r0
      else match r0 with
      | "" => false
      | String b1 r1 =>
          if in_range 194 223 b0 then is_cont b1 && utf8_valid r1
          else match r1 with
          | "" => false
          | String b2 r2 =>
              if in_range 224 224 b0
              then in_range 160 191 b1 && is_cont b2 && utf8_valid r2
              else if in_range 237 237 b0
              then in_range 128 159 b1 && is_cont b2 && utf8_valid r2
              else if in_range 225 239 b0
              then is_cont b1 && is_cont b2 && utf8_valid r2
              else match r2 with
              | "" => false
              | String b3 r3 =>
                  if in_range 240 240 b0
                  then in_range 144 191 b1 && is_cont b2 && is_cont b3
                       && utf8_valid r3
                  else if in_range 241 243 b0
                  then is_cont b1 && is_cont b2 && is_cont b3 && utf8_valid r3
                  else if in_range 244 244 b0
                  then in_range 128 143 b1 && is_cont b2 && is_cont b3
                       && utf8_valid r3
                  else false
              end
          end
      end
  end.

(** [buf.decode()]: the text, or [None] where Python raises
    [UnicodeDecodeError]. *)
Definition decode (buf : string) : option string :=
  if utf8_valid buf then Some buf else None.

(** [len(s)] of a [str]: code points, that is bytes that are not
    continuation bytes. *)
Fixpoint py_len (s : string) : nat :=
  match s with
  | "" => 0%nat
  | String c r => ((if is_cont c then 0 else 1) + py_len r)%nat
  end.

Fixpoint spaces (n : nat) : string :=
  match n with
  | O => ""
  | S n' => String " "%char (spaces n')
  end.

(** [f"{s:>20s}"] and [f"{s:20s}"]. *)
Definition rjust (width : nat) (s : string) : string :=
  spaces (width - py_len s) +:+ s.
Definition ljust (width : nat) (s : string) : string :=
  s +:+ spaces (width - py_len s).

(** Truth value of a [str]. *)
Definition truthy (s : string) : bool :=
  match s with "" => false | _ => true end.

(** [os.path.join] on a directory and a relative name; [os.path.abspath]
    is the identity on the absolute, normalised paths used here. *)
Definition path_join (d f : string) : string := d +:+ "/" +:+ f.

(** ** Data model *)

(** Modelled from the spec: [models.Product] is not under src/; a build unit
    is a name, a version and a content fingerprint. *)
Record Product := {
  name : string;
  version : string;
  sha1 : string;
}.

(** Modelled from the spec: [prepare.Manifest] is not under src/; the builder
    reads its [build_id], the units in build order
    ([product_index.values()]) and [product_index.flat_dependencies]. *)
Record Manifest := {
  build_id : option string;
  product_index : list Product;
  flat_dependencies : Product -> list Product;
}.

(** What [eups.getProduct] hands back: the builder reads [dir] and [tags]. *)
Record EupsProduct := {
  ep_name : string;
  ep_version : string;
  ep_dir : string;
  ep_tags : list string;
}.

(** The EUPS object: declared products by (name, version), the tag name
    space ([tags.getTagNames()]), the tag files saved per path entry, and
    [path]. *)
Record Eups := {
  e_products : gmap (string * string) EupsProduct;
  e_tag_names : list string;
  e_saved_tags : gmap string (list string);
  e_path : list string;
}.

(** The arguments substituted into the build script template. *)
Record Script := {
  s_product : string;
  s_version : string;
  s_sha1 : string;
  s_productdir : string;
  s_setups : list string;
  s_eupsdir : string;
  s_eupspath : string;
}.

(** One [logfp.write] of the log tee: [f"[{stamp}Z] {text}"], the stamp
    being the clock reading rendered by [isoformat]. *)
Record LogWrite := {
  lw_stamp : Z;
  lw_text : string;
}.

(** A YAML document as its representation graph. *)
Inductive Yaml :=
| YStr (s : string)
| YSeq (l : list Yaml)
| YMap (l : list (string * Yaml)).

Inductive File :=
| FScript (s : Script) (executable : bool)
| FLog (l : list LogWrite)
| FStatus (y : Yaml)
| FManifest (m : Manifest)
| FPrInfo (d : gmap string string).

(** What reaches the terminal. *)
Inductive OutEvent :=
| TWrite (s : string)
| TFlush
| TSystemTail (logfile : string)
| TPrInfo (d : option (gmap string string)).

(** The calls the program makes to its collaborators, in program order.
    The trace is an observer's record, not a variable of the program: it is
    what lets "no script is generated" or "[_finalize] runs once" be
    stated. *)
Inductive Event :=
| EvWriteScript (path : string)
| EvSpawn (path : string)
| EvSelect (ready : bool)
| EvRead (c : option ascii)
| EvLogWrite (path : string)
| EvTick
| EvGetProduct (n v : string)
| EvDeclare (n v tag : string)
| EvCopy (src dst : string)
| EvRegisterTag (tag : string)
| EvSaveGlobalTags (path : string)
| EvHttpPost (state : string)
| EvBuildStarted (n : string)
| EvReportResult
| EvFinalize
| EvWriteStatus (path : string).

#[global] Instance Event_eq_dec : EqDecision Event.
Proof. solve_decision. Defined.

Inductive Exn :=
| KeyError (key : string)
| IndexError
| ProductNotFound (n v : string)
| UnicodeDecodeError
| RequestException
| FileNotFoundError (path : string)
| ValueError
| AttributeError
| DirectoryError (build_dir : string)
| SystemExit (code : Z).

Record World := {
  w_environ : gmap string string;
  w_fs : gmap string File;
  w_eups : Eups;
  w_stdout : list OutEvent;
  w_clock_reads : nat;
  w_trace : list Event;
}.

(** The result of [select.select([process.stdout], [], [], 2)] followed by
    [read(1)]: nothing within the interval, or one byte.  The end of the
    list is end-of-file: ready, and the read returns [b""].  A child that
    never closes its output, on which the loop never ends, has no such
    list. *)
Inductive SelectEvent :=
| NotReady
| Ready (c : ascii).

#[global] Instance SelectEvent_eq_dec : EqDecision SelectEvent.
Proof. solve_decision. Defined.

(** A child build script seen from outside: its output as the poll loop
    meets it, the value of [process.poll()] afterwards ([None] while the
    process is still running), and the package database it leaves. *)
Record ChildRun := {
  cr_events : list SelectEvent;
  cr_poll : option Z;
  cr_eups : Eups;
}.

Record Request := {
  rq_url : string;
  rq_authorization : string;
  rq_state : string;
  rq_description : string;
  rq_context : string;
  rq_target_url : string;
}.

Inductive HttpResult :=
| HttpRaise
| HttpResponse (status_code : Z) (text : string).

(** The surroundings the program cannot decide. *)
Record Ext := {
  wall_clock : nat -> Z;
  child : Script -> Eups -> ChildRun;
  requests_post : Request -> HttpResult;
  eups_productDir : string;
  access_w : string -> bool;
  agent_label : string;
  format_1f : Z -> string;
}.

(** ** Operations that return or raise *)

Inductive Res (A : Type) :=
| Ok (a : A)
| Raise (e : Exn).
Arguments Ok {A} a.
Arguments Raise {A} e.

Definition M (A : Type) : Type := World -> Res A * World.

Definition ret {A} (a : A) : M A := fun w => (Ok a, w).
Definition raise {A} (e : Exn) : M A := fun w => (Raise e, w).
Definition bind {A B} (m : M A) (k : A -> M B) : M B :=
  fun w => match m w with
           | (Ok a, w') => k a w'
           | (Raise e, w') => (Raise e, w')
           end.

Declare Scope py_scope.
Delimit Scope py_scope with py.
Notation "x <- c1 ;; c2" := (bind c1 (fun x => c2))
  (at level 100, c1 at next level, right associativity) : py_scope.
Notation "c1 ;; c2" := (bind c1 (fun _ => c2))
  (at level 100, right associativity) : py_scope.
Open Scope py_scope.

(** [try: m  except ProductNotFound: h]. *)
Definition try_ProductNotFound {A} (m : M A) (h : M A) : M A :=
  fun w => match m w with
           | (Raise (ProductNotFound _ _), w') => h w'
           | r => r
           end.

Definition get : M World := fun w => (Ok w, w).
Definition modify (f : World -> World) : M unit := fun w => (Ok tt, f w).

Definition set_environ (env : gmap string string) (w : World) : World :=
  {| w_environ := env; w_fs := w_fs w; w_eups := w_eups w;
     w_stdout := w_stdout w; w_clock_reads := w_clock_reads w;
     w_trace := w_trace w |}.
Definition set_fs (f : gmap string File) (w : World) : World :=
  {| w_environ := w_environ w; w_fs := f; w_eups := w_eups w;
     w_stdout := w_stdout w; w_clock_reads := w_clock_reads w;
     w_trace := w_trace w |}.
Definition set_eups (e : Eups) (w : World) : World :=
  {| w_environ := w_environ w; w_fs := w_fs w; w_eups := e;
     w_stdout := w_stdout w; w_clock_reads := w_clock_reads w;
     w_trace := w_trace w |}.
Definition set_stdout (o : list OutEvent) (w : World) : World :=
  {| w_environ := w_environ w; w_fs := w_fs w; w_eups := w_eups w;
     w_stdout := o; w_clock_reads := w_clock_reads w;
     w_trace := w_trace w |}.
Definition set_clock_reads (n : nat) (w : World) : World :=
  {| w_environ := w_environ w; w_fs := w_fs w; w_eups := w_eups w;
     w_stdout := w_stdout w; w_clock_reads := n;
     w_trace := w_trace w |}.
Definition set_trace (t : list Event) (w : World) : World :=
  {| w_environ := w_environ w; w_fs := w_fs w; w_eups := w_eups w;
     w_stdout := w_stdout w; w_clock_reads := w_clock_reads w;
     w_trace := t |}.

Definition emit (e : Event) : M unit :=
  modify (fun w => set_trace (w_trace w ++ [e]) w).

(** [out.write(s)], [out.flush()], [print(s, file=out)]. *)
Definition out_write (s : string) : M unit :=
  modify (fun w => set_stdout (w_stdout w ++ [TWrite s]) w).
Definition out_flush : M unit :=
  modify (fun w => set_stdout (w_stdout w ++ [TFlush]) w).
Definition print (s : string) : M unit := out_write (s +:+ NL).

(** [os.environ[key]]. *)
Definition environ_get (key : string) : M string :=
  fun w => match w_environ w !! key with
           | Some v => (Ok v, w)
           | None => (Raise (KeyError key), w)
           end.

Definition write_file (path : string) (f : File) : M unit :=
  modify (fun w => set_fs (<[path := f]> (w_fs w)) w).

(** [shutil.copy2(src, dstdir)] of a file whose base name is [base]. *)
Definition copy2 (src dstdir base : string) : M unit :=
  emit (EvCopy src dstdir) ;;
  w <- get ;;
  match w_fs w !! src with
  | Some f => write_file (path_join dstdir base) f
  | None => raise (FileNotFoundError src)
  end.

(** ** The package manager *)

Definition set_products (ps : gmap (string * string) EupsProduct) (e : Eups) : Eups :=
  {| e_products := ps; e_tag_names := e_tag_names e;
     e_saved_tags := e_saved_tags e; e_path := e_path e |}.
Definition set_tag_names (l : list string) (e : Eups) : Eups :=
  {| e_products := e_products e; e_tag_names := l;
     e_saved_tags := e_saved_tags e; e_path := e_path e |}.
Definition set_saved_tags (s : gmap string (list string)) (e : Eups) : Eups :=
  {| e_products := e_products e; e_tag_names := e_tag_names e;
     e_saved_tags := s; e_path := e_path e |}.

(** [eups.getProduct(name, version)]; raises [ProductNotFound]. *)
Definition getProduct (n v : string) : M EupsProduct :=
  emit (EvGetProduct n v) ;;
  w <- get ;;
  match e_products (w_eups w) !! (n, v) with
  | Some ep => ret ep
  | None => raise (ProductNotFound n v)
  end.

Definition add_tag (tag : string) (ep : EupsProduct) : EupsProduct :=
  {| ep_name := ep_name ep; ep_version := ep_version ep;
     ep_dir := ep_dir ep; ep_tags := ep_tags ep ++ [tag] |}.

(** [eups.declare(name, version, tag=tag)] on a declared product: one more
    entry in its tags. *)
Definition eups_declare (n v tag : string) : M unit :=
  emit (EvDeclare n v tag) ;;
  modify (fun w =>
    set_eups (set_products (alter (add_tag tag) (n, v) (e_products (w_eups w)))
                           (w_eups w)) w).

(** [tags.registerTag(tag)] and [tags.saveGlobalTags(path)]. *)
Definition registerTag (tag : string) : M unit :=
  emit (EvRegisterTag tag) ;;
  modify (fun w => set_eups (set_tag_names (e_tag_names (w_eups w) ++ [tag]) (w_eups w)) w).
Definition saveGlobalTags (path : string) : M unit :=
  emit (EvSaveGlobalTags path) ;;
  modify (fun w =>
    set_eups (set_saved_tags (<[path := e_tag_names (w_eups w)]> (e_saved_tags (w_eups w)))
                             (w_eups w)) w).

(** [eups_obj.path[0]]. *)
Definition eups_path0 : M string :=
  w <- get ;;
  match e_path (w_eups w) with
  | p :: _ => ret p
  | [] => raise IndexError
  end.

(** ** product_representer *)

Definition product_representer (data : Product) : Yaml :=
  YMap [("name", YStr (name data));
        ("sha1", YStr (sha1 data));
        ("version", YStr (version data))].

(** ** declare_eups_tag *)

Definition declare_eups_tag (tag : string) : M unit :=
  w <- get ;;
  if negb (bool_decide (tag ∈ e_tag_names (w_eups w))) then
    registerTag tag ;;
    p <- eups_path0 ;;
    saveGlobalTags p
  else ret tt.

(** ** ProgressReporter *)

(** The clock counts microseconds; [self.t += 2] adds two seconds. *)
Definition two_seconds : Z := 2000000.

(** The leading continuation bytes of [s], and the rest. *)
Fixpoint take_cont (s : string) : string * string :=
  match s with
  | "" => ("", "")
  | String c r =>
      if is_cont c then let (a, b) := take_cont r in (String c a, b)
      else ("", s)
  end.

(** [(s[0], s[1:])] of a non-empty [str]. *)
Definition py_uncons (s : string) : option (string * string) :=
  match s with
  | "" => None
  | String c r => let (a, b) := take_cont r in Some (String c a, b)
  end.

Record ProductProgressReporter := {
  product : option Product;
  progress_bar : string;
  t0 : Z;
  t : Z;
}.

Definition set_product (o : option Product) (p : ProductProgressReporter) :=
  {| product := o; progress_bar := progress_bar p; t0 := t0 p; t := t p |}.
Definition set_progress_bar (s : string) (p : ProductProgressReporter) :=
  {| product := product p; progress_bar := s; t0 := t0 p; t := t p |}.
Definition set_t (z : Z) (p : ProductProgressReporter) :=
  {| product := product p; progress_bar := progress_bar p; t0 := t0 p; t := z |}.

(** [__init__]: [progress_bar], [t0] and [t] exist only once
    [_build_started] has run; until then they hold placeholders. *)
Definition ppr_init (p : Product) : ProductProgressReporter :=
  {| product := Some p; progress_bar := ""; t0 := 0; t := 0 |}.

Section WithExt.
Variable X : Ext.

(** [time.time()] and [datetime.datetime.utcnow()]: the next reading. *)
Definition now : M Z :=
  fun w => (Ok (wall_clock X (w_clock_reads w)),
            set_clock_reads (S (w_clock_reads w)) w).

Definition product_name (p : ProductProgressReporter) : M string :=
  match product p with
  | Some pr => ret (name pr)
  | None => raise AttributeError
  end.

Definition product_version (p : ProductProgressReporter) : M string :=
  match product p with
  | Some pr => ret (version pr)
  | None => raise AttributeError
  end.

Definition _build_started (p : ProductProgressReporter) : M ProductProgressReporter :=
  n <- product_name p ;;
  emit (EvBuildStarted n) ;;
  out_write (rjust 20 n +:+ ": ") ;;
  out_flush ;;
  v <- product_version p ;;
  now0 <- now ;;
  ret {| product := product p; progress_bar := v +:+ " ";
         t0 := now0; t := now0 |}.

(** The [while self.t <= t1] loop; [fuel] bounds its iterations. *)
Fixpoint progress_loop (fuel : nat) (t1 : Z) (p : ProductProgressReporter)
  : M ProductProgressReporter :=
  match fuel with
  | O => ret p
  | S fuel' =>
      if Z.leb (t p) t1 then
        p' <- match py_uncons (progress_bar p) with
              | Some (c, rest) => out_write c ;; ret (set_progress_bar rest p)
              | None => out_write "." ;; ret p
              end ;;
        out_flush ;;
        progress_loop fuel' t1 (set_t (t p' + two_seconds) p')
      else ret p
  end.

Definition report_progress (p : ProductProgressReporter) : M ProductProgressReporter :=
  emit EvTick ;;
  t1 <- now ;;
  progress_loop (Z.to_nat ((t1 - t p) / two_seconds + 1)) t1 p.

Definition retcode_truthy (retcode : option Z) : bool :=
  match retcode with
  | Some rc => negb (Z.eqb rc 0)
  | None => false
  end.

Definition report_result (p : ProductProgressReporter) (retcode : option Z)
    (logfile : option string) : M ProductProgressReporter :=
  emit EvReportResult ;;
  (if truthy (progress_bar p)
   then out_write (progress_bar p) ;; out_flush
   else ret tt) ;;
  match logfile with
  | None => out_write ("(already installed)." +:+ NL) ;; out_flush
  | Some lf =>
      t1 <- now ;;
      let elapsed_time := t1 - t0 p in
      (if retcode_truthy retcode then
         print ("ERROR (" +:+ format_1f X elapsed_time +:+ " sec).") ;;
         n <- product_name p ;;
         print ("*** error building product " +:+ n +:+ ".") ;;
         print ("*** exit code = " +:+ from_option pretty "None" retcode) ;;
         print ("*** log is in " +:+ lf) ;;
         print "*** last few lines:" ;;
         modify (fun w => set_stdout (w_stdout w ++ [TSystemTail lf]) w)
       else
         print ("ok (" +:+ format_1f X elapsed_time +:+ " sec).")) ;;
      out_flush
  end ;;
  ret (set_product None p).

Definition _finalize (p : ProductProgressReporter) : M unit :=
  emit EvFinalize ;;
  match product p with
  | Some _ => out_write NL ;; out_flush
  | None => ret tt
  end.

(** [with self.progress.new_build(product) as progress: body].  The
    generator runs up to its [yield]; when the body returns, the generator
    is resumed and runs [_finalize]; when the body raises, the exception is
    thrown into the generator at the [yield], which has no handler, and
    leaves it.  The body hands back the reporter it was given, with the
    changes it made to it. *)
Definition new_build {A} (prod : Product)
    (body : ProductProgressReporter -> M (A * ProductProgressReporter)) : M A :=
  progress <- _build_started (ppr_init prod) ;;
  fun w =>
    match body progress w with
    | (Ok (a, progress'), w') => (_finalize progress' ;; ret a) w'
    | (Raise e, w') => (Raise e, w')
    end.

End WithExt.

(** ** Builder *)

Record Builder := {
  build_dir : string;
  manifest : Manifest;
  built : list Product;
  failed_at : option Product;
}.

(** [Builder.__init__]. *)
Definition new_Builder (dir : string) (m : Manifest) : Builder :=
  {| build_dir := dir; manifest := m; built := []; failed_at := None |}.

Definition append_built (u : Product) (b : Builder) : Builder :=
  {| build_dir := build_dir b; manifest := manifest b;
     built := built b ++ [u]; failed_at := failed_at b |}.
Definition set_failed_at (u : Product) (b : Builder) : Builder :=
  {| build_dir := build_dir b; manifest := manifest b;
     built := built b; failed_at := Some u |}.

Definition productdir (b : Builder) (p : Product) : string :=
  path_join (build_dir b) (name p).
Definition buildscript (b : Builder) (p : Product) : string :=
  path_join (productdir b p) "_build.sh".
Definition logfile_of (b : Builder) (p : Product) : string :=
  path_join (productdir b p) "_build.log".

Definition status_file (b : Builder) : string :=
  path_join (build_dir b) "status.yaml".

(** [self.manifest.build_id not in eups_prod.tags]. *)
Definition build_id_not_in (bid : option string) (tags : list string) : bool :=
  match bid with
  | Some tag => negb (bool_decide (tag ∈ tags))
  | None => true
  end.

Definition _tag_product (n v : string) (tag : option string) : M unit :=
  match tag with
  | Some tg => if truthy tg then eups_declare n v tg else ret tt
  | None => ret tt
  end.

(** [logfp.write(line)]. *)
Definition log_write (logfile : string) (lw : LogWrite) : M unit :=
  emit (EvLogWrite logfile) ;;
  modify (fun w =>
    set_fs (<[logfile := FLog (match w_fs w !! logfile with
                               | Some (FLog l) => l ++ [lw]
                               | _ => [lw]
                               end)]> (w_fs w)) w).

Definition is_line_end (c : option ascii) : bool :=
  match c with
  | None => true
  | Some ch => bool_decide (ch = LF)
  end.

Definition bytes_of_read (c : option ascii) : string :=
  match c with
  | None => ""
  | Some ch => String ch ""
  end.

Section BuilderOps.
Variable X : Ext.

(** One read of the log tee (lines 266-271): [c] is the byte read, [None]
    for [b""]; the result is the new [buf]. *)
Definition tee_byte (logfile : string) (c : option ascii) (buf : string) : M string :=
  let buf := buf +:+ bytes_of_read c in
  if is_line_end c && truthy buf then
    stamp <- now X ;;
    match decode buf with
    | Some text =>
        log_write logfile {| lw_stamp := stamp; lw_text := text |} ;;
        ret ""
    | None => raise UnicodeDecodeError
    end
  else ret buf.

(** The [while True] loop of [_build_product] (lines 262-275) over what
    [select] and [read(1)] bring, up to end-of-file. *)
Fixpoint drain (logfile : string) (evs : list SelectEvent) (buf : string)
    (progress : ProductProgressReporter) : M ProductProgressReporter :=
  match evs with
  | [] =>
      emit (EvSelect true) ;;
      emit (EvRead None) ;;
      _ <- tee_byte logfile None buf ;;
      ret progress
  | NotReady :: evs' =>
      emit (EvSelect false) ;;
      progress' <- report_progress X progress ;;
      drain logfile evs' buf progress'
  | Ready c :: evs' =>
      emit (EvSelect true) ;;
      emit (EvRead (Some c)) ;;
      buf' <- tee_byte logfile (Some c) buf ;;
      progress' <- report_progress X progress ;;
      drain logfile evs' buf' progress'
  end.

(** [not retcode]. *)
Definition retcode_falsy (retcode : option Z) : bool :=
  negb (retcode_truthy retcode).

(** Lines 277-285 of [_build_product]. *)
Definition collect_result (product : Product) (retcode : option Z) (logfile : string)
  : M (option EupsProduct * option Z * option string) :=
  if retcode_falsy retcode then
    eups_prod <- getProduct (name product) (version product) ;;
    copy2 logfile (ep_dir eups_prod) "_build.log" ;;
    ret (Some eups_prod, retcode, Some logfile)
  else
    ret (None, retcode, Some logfile).

Definition make_script (b : Builder) (product : Product) (eupspath : string) : Script :=
  {| s_product := name product;
     s_version := version product;
     s_sha1 := sha1 product;
     s_productdir := productdir b product;
     s_setups := map (fun dep => String TAB (ljust 20 (name dep)) +:+ " " +:+ version dep)
                     (flat_dependencies (manifest b) product);
     s_eupsdir := eups_productDir X;
     s_eupspath := eupspath |}.

(** Lines 175-251 of [_build_product]: the build script is written and made
    executable. *)
Definition write_buildscript (b : Builder) (product : Product) : M Script :=
  eupspath <- environ_get "EUPS_PATH" ;;
  let script := make_script b product eupspath in
  emit (EvWriteScript (buildscript b product)) ;;
  write_file (buildscript b product) (FScript script false) ;;
  write_file (buildscript b product) (FScript script true) ;;
  ret script.

(** Lines 254-275 of [_build_product]: the log file is opened, the script
    started, and its output drained into the log. *)
Definition run_buildscript (script : Script) (scriptfile logfile : string)
    (progress : ProductProgressReporter)
  : M (ChildRun * ProductProgressReporter) :=
  write_file logfile (FLog []) ;;
  emit (EvSpawn scriptfile) ;;
  w <- get ;;
  let process := child X script (w_eups w) in
  progress' <- drain logfile (cr_events process) "" progress ;;
  modify (set_eups (cr_eups process)) ;;
  ret (process, progress').

Definition _build_product (b : Builder) (product : Product)
    (progress : ProductProgressReporter)
  : M ((option EupsProduct * option Z * option string) * ProductProgressReporter) :=
  script <- write_buildscript b product ;;
  r <- run_buildscript script (buildscript b product) (logfile_of b product) progress ;;
  res <- collect_result product (cr_poll (fst r)) (logfile_of b product) ;;
  ret (res, snd r).

(** [retcode == 0]. *)
Definition retcode_is_zero (retcode : option Z) : bool :=
  match retcode with
  | Some rc => Z.eqb rc 0
  | None => false
  end.

(** Lines 291-295: the installed product, or the build. *)
Definition installed_or_build (b : Builder) (product : Product)
    (progress : ProductProgressReporter)
  : M ((option EupsProduct * option Z * option string) * ProductProgressReporter) :=
  try_ProductNotFound
    (eups_prod <- getProduct (name product) (version product) ;;
     ret ((Some eups_prod, Some 0, None), progress))
    (_build_product b product progress).

(** Lines 297-298. *)
Definition tag_if_missing (b : Builder) (product : Product)
    (eups_prod : option EupsProduct) : M unit :=
  match eups_prod with
  | Some ep =>
      if build_id_not_in (build_id (manifest b)) (ep_tags ep)
      then _tag_product (name product) (version product) (build_id (manifest b))
      else ret tt
  | None => ret tt
  end.

Definition _build_product_if_needed (b : Builder) (product : Product) : M bool :=
  retcode <- new_build X product (fun progress =>
    r <- installed_or_build b product progress ;;
    let '((eups_prod, retcode, logfile), progress) := r in
    tag_if_missing b product eups_prod ;;
    progress <- report_result X progress retcode logfile ;;
    ret (retcode, progress)) ;;
  ret (retcode_is_zero retcode).

(** The [for] loop of [build]. *)
Fixpoint build_loop (b : Builder) (units : list Product) : M (bool * Builder) :=
  match units with
  | [] => ret (true, b)
  | u :: rest =>
      ok <- _build_product_if_needed b u ;;
      if ok then build_loop (append_built u b) rest
      else ret (false, set_failed_at u b)
  end.

(** Lines 306-307 of [build]. *)
Definition declare_build_tag (b : Builder) : M unit :=
  match build_id (manifest b) with
  | Some tag => if truthy tag then declare_eups_tag tag else ret tt
  | None => ret tt
  end.

Definition build (b : Builder) : M (bool * Builder) :=
  declare_build_tag b ;;
  build_loop b (product_index (manifest b)).

Definition rm_status (b : Builder) : M unit :=
  w <- get ;;
  match w_fs w !! status_file b with
  | Some _ => modify (fun w => set_fs (delete (status_file b) (w_fs w)) w)
  | None => ret tt
  end.

Definition status_yaml (b : Builder) : Yaml :=
  YMap (("built", YSeq (map product_representer (built b))) ::
        match failed_at b with
        | Some u => [("failed_at", product_representer u)]
        | None => []
        end).

Definition write_status (b : Builder) : M unit :=
  emit (EvWriteStatus (status_file b)) ;;
  write_file (status_file b) (FStatus (status_yaml b)).

Definition load_pr_info (dir : string) : M (option (gmap string string)) :=
  w <- get ;;
  match w_fs w !! path_join dir "pr_info.json" with
  | Some (FPrInfo d) => ret (Some d)
  | Some _ => raise ValueError
  | None => ret None
  end.

(** [pr_info[key]]. *)
Definition dict_get (d : gmap string string) (key : string) : M string :=
  match d !! key with
  | Some v => ret v
  | None => raise (KeyError key)
  end.

Definition post_github_status (pr_info : gmap string string)
    (state description agent : string) : M unit :=
  print ("Posting GitHub status: " +:+ state +:+ " - " +:+ description) ;;
  token <- environ_get "GITHUB_TOKEN" ;;
  if negb (truthy token) then
    print "GITHUB_TOKEN not found in environment variables."
  else
    owner <- dict_get pr_info "owner" ;;
    repo <- dict_get pr_info "repo" ;;
    sha <- dict_get pr_info "sha" ;;
    let url := "https://api.github.com/repos/" +:+ owner +:+ "/" +:+ repo
               +:+ "/statuses/" +:+ sha in
    build_url <- environ_get "BUILD_URL" ;;
    let request := {| rq_url := url;
                      rq_authorization := "token " +:+ token;
                      rq_state := state;
                      rq_description := description;
                      rq_context := "Jenkins Build (" +:+ agent +:+ ")";
                      rq_target_url := build_url |} in
    emit (EvHttpPost state) ;;
    match requests_post X request with
    | HttpRaise => raise RequestException
    | HttpResponse status_code text =>
        if Z.eqb status_code 201 then
          print "GitHub status posted successfully."
        else
          print ("Failed to post GitHub status: " +:+ pretty status_code
                 +:+ " - " +:+ text)
    end.

(** [pr_info and agent != "error"]. *)
Definition notify_enabled (pr_info : option (gmap string string)) (agent : string) : bool :=
  match pr_info with
  | Some d => negb (bool_decide (d = ∅)) && negb (bool_decide (agent = "error"))
  | None => false
  end.

Definition open_manifest (path : string) : M Manifest :=
  w <- get ;;
  match w_fs w !! path with
  | Some (FManifest m) => ret m
  | Some _ => raise ValueError
  | None => raise (FileNotFoundError path)
  end.

(** [Builder.run(args)] with [args.build_dir = dir]; it ends in
    [sys.exit], that is by raising [SystemExit]. *)
Definition run (dir : string) : M unit :=
  let agent := agent_label X in
  (if access_w X dir then ret tt else raise (DirectoryError dir)) ;;
  m <- open_manifest (path_join dir "manifest.txt") ;;
  pr_info <- load_pr_info dir ;;
  modify (fun w => set_stdout (w_stdout w ++ [TPrInfo pr_info]) w) ;;
  let b := new_Builder dir m in
  rm_status b ;;
  (if notify_enabled pr_info agent then
     print "Github status pending" ;;
     post_github_status (default ∅ pr_info) "pending"
                        ("Build started on " +:+ agent) agent
   else ret tt) ;;
  r <- build b ;;
  let '(retcode, b) := r in
  (if notify_enabled pr_info agent then
     post_github_status (default ∅ pr_info)
                        (if retcode then "success" else "failure")
                        ("Build " +:+ (if retcode then "succeeded" else "failed")
                         +:+ " on " +:+ agent) agent
   else ret tt) ;;
  write_status b ;;
  raise (SystemExit (if retcode then 0 else 1)).

End BuilderOps.

(** The exit status of the interpreter: the code of [SystemExit], 1 for
    any other exception that reaches the top level. *)
Definition exit_status (r : Res unit) : Z :=
  match r with
  | Ok _ => 0
  | Raise (SystemExit code) => code
  | Raise _ => 1
  end.

(** ** Reading the status record back *)

Fixpoint yaml_get (key : string) (l : list (string * Yaml)) : option Yaml :=
  match l with
  | [] => None
  | (k, v) :: r => if String.eqb k key then Some v else yaml_get key r
  end.

Definition yaml_str (y : option Yaml) : option string :=
  match y with
  | Some (YStr s) => Some s
  | _ => None
  end.

(** Modelled from the spec: no reader of [status.yaml] is under src/; a
    reloaded unit is identified by its name, version and fingerprint. *)
Definition load_product (y : Yaml) : option Product :=
  match y with
  | YMap l =>
      match yaml_str (yaml_get "name" l), yaml_str (yaml_get "version" l),
            yaml_str (yaml_get "sha1" l) with
      | Some n, Some v, Some s => Some {| name := n; version := v; sha1 := s |}
      | _, _, _ => None
      end
  | _ => None
  end.

Fixpoint load_products (ys : list Yaml) : option (list Product) :=
  match ys with
  | [] => Some []
  | y :: r =>
      match load_product y, load_products r with
      | Some p, Some ps => Some (p :: ps)
      | _, _ => None
      end
  end.

(** Modelled from the spec: no reader of [status.yaml] is under src/; the
    reloaded record is the [built] sequence and [failed_at], absent when
    the document has no such key. *)
Definition load_status (y : Yaml) : option (list Product * option Product) :=
  match y with
  | YMap l =>
      match yaml_get "built" l with
      | Some (YSeq ys) =>
          match load_products ys with
          | Some bs =>
              match yaml_get "failed_at" l with
              | None => Some (bs, None)
              | Some f =>
                  match load_product f with
                  | Some p => Some (bs, Some p)
                  | None => None
                  end
              end
          | None => None
          end
      | _ => None
      end
  | _ => None
  end.

Definition reload_status (b : Builder) : M (list Product * option Product) :=
  w <- get ;;
  match w_fs w !! status_file b with
  | Some (FStatus y) =>
      match load_status y with
      | Some r => ret r
      | None => raise ValueError
      end
  | Some _ => raise ValueError
  | None => raise (FileNotFoundError (status_file b))
  end.

(** The top-level keys of a YAML mapping. *)
Definition yaml_keys (y : Yaml) : list string :=
  match y with
  | YMap l => map fst l
  | _ => []
  end.

(** ** Vocabulary of the properties *)

(** [m] raises only exceptions that satisfy [P]. *)
Definition raises_only (P : Exn -> Prop) {A} (m : M A) : Prop :=
  forall w e w', m w = (Raise e, w') -> P e.

Definition not_exit (e : Exn) : Prop :=
  match e with
  | SystemExit _ => False
  | _ => True
  end.

(** The events added to the trace between [w] and [w']. *)
Definition new_events (w w' : World) : list Event :=
  drop (length (w_trace w)) (w_trace w').

(** Each unit of [us], in turn, is built or found installed: world [w]
    becomes world [w']. *)
Fixpoint units_succeed (X : Ext) (b : Builder) (us : list Product)
    (w w' : World) : Prop :=
  match us with
  | [] => w' = w
  | u :: rest =>
      exists w1, _build_product_if_needed X b u w = (Ok true, w1)
                 /\ units_succeed X b rest w1 w'
  end.

(** The events of lines 297-298 for an installed product [ep]. *)
Definition tag_events (b : Builder) (u : Product) (ep : EupsProduct) : list Event :=
  if build_id_not_in (build_id (manifest b)) (ep_tags ep) then
    match build_id (manifest b) with
    | Some tg => if truthy tg then [EvDeclare (name u) (version u) tg] else []
    | None => []
    end
  else [].

(** The package database after lines 297-298 for an installed product. *)
Definition tagged_eups (b : Builder) (u : Product) (ep : EupsProduct) (e : Eups) : Eups :=
  if build_id_not_in (build_id (manifest b)) (ep_tags ep) then
    match build_id (manifest b) with
    | Some tg =>
        if truthy tg
        then set_products (alter (add_tag tg) (name u, version u) (e_products e)) e
        else e
    | None => e
    end
  else e.

(** Two worlds that differ in what was written to the terminal only. *)
Definition same_but_stdout (w w' : World) : Prop :=
  w_environ w' = w_environ w /\ w_fs w' = w_fs w /\ w_eups w' = w_eups w
  /\ w_clock_reads w' = w_clock_reads w /\ w_trace w' = w_trace w.

(** The bytes of a child's output, in order. *)
Fixpoint stream_bytes (evs : list SelectEvent) : string :=
  match evs with
  | [] => ""
  | NotReady :: r => stream_bytes r
  | Ready c :: r => String c (stream_bytes r)
  end.

(** The lines of [cur] followed by [s], each with its terminator; the last
    one may lack it. *)
Fixpoint split_lines (cur s : string) : list string :=
  match s with
  | "" => if truthy cur then [cur] else []
  | String c r =>
      if bool_decide (c = LF)
      then (cur +:+ String c "") :: split_lines "" r
      else split_lines (cur +:+ String c "") r
  end.

(** The log writes with the texts [lines], stamped with the clock readings
    numbered [idxs]. *)
Definition stamped (X : Ext) (idxs : list nat) (lines : list string) : list LogWrite :=
  zip_with (fun n text => {| lw_stamp := wall_clock X n; lw_text := text |}) idxs lines.

(** For each line of the stream [evs], with [buf] read before it: the number
    of readings of the clock made before the end of the line was read, so
    that reading number [k] of the list is the first one after the [k]-th
    line end was observed.  [n] readings were made before the loop; every
    iteration that does not meet end-of-file makes one, for its progress
    tick, and every line written makes one, for its stamp. *)
Fixpoint line_end_readings (n : nat) (buf : string) (evs : list SelectEvent) : list nat :=
  match evs with
  | [] => if truthy buf then [n] else []
  | NotReady :: r => line_end_readings (S n) buf r
  | Ready c :: r =>
      if bool_decide (c = LF) then n :: line_end_readings (S (S n)) "" r
      else line_end_readings (S n) (buf +:+ String c "") r
  end.

(** The events of one iteration of the poll loop that does not meet
    end-of-file. *)
Definition iteration_events (logfile : string) (e : SelectEvent) : list Event :=
  match e with
  | NotReady => [EvSelect false; EvTick]
  | Ready c =>
      [EvSelect true; EvRead (Some c)]
      ++ (if bool_decide (c = LF) then [EvLogWrite logfile] else [])
      ++ [EvTick]
  end.

(** The number of calls of [report_progress] in a trace, and the number of
    waits of [select] that ended with nothing to read. *)
Definition ticks (evs : list Event) : nat :=
  length (filter (fun e => e = EvTick) evs).
Definition idle_waits (evs : list SelectEvent) : nat :=
  length (filter (fun e => e = NotReady) evs).

(** The clock never steps back. *)
Definition clock_monotone (X : Ext) : Prop :=
  forall i j : nat, (i <= j)%nat -> wall_clock X i <= wall_clock X j.

(** [b] with the units [us] appended to [built]. *)
Definition add_built (us : list Product) (b : Builder) : Builder :=
  {| build_dir := build_dir b; manifest := manifest b;
     built := built b ++ us; failed_at := failed_at b |}.

(** [emits P m]: [m] only appends to the trace, and every event it appends
    satisfies [P]. *)
Definition emits (P : Event -> Prop) {A} (m : M A) : Prop :=
  forall w, exists evs, w_trace (snd (m w)) = w_trace w ++ evs /\ Forall P evs.

(** Script files are written at the paths [paths] only. *)
Definition script_only (paths : list string) (e : Event) : Prop :=
  match e with
  | EvWriteScript p => p ∈ paths
  | _ => True
  end.

(** An event of the build of a unit: no tag is registered or saved, and
    scripts are written at the paths [paths] only. *)
Definition unit_event (paths : list string) (e : Event) : Prop :=
  match e with
  | EvWriteScript p => p ∈ paths
  | EvRegisterTag _ | EvSaveGlobalTags _ => False
  | _ => True
  end.

(** The tag registrations in a trace. *)
Definition registrations (evs : list Event) : list string :=
  omap (fun e => match e with EvRegisterTag tg => Some tg | _ => None end) evs.

(** ** A concrete scenario

    Three units, [afw], [base] (which depends on [afw]) and [obs]; a clock
    that advances one second per reading; a child script that fails for
    [base], and one that prints two lines and installs the product for the
    others. *)
Module Scenario.

Definition afw : Product := {| name := "afw"; version := "v1"; sha1 := "abc" |}.
Definition base : Product := {| name := "base"; version := "v2"; sha1 := "def" |}.
Definition obs : Product := {| name := "obs"; version := "v3"; sha1 := "123" |}.

Definition man : Manifest :=
  {| build_id := Some "b42";
     product_index := [afw; base; obs];
     flat_dependencies := fun p => if String.eqb (name p) "base" then [afw] else [] |}.

Definition eups0 : Eups :=
  {| e_products := ∅; e_tag_names := ["current"]; e_saved_tags := ∅;
     e_path := ["/stack"] |}.

Definition installed (n v : string) (tags : list string) : EupsProduct :=
  {| ep_name := n; ep_version := v; ep_dir := "/stack/" +:+ n; ep_tags := tags |}.

Definition install (s : Script) (e : Eups) : Eups :=
  set_products (<[(s_product s, s_version s) := installed (s_product s) (s_version s) []]>
                  (e_products e)) e.

Definition afw_output : list SelectEvent :=
  [Ready "h"%char; Ready "i"%char; Ready LF; NotReady; Ready "z"%char].

Definition ext : Ext :=
  {| wall_clock := fun n => Z.of_nat n * 1000000;
     child := fun s e =>
       if String.eqb (s_product s) "base"
       then {| cr_events := [Ready "x"%char; NotReady]; cr_poll := Some 1; cr_eups := e |}
       else {| cr_events := afw_output; cr_poll := Some 0; cr_eups := install s e |};
     requests_post := fun _ => HttpResponse 201 "";
     eups_productDir := "/stack/eups";
     access_w := fun _ => true;
     agent_label := "linux";
     format_1f := fun z => pretty (z / 1000000) +:+ "." +:+ pretty ((z / 100000) mod 10) |}.

Definition world0 : World :=
  {| w_environ := {["EUPS_PATH" := "/stack"]};
     w_fs := {["/b/manifest.txt" := FManifest man]};
     w_eups := eups0;
     w_stdout := [];
     w_clock_reads := 0;
     w_trace := [] |}.

Definition builder0 : Builder := new_Builder "/b" man.

(** The worlds of a build of [man] from [world0]: the tag declared, then
    [afw] built, then [base] attempted. *)
Definition world_tagged : World := snd (declare_build_tag builder0 world0).
Definition world_afw : World :=
  snd (_build_product_if_needed ext builder0 afw world_tagged).
Definition world_base : World :=
  snd (_build_product_if_needed ext builder0 base world_afw).

Definition pr_info : gmap string string :=
  {["owner" := "lsst"; "repo" := "afw"; "sha" := "c0ffee"; "pr_number" := "7"]}.

(** A manifest whose units all build, and its world; the same world with
    a PR context file, so that status notification is on; and that one with
    the credential, and with the credential and the build URL. *)
Definition man_ok : Manifest :=
  {| build_id := Some "b42";
     product_index := [afw; obs];
     flat_dependencies := fun _ => [] |}.
Definition world_ok : World :=
  set_fs {["/b/manifest.txt" := FManifest man_ok]} world0.
Definition world_pr : World :=
  set_fs (<["/b/pr_info.json" := FPrInfo pr_info]> (w_fs world_ok)) world_ok.
Definition world_pr_token : World :=
  set_environ (<["GITHUB_TOKEN" := "s3cret"]> (w_environ world_pr)) world_pr.
Definition world_pr_full : World :=
  set_environ (<["BUILD_URL" := "https://ci/42"]> (w_environ world_pr_token))
              world_pr_token.

(** The GitHub endpoint unreachable for the final status. *)
Definition ext_offline : Ext :=
  {| wall_clock := wall_clock ext;
     child := child ext;
     requests_post := fun rq =>
       if String.eqb (rq_state rq) "pending" then HttpResponse 201 "" else HttpRaise;
     eups_productDir := eups_productDir ext;
     access_w := access_w ext;
     agent_label := agent_label ext;
     format_1f := format_1f ext |}.

(** [world0] without [EUPS_PATH]. *)
Definition world_noenv : World := set_environ ∅ world0.

(** A clock that steps back by one second at every reading. *)
Definition ext_backwards : Ext :=
  {| wall_clock := fun n => 100000000 - Z.of_nat n * 1000000;
     child := child ext;
     requests_post := requests_post ext;
     eups_productDir := eups_productDir ext;
     access_w := access_w ext;
     agent_label := agent_label ext;
     format_1f := format_1f ext |}.

(** [world0] with [afw] installed and untagged. *)
Definition world_installed : World :=
  set_eups (set_products {[("afw", "v1") := installed "afw" "v1" []]} eups0) world0.

(** [world0] with the log of [afw] just opened. *)
Definition afw_log : string := "/b/afw/_build.log".
Definition world_log : World :=
  set_fs (<[afw_log := FLog []]> (w_fs world0)) world0.

(** A reporter in the state [_build_started] leaves it in. *)
Definition reporter0 : ProductProgressReporter :=
  {| product := Some afw; progress_bar := "v1 "; t0 := 0; t := 0 |}.

(** The build of one unit from [world0], phase by phase. *)
Definition script_of (u : Product) : Script := make_script ext builder0 u "/stack".
Definition world_script (u : Product) : World :=
  snd (write_buildscript ext builder0 u world0).
Definition world_ran (u : Product) : World :=
  snd (run_buildscript ext (script_of u) (buildscript builder0 u)
                       (logfile_of builder0 u) reporter0 (world_script u)).

End Scenario.

(** ** Vocabulary of the further properties *)

(** What was written to the terminal between [w] and [w']. *)
Definition new_output (w w' : World) : list OutEvent :=
  drop (length (w_stdout w)) (w_stdout w').

(** The strings written, in order, and put together. *)
Definition writes (o : list OutEvent) : list string :=
  omap (fun e => match e with TWrite s => Some s | _ => None end) o.
Definition written_text (o : list OutEvent) : string :=
  String.concat "" (writes o).

(** [k] filler dots. *)
Fixpoint dots (k : nat) : string :=
  match k with
  | O => ""
  | S k' => String "."%char (dots k')
  end.

(** The progress bar went from that of [p] to that of [p'] while [out] was
    written: the text written, followed by the bar that is left, is the
    bar as it was followed by [k] dots, and dots come only once the bar is
    used up. *)
Definition bar_progress (p p' : ProductProgressReporter) (out : list OutEvent) : Prop :=
  exists k, written_text out +:+ progress_bar p' = progress_bar p +:+ dots k
            /\ (k <> 0%nat -> progress_bar p' = "").

(** The states posted to the status endpoint, in order. *)
Definition posted_states (evs : list Event) : list string :=
  omap (fun e => match e with EvHttpPost st => Some st | _ => None end) evs.

(** The world and the reporter with which the body of the [with] block of
    [_build_product_if_needed] starts. *)
Definition started (X : Ext) (u : Product) (w : World)
  : Res ProductProgressReporter * World :=
  _build_started X (ppr_init u) w.

(** The world in which [_build_product] starts for a unit that is not
    installed: after the reporter was started and the lookup failed. *)
Definition lookup_world (X : Ext) (u : Product) (w : World) : World :=
  snd (getProduct (name u) (version u) (snd (started X u w))).

(** The reporter [_build_started] makes at the clock reading [now0]. *)
Definition started_reporter (u : Product) (now0 : Z) : ProductProgressReporter :=
  {| product := Some u; progress_bar := version u +:+ " "; t0 := now0; t := now0 |}.

(** What [report_result] writes for a build with log file [lf] that ended
    with [retcode], [elapsed] after the start: the rest of the progress
    bar, then the result. *)
Definition bar_rest (p : ProductProgressReporter) : list OutEvent :=
  if truthy (progress_bar p) then [TWrite (progress_bar p); TFlush] else [].
Definition result_block (X : Ext) (n : string) (retcode : option Z) (lf : string)
    (elapsed : Z) : list OutEvent :=
  if retcode_truthy retcode then
    [TWrite (("ERROR (" +:+ format_1f X elapsed +:+ " sec).") +:+ NL);
     TWrite (("*** error building product " +:+ n +:+ ".") +:+ NL);
     TWrite (("*** exit code = " +:+ from_option pretty "None" retcode) +:+ NL);
     TWrite (("*** log is in " +:+ lf) +:+ NL);
     TWrite ("*** last few lines:" +:+ NL);
     TSystemTail lf; TFlush]
  else
    [TWrite (("ok (" +:+ format_1f X elapsed +:+ " sec).") +:+ NL); TFlush].

(** The PR context [load_pr_info] finds in [w], if any. *)
Definition pr_info_of (dir : string) (w : World) : option (gmap string string) :=
  match w_fs w !! path_join dir "pr_info.json" with
  | Some (FPrInfo d) => Some d
  | _ => None
  end.

(** An event of the build of a unit, tagging apart. *)
Definition unit_op (e : Event) : Prop :=
  match e with
  | EvDeclare _ _ _ | EvRegisterTag _ | EvSaveGlobalTags _
  | EvHttpPost _ | EvWriteStatus _ => False
  | _ => True
  end.

(** Every step of [m] takes a world to one related to it by [R]. *)
Definition changes_only (R : World -> World -> Prop) {A} (m : M A) : Prop :=
  forall w, R w (snd (m w)).

(** An event other than a status post. *)
Definition not_post (e : Event) : Prop :=
  match e with
  | EvHttpPost _ => False
  | _ => True
  end.

(** An event of a build whose manifest has build id [tag]: tags are
    declared, registered and saved for a non-empty [tag] only, no status is
    posted and no status record written. *)
Definition build_event (tag : option string) (e : Event) : Prop :=
  match e with
  | EvDeclare _ _ t | EvRegisterTag t => tag = Some t /\ truthy t = true
  | EvSaveGlobalTags _ => exists t, tag = Some t /\ truthy t = true
  | EvHttpPost _ | EvWriteStatus _ => False
  | _ => True
  end.

(** The last byte of a string. *)
Fixpoint last_char (s : string) : option ascii :=
  match s with
  | "" => None
  | String c "" => Some c
  | String _ r => last_char r
  end.

(** The scenario, continued. *)
Module Scenario2.
Import Scenario.

Definition builder_ok : Builder := new_Builder "/b" man_ok.
Definition world_ok_tagged : World := snd (declare_build_tag builder_ok world_ok).
Definition world_ok_afw : World :=
  snd (_build_product_if_needed ext builder_ok afw world_ok_tagged).
Definition world_ok_obs : World :=
  snd (_build_product_if_needed ext builder_ok obs world_ok_afw).

(** The reporter after the poll loop of [base] from [world0]. *)
Definition base_reporter : ProductProgressReporter :=
  {| product := Some base; progress_bar := " "; t0 := 0; t := 4000000 |}.

(** A child that closes its output before it can be reaped, and one that
    exits with 0 without declaring the product. *)
Definition ext_unreaped : Ext :=
  {| wall_clock := wall_clock ext;
     child := fun s e =>
       {| cr_events := [Ready "o"%char]; cr_poll := None; cr_eups := install s e |};
     requests_post := requests_post ext;
     eups_productDir := eups_productDir ext;
     access_w := access_w ext;
     agent_label := agent_label ext;
     format_1f := format_1f ext |}.
Definition ext_noinstall : Ext :=
  {| wall_clock := wall_clock ext;
     child := fun s e =>
       {| cr_events := [Ready "o"%char]; cr_poll := Some 0; cr_eups := e |};
     requests_post := requests_post ext;
     eups_productDir := eups_productDir ext;
     access_w := access_w ext;
     agent_label := agent_label ext;
     format_1f := format_1f ext |}.
Definition afw_reporter : ProductProgressReporter :=
  {| product := Some afw; progress_bar := "1 "; t0 := 0; t := 2000000 |}.
Definition afw_noinstall_script : World :=
  snd (write_buildscript ext_noinstall builder0 afw
         (lookup_world ext_noinstall afw world0)).
Definition afw_noinstall_ran : World :=
  snd (run_buildscript ext_noinstall (script_of afw) (buildscript builder0 afw)
         (logfile_of builder0 afw) (started_reporter afw 0) afw_noinstall_script).

(** The script and the poll loop of [base], whose child exits with 1, and
    of [afw] under [ext_unreaped], inside [_build_product_if_needed]. *)
Definition base_script : World :=
  snd (write_buildscript ext builder0 base (lookup_world ext base world0)).
Definition base_ran : World :=
  snd (run_buildscript ext (script_of base) (buildscript builder0 base)
         (logfile_of builder0 base) (started_reporter base 0) base_script).
Definition afw_unreaped_script : World :=
  snd (write_buildscript ext_unreaped builder0 afw
         (lookup_world ext_unreaped afw world0)).
Definition afw_unreaped_ran : World :=
  snd (run_buildscript ext_unreaped (script_of afw) (buildscript builder0 afw)
         (logfile_of builder0 afw) (started_reporter afw 0) afw_unreaped_script).

(** [world0] with an empty EUPS path. *)
Definition world_nopath : World :=
  set_eups {| e_products := ∅; e_tag_names := ["current"]; e_saved_tags := ∅;
              e_path := [] |} world0.

(** [world0] with an old log of [afw]. *)
Definition world_oldlog : World :=
  set_fs (<[afw_log := FLog [ {| lw_stamp := 1; lw_text := "old" |} ]]> (w_fs world0))
         world0.

(** An agent labelled [error]; an endpoint that rejects every status; a
    build directory that is not writable; and a world with the record of an
    earlier run. *)
Definition ext_error : Ext :=
  {| wall_clock := wall_clock ext;
     child := child ext;
     requests_post := requests_post ext;
     eups_productDir := eups_productDir ext;
     access_w := access_w ext;
     agent_label := "error";
     format_1f := format_1f ext |}.
Definition ext_rejecting : Ext :=
  {| wall_clock := wall_clock ext;
     child := child ext;
     requests_post := fun _ => HttpResponse 403 "Forbidden";
     eups_productDir := eups_productDir ext;
     access_w := access_w ext;
     agent_label := agent_label ext;
     format_1f := format_1f ext |}.
Definition ext_readonly : Ext :=
  {| wall_clock := wall_clock ext;
     child := child ext;
     requests_post := requests_post ext;
     eups_productDir := eups_productDir ext;
     access_w := fun _ => false;
     agent_label := agent_label ext;
     format_1f := format_1f ext |}.
Definition world_stale : World :=
  set_fs (<["/b/status.yaml" := FStatus (YMap [("built", YSeq [])])]> (w_fs world_pr))
         world_pr.

(** The run of [world_pr_full] with the endpoint unreachable for the final
    status: the world in which [build] starts, after the old record was
    removed and [pending] posted; that world with the build tag declared;
    and the world in which [build] ends. *)
Definition offline_start : World :=
  snd ((print "Github status pending" ;;
        post_github_status ext_offline pr_info "pending"
          ("Build started on " +:+ "linux") "linux")
         (snd (rm_status builder_ok
                 (set_stdout (w_stdout world_pr_full ++ [TPrInfo (Some pr_info)])
                             world_pr_full)))).
Definition offline_tagged : World := snd (declare_build_tag builder_ok offline_start).
Definition offline_built : World := snd (build ext_offline builder_ok offline_start).

End Scenario2.
(** * Properties *)

(** ** Text *)

Example utf8_valid_ascii : utf8_valid "ok" = true.
Proof. reflexivity. Qed.

(** U+00E9 as C3 A9; the overlong C0 80, the surrogate ED A0 80, a value
    above U+10FFFF and a lone continuation byte are refused. *)
Example utf8_valid_two_bytes :
  utf8_valid (String "195" (String "169" "")) = true.
Proof. reflexivity. Qed.
Example utf8_overlong : utf8_valid (String "192" (String "128" "")) = false.
Proof. reflexivity. Qed.
Example utf8_surrogate :
  utf8_valid (String "237" (String "160" (String "128" ""))) = false.
Proof. reflexivity. Qed.
Example utf8_too_large :
  utf8_valid (String "244" (String "144" (String "128" (String "128" "")))) = false.
Proof. reflexivity. Qed.
Example utf8_lone_continuation : utf8_valid (String "128" "") = false.
Proof. reflexivity. Qed.

Example rjust_name : rjust 20 "afw" = "                 afw".
Proof. reflexivity. Qed.

Example py_uncons_two_bytes :
  py_uncons (String "195" (String "169" "x")) = Some (String "195" (String "169" ""), "x").
Proof. reflexivity. Qed.

(** ** Running operations *)

Lemma bind_ok {A B} (m : M A) (k : A -> M B) w a w' :
  m w = (Ok a, w') -> bind m k w = k a w'.
Proof. intros H. unfold bind. by rewrite H. Qed.

Lemma bind_raise {A B} (m : M A) (k : A -> M B) w e w' :
  m w = (Raise e, w') -> bind m k w = (Raise e, w').
Proof. intros H. unfold bind. by rewrite H. Qed.

Lemma bind_inv_ok {A B} (m : M A) (k : A -> M B) w b w'' :
  bind m k w = (Ok b, w'') ->
  exists a w', m w = (Ok a, w') /\ k a w' = (Ok b, w'').
Proof.
  unfold bind. destruct (m w) as [[a|e] w'] eqn:E; [eauto | discriminate].
Qed.

(** ** What an operation adds to the trace *)

Lemma emits_ret P {A} (a : A) : emits P (ret a).
Proof. intros w. exists []. by rewrite app_nil_r. Qed.

Lemma emits_raise P {A} e : emits P (@raise A e).
Proof. intros w. exists []. by rewrite app_nil_r. Qed.

Lemma emits_get P : emits P get.
Proof. intros w. exists []. by rewrite app_nil_r. Qed.

Lemma emits_bind P {A B} (m : M A) (k : A -> M B) :
  emits P m -> (forall a, emits P (k a)) -> emits P (bind m k).
Proof.
  intros Hm Hk w. unfold bind.
  destruct (Hm w) as (e1 & E1 & F1).
  destruct (m w) as [[a|e] w1]; simpl in *.
  - destruct (Hk a w1) as (e2 & E2 & F2).
    exists (e1 ++ e2). rewrite E2, E1, app_assoc. split; [done|].
    by apply Forall_app.
  - by exists e1.
Qed.

Lemma emits_emit (P : Event -> Prop) e : P e -> emits P (emit e).
Proof. intros H w. exists [e]. split; [done | by constructor]. Qed.

Lemma emits_modify P (f : World -> World) :
  (forall w, w_trace (f w) = w_trace w) -> emits P (modify f).
Proof. intros H w. exists []. simpl. by rewrite H, app_nil_r. Qed.

Lemma emits_weaken (P Q : Event -> Prop) {A} (m : M A) :
  (forall e, P e -> Q e) -> emits P m -> emits Q m.
Proof.
  intros HPQ Hm w. destruct (Hm w) as (evs & E & F).
  exists evs. split; [done|]. eapply Forall_impl; eauto.
Qed.

Ltac emits_step :=
  match goal with
  | |- emits _ (bind _ _) => apply emits_bind; [|intros]
  | |- emits _ (ret _) => apply emits_ret
  | |- emits _ (raise _) => apply emits_raise
  | |- emits _ get => apply emits_get
  | |- emits _ (emit _) => apply emits_emit; simpl; try done
  | |- emits _ (modify _) => apply emits_modify; done
  | |- emits _ (if ?c then _ else _) => destruct c
  | |- emits _ (match ?x with _ => _ end) => destruct x
  end.

Create HintDb emits_db.

Ltac emits_tac := repeat first [ emits_step | solve [eauto with emits_db] ].

Section Emits.
Variable X : Ext.
Variable paths : list string.
Local Abbreviation quiet := (emits (unit_event paths)).

Lemma emits_out_write s : quiet (out_write s).
Proof. unfold out_write. emits_tac. Qed.
Lemma emits_out_flush : quiet out_flush.
Proof. unfold out_flush. emits_tac. Qed.
Lemma emits_print s : quiet (print s).
Proof. apply emits_out_write. Qed.
Lemma emits_write_file p f : quiet (write_file p f).
Proof. unfold write_file. emits_tac. Qed.
Lemma emits_environ_get k : quiet (environ_get k).
Proof.
  intros w. exists []. unfold environ_get.
  destruct (w_environ w !! k); by rewrite app_nil_r.
Qed.
Lemma emits_now : quiet (now X).
Proof. intros w. exists []. by rewrite app_nil_r. Qed.
Hint Resolve emits_out_write emits_out_flush emits_print emits_write_file
  emits_environ_get emits_now : emits_db.

Lemma emits_copy2 s d b : quiet (copy2 s d b).
Proof. unfold copy2. emits_tac. Qed.
Lemma emits_getProduct n v : quiet (getProduct n v).
Proof. unfold getProduct. emits_tac. Qed.
Lemma emits_eups_declare n v tg : quiet (eups_declare n v tg).
Proof. unfold eups_declare. emits_tac. Qed.
Lemma emits_product_name p : quiet (product_name p).
Proof. unfold product_name. emits_tac. Qed.
Lemma emits_product_version p : quiet (product_version p).
Proof. unfold product_version. emits_tac. Qed.
Hint Resolve emits_copy2 emits_getProduct emits_eups_declare
  emits_product_name emits_product_version : emits_db.

Lemma emits__build_started p : quiet (_build_started X p).
Proof. unfold _build_started. emits_tac. Qed.

Lemma emits_progress_loop fuel t1 p : quiet (progress_loop fuel t1 p).
Proof.
  revert p. induction fuel as [|fuel IH]; intros p; simpl; emits_tac.
  all: apply IH.
Qed.
Hint Resolve emits__build_started emits_progress_loop : emits_db.

Lemma emits_report_progress p : quiet (report_progress X p).
Proof. unfold report_progress. emits_tac. Qed.
Lemma emits_report_result p rc lf : quiet (report_result X p rc lf).
Proof. unfold report_result. emits_tac. Qed.
Lemma emits__finalize p : quiet (_finalize p).
Proof. unfold _finalize. emits_tac. Qed.
Hint Resolve emits_report_progress emits_report_result emits__finalize : emits_db.

Lemma emits_new_build {A} prod
    (body : ProductProgressReporter -> M (A * ProductProgressReporter)) :
  (forall p, quiet (body p)) -> quiet (new_build X prod body).
Proof.
  intros Hb. unfold new_build. apply emits_bind; [emits_tac|].
  intros p w. destruct (Hb p w) as (e1 & E1 & F1).
  destruct (body p w) as [[[a p']|e] w1]; simpl in *; [|by exists e1].
  assert (quiet (_finalize p' ;; ret a)) as Hf by emits_tac.
  destruct (Hf w1) as (e2 & E2 & F2).
  exists (e1 ++ e2). rewrite E2, E1, app_assoc. split; [done|].
  by apply Forall_app.
Qed.

Lemma emits_try {A} (m h : M A) :
  quiet m -> quiet h -> quiet (try_ProductNotFound m h).
Proof.
  intros Hm Hh w. unfold try_ProductNotFound.
  destruct (Hm w) as (e1 & E1 & F1).
  destruct (m w) as [[a|e] w1]; simpl in *; [by exists e1|].
  destruct e; try by exists e1.
  destruct (Hh w1) as (e2 & E2 & F2).
  exists (e1 ++ e2). rewrite E2, E1, app_assoc. split; [done|].
  by apply Forall_app.
Qed.

Lemma emits_tee_byte lf c buf : quiet (tee_byte X lf c buf).
Proof. unfold tee_byte, log_write. emits_tac. Qed.
Hint Resolve emits_tee_byte : emits_db.

Lemma emits_drain lf evs buf p : quiet (drain X lf evs buf p).
Proof.
  revert buf p. induction evs as [|[|c] evs IH]; intros buf p; simpl; emits_tac.
  all: apply IH.
Qed.
Hint Resolve emits_drain : emits_db.

Lemma emits_collect_result u rc lf : quiet (collect_result u rc lf).
Proof. unfold collect_result. emits_tac. Qed.
Hint Resolve emits_collect_result : emits_db.

Lemma emits__build_product b u p :
  buildscript b u ∈ paths -> quiet (_build_product X b u p).
Proof.
  intros Hin. unfold _build_product, write_buildscript, run_buildscript.
  emits_tac.
Qed.

Lemma emits_tag_if_missing b u ep : quiet (tag_if_missing b u ep).
Proof. unfold tag_if_missing, _tag_product. emits_tac. Qed.
Hint Resolve emits_tag_if_missing : emits_db.

Lemma emits__build_product_if_needed b u :
  buildscript b u ∈ paths -> quiet (_build_product_if_needed X b u).
Proof.
  intros Hin. unfold _build_product_if_needed.
  apply emits_bind; [|intros; emits_tac].
  apply emits_new_build. intros p.
  apply emits_bind.
  - unfold installed_or_build. apply emits_try; [emits_tac|].
    by apply emits__build_product.
  - intros [[[ep rc] lf] p']. emits_tac.
Qed.

End Emits.

(** ** Stopping at the first failure *)

Lemma _build_product_if_needed_irrel X b b' u :
  build_dir b = build_dir b' -> manifest b = manifest b' ->
  _build_product_if_needed X b u = _build_product_if_needed X b' u.
Proof. destruct b, b'; simpl; intros -> ->. reflexivity. Qed.

Lemma unit_event_script_only paths e : unit_event paths e -> script_only paths e.
Proof. by destruct e. Qed.

Lemma emits_declare_build_tag paths b :
  emits (script_only paths) (declare_build_tag b).
Proof.
  unfold declare_build_tag, declare_eups_tag, registerTag, eups_path0,
    saveGlobalTags.
  emits_tac.
Qed.

Lemma units_succeed_trace X b paths us w w' :
  (forall u, u ∈ us -> buildscript b u ∈ paths) ->
  units_succeed X b us w w' ->
  exists evs, w_trace w' = w_trace w ++ evs /\ Forall (unit_event paths) evs.
Proof.
  revert w. induction us as [|u us IH]; intros w Hin H; simpl in H.
  - subst. exists []. by rewrite app_nil_r.
  - destruct H as (w1 & H1 & H2).
    destruct (emits__build_product_if_needed X paths b u) with (w := w)
      as (e1 & E1 & F1); [apply Hin; left|].
    rewrite H1 in E1. simpl in E1.
    destruct (IH w1) as (e2 & E2 & F2); [|done|].
    { intros u' Hu'. apply Hin. by right. }
    exists (e1 ++ e2). rewrite E2, E1, app_assoc. split; [done|].
    by apply Forall_app.
Qed.

Lemma build_loop_prefix X b pre rest w w' :
  units_succeed X b pre w w' ->
  forall b0, build_dir b0 = build_dir b -> manifest b0 = manifest b ->
  build_loop X b0 (pre ++ rest) w = build_loop X (add_built pre b0) rest w'.
Proof.
  revert w. induction pre as [|u pre IH]; intros w H b0 Hd Hm; simpl in H.
  - subst. simpl. f_equal. destruct b0. unfold add_built. simpl.
    by rewrite app_nil_r.
  - destruct H as (w1 & H1 & H2). simpl.
    rewrite (_build_product_if_needed_irrel X b0 b u Hd Hm).
    rewrite (bind_ok _ _ _ _ _ H1).
    rewrite (IH w1 H2 (append_built u b0) Hd Hm).
    f_equal. unfold add_built, append_built. simpl. by rewrite <- app_assoc.
Qed.

Lemma add_built_nil b : add_built [] b = b.
Proof. destruct b. unfold add_built. simpl. by rewrite app_nil_r. Qed.

Lemma add_built_cons u us b : add_built us (append_built u b) = add_built (u :: us) b.
Proof. unfold add_built, append_built. simpl. by rewrite <- app_assoc. Qed.

(** What the loop of [build] returns tells how far the units got. *)
Lemma build_loop_inv X b us : forall b0 w ok b' w',
  build_dir b0 = build_dir b -> manifest b0 = manifest b ->
  build_loop X b0 us w = (Ok (ok, b'), w') ->
  (ok = true /\ units_succeed X b us w w' /\ b' = add_built us b0)
  \/ (ok = false /\ exists pre uk post wk,
        us = pre ++ uk :: post
        /\ units_succeed X b pre w wk
        /\ _build_product_if_needed X b uk wk = (Ok false, w')
        /\ b' = set_failed_at uk (add_built pre b0)).
Proof.
  induction us as [|u us IH]; intros b0 w ok b' w' Hd Hm H; simpl in H.
  - injection H as <- <- <-. left. by rewrite add_built_nil.
  - apply bind_inv_ok in H as (r & w1 & Hu & H).
    rewrite (_build_product_if_needed_irrel X b0 b u Hd Hm) in Hu.
    destruct r.
    + apply IH in H as [(-> & Hs & ->) | (-> & pre & uk & post & wk & -> & Hs & Hf & ->)];
        try done.
      * left. split; [done|]. split; [by exists w1|]. apply add_built_cons.
      * right. split; [done|]. exists (u :: pre), uk, post, wk.
        split; [done|]. split; [by exists w1|]. split; [done|].
        by rewrite add_built_cons.
    + injection H as <- <- <-. right. split; [done|].
      exists [], u, us, w. by rewrite add_built_nil.
Qed.

Lemma emits_build_loop X paths us : forall b,
  (forall u, u ∈ us -> buildscript b u ∈ paths) ->
  emits (unit_event paths) (build_loop X b us).
Proof.
  induction us as [|u us IH]; intros b Hin; simpl.
  - apply emits_ret.
  - apply emits_bind.
    + apply emits__build_product_if_needed, Hin. by left.
    + intros [|]; [|apply emits_ret].
      apply IH. intros u' Hu'. apply (Hin u'). by right.
Qed.

Lemma registrations_app l1 l2 :
  registrations (l1 ++ l2) = registrations l1 ++ registrations l2.
Proof. apply omap_app. Qed.

Lemma registrations_unit_events paths evs :
  Forall (unit_event paths) evs -> registrations evs = [].
Proof.
  induction 1 as [|e evs He _ IH]; [done|].
  destruct e; simpl in He; try done; exact IH.
Qed.

(** C1.  When the units before [uk] all succeed and [uk] fails, [build]
    returns [False] with [built] holding exactly the units before [uk], in
    order, and [failed_at] holding [uk]; the world is the one the attempt
    of [uk] left, so no later unit is attempted: every build script written
    during the call is the script of one of [u1 .. uk]. *)
Theorem build_stops_at_first_failure X b pre uk post w w0 wk w' :
  product_index (manifest b) = pre ++ uk :: post ->
  built b = [] ->
  declare_build_tag b w = (Ok tt, w0) ->
  units_succeed X b pre w0 wk ->
  _build_product_if_needed X b uk wk = (Ok false, w') ->
  exists b',
    build X b w = (Ok (false, b'), w')
    /\ built b' = pre
    /\ failed_at b' = Some uk
    /\ (forall path, EvWriteScript path ∈ new_events w w' ->
          path ∈ map (buildscript b) (pre ++ [uk]))
    /\ (forall u, u ∈ post ->
          buildscript b u ∉ map (buildscript b) (pre ++ [uk]) ->
          EvWriteScript (buildscript b u) ∉ new_events w w').
Proof.
  intros Hidx Hbuilt Htag Hpre Hfail.
  exists (set_failed_at uk (add_built pre b)).
  assert (forall path, EvWriteScript path ∈ new_events w w' ->
            path ∈ map (buildscript b) (pre ++ [uk])) as Hscripts.
  { set (paths := map (buildscript b) (pre ++ [uk])).
    destruct (emits_declare_build_tag paths b w) as (e0 & E0 & F0).
    rewrite Htag in E0. simpl in E0.
    destruct (units_succeed_trace X b paths pre w0 wk) as (e1 & E1 & F1);
      [|done|].
    { intros u Hu. apply list_elem_of_fmap. exists u. split; [done|].
      apply elem_of_app. by left. }
    destruct (emits__build_product_if_needed X paths b uk) with (w := wk)
      as (e2 & E2 & F2).
    { apply list_elem_of_fmap. exists uk. split; [done|].
      apply elem_of_app. right. by left. }
    rewrite Hfail in E2. simpl in E2.
    intros path Hin. unfold new_events in Hin.
    rewrite E2, E1, E0, <- !app_assoc, drop_app_length in Hin.
    assert (Forall (script_only paths) (e0 ++ e1 ++ e2)) as F.
    { repeat apply Forall_app_2; [done| |];
        (eapply Forall_impl; [eassumption | apply unit_event_script_only]). }
    rewrite Forall_forall in F. exact (F _ Hin). }
  split; [|split; [|split; [|split]]].
  - unfold build. rewrite (bind_ok _ _ _ _ _ Htag), Hidx.
    rewrite (build_loop_prefix X b pre (uk :: post) w0 wk Hpre b eq_refl eq_refl).
    simpl.
    rewrite (_build_product_if_needed_irrel X (add_built pre b) b uk eq_refl eq_refl).
    by rewrite (bind_ok _ _ _ _ _ Hfail).
  - simpl. by rewrite Hbuilt.
  - done.
  - exact Hscripts.
  - intros u _ Hnot Hin. apply Hnot, Hscripts, Hin.
Qed.

Lemma build_stops_at_first_failure_witness :
  exists b',
    build Scenario.ext Scenario.builder0 Scenario.world0
      = (Ok (false, b'), Scenario.world_base)
    /\ built b' = [Scenario.afw]
    /\ failed_at b' = Some Scenario.base
    /\ (forall path,
          EvWriteScript path ∈ new_events Scenario.world0 Scenario.world_base ->
          path ∈ map (buildscript Scenario.builder0) ([Scenario.afw] ++ [Scenario.base]))
    /\ (forall u, u ∈ [Scenario.obs] ->
          buildscript Scenario.builder0 u
            ∉ map (buildscript Scenario.builder0) ([Scenario.afw] ++ [Scenario.base]) ->
          EvWriteScript (buildscript Scenario.builder0 u)
            ∉ new_events Scenario.world0 Scenario.world_base).
Proof.
  apply (build_stops_at_first_failure Scenario.ext Scenario.builder0
           [Scenario.afw] Scenario.base [Scenario.obs]
           Scenario.world0 Scenario.world_tagged Scenario.world_afw
           Scenario.world_base).
  - reflexivity.
  - reflexivity.
  - vm_compute. reflexivity.
  - exists Scenario.world_afw. split; [vm_compute; reflexivity | reflexivity].
  - vm_compute. reflexivity.
Defined.

(** ** The progress reporter *)

Lemma same_but_stdout_refl w : same_but_stdout w w.
Proof. by repeat split. Qed.

Lemma same_but_stdout_trans w1 w2 w3 :
  same_but_stdout w1 w2 -> same_but_stdout w2 w3 -> same_but_stdout w1 w3.
Proof.
  intros (A1 & A2 & A3 & A4 & A5) (B1 & B2 & B3 & B4 & B5).
  repeat split; congruence.
Qed.

Lemma same_but_stdout_set o w : same_but_stdout w (set_stdout o w).
Proof. by repeat split. Qed.

Lemma truthy_bar v : truthy (v +:+ " ") = true.
Proof. by destruct v. Qed.

Lemma truthy_snoc buf c : truthy (buf +:+ String c "") = true.
Proof. by destruct buf. Qed.

Lemma string_app_nil_r (s : string) : s +:+ "" = s.
Proof.
  induction s as [|c s IH]; [done|].
  change (String c (s +:+ "") = String c s). by rewrite IH.
Qed.

(** The loop of [report_progress] returns, and writes to the terminal only. *)
Lemma progress_loop_spec fuel t1 p w :
  exists p' w', progress_loop fuel t1 p w = (Ok p', w') /\ same_but_stdout w w'.
Proof.
  revert p w. induction fuel as [|fuel IH]; intros p w; simpl.
  - exists p, w. split; [done | apply same_but_stdout_refl].
  - destruct (Z.leb (t p) t1).
    + unfold bind, out_write, out_flush, modify, ret.
      destruct (py_uncons (progress_bar p)) as [[c rest]|]; simpl.
      * edestruct IH as (p' & w' & E & S). rewrite E.
        exists p', w'. split; [done|].
        eapply same_but_stdout_trans; [|exact S].
        eapply same_but_stdout_trans; apply same_but_stdout_set.
      * edestruct IH as (p' & w' & E & S). rewrite E.
        exists p', w'. split; [done|].
        eapply same_but_stdout_trans; [|exact S].
        eapply same_but_stdout_trans; apply same_but_stdout_set.
    + exists p, w. split; [done | apply same_but_stdout_refl].
Qed.

(** The fuel handed to the loop by [report_progress] is enough: the loop
    ends because its condition [self.t <= t1] fails. *)
Lemma progress_loop_exits fuel t1 : forall p w,
  (t1 - t p) / two_seconds + 1 <= Z.of_nat fuel ->
  exists p' w', progress_loop fuel t1 p w = (Ok p', w') /\ t1 < t p'.
Proof.
  unfold two_seconds.
  induction fuel as [|fuel IH]; intros p w Hf; simpl.
  - exists p, w. split; [done|].
    destruct (Z_lt_le_dec t1 (t p)) as [|Hge]; [done|].
    assert (0 <= (t1 - t p) / 2000000) by (apply Z.div_pos; lia).
    simpl in Hf. lia.
  - destruct (Z.leb (t p) t1) eqn:Hle.
    + apply Z.leb_le in Hle.
      unfold bind, out_write, out_flush, modify, ret.
      destruct (py_uncons (progress_bar p)) as [[c rest]|]; simpl;
        apply IH; simpl; unfold two_seconds;
        replace (t1 - (t p + 2000000)) with ((t1 - t p) + (-1) * 2000000) by lia;
        rewrite Z.div_add by lia; lia.
    + apply Z.leb_gt in Hle. by exists p, w.
Qed.

Lemma report_progress_catches_up X p w :
  exists p' w',
    report_progress X p w = (Ok p', w')
    /\ wall_clock X (w_clock_reads w) < t p'.
Proof.
  unfold report_progress, bind, emit, modify, now. simpl.
  edestruct (progress_loop_exits
               (Z.to_nat ((wall_clock X (w_clock_reads w) - t p) / two_seconds + 1))
               (wall_clock X (w_clock_reads w)) p) as (p' & w' & E & Ht).
  { lia. }
  rewrite E. by exists p', w'.
Qed.

(** [report_progress] always returns; it reads the clock once, logs one
    tick, and touches neither files nor the package database. *)
Lemma report_progress_spec X p w :
  exists p' w',
    report_progress X p w = (Ok p', w')
    /\ w_trace w' = w_trace w ++ [EvTick]
    /\ w_clock_reads w' = S (w_clock_reads w)
    /\ w_fs w' = w_fs w
    /\ w_eups w' = w_eups w
    /\ w_environ w' = w_environ w.
Proof.
  unfold report_progress, bind, emit, modify, now. simpl.
  edestruct progress_loop_spec as (p' & w' & E & (S1 & S2 & S3 & S4 & S5)).
  rewrite E. exists p', w'. split; [done|].
  rewrite S1, S2, S3, S4, S5. by simpl.
Qed.

(** ** The log tee *)

Lemma decode_valid buf : utf8_valid buf = true -> decode buf = Some buf.
Proof. intros H. unfold decode. by rewrite H. Qed.

(** Between line ends the byte is kept in the buffer and nothing else
    happens. *)
Lemma tee_byte_pass X lf c buf w :
  is_line_end c && truthy (buf +:+ bytes_of_read c) = false ->
  tee_byte X lf c buf w = (Ok (buf +:+ bytes_of_read c), w).
Proof. intros H. unfold tee_byte. by rewrite H. Qed.

(** At a line end the buffer is written with the next reading of the
    clock. *)
Lemma tee_byte_flush X lf c buf w :
  is_line_end c = true ->
  truthy (buf +:+ bytes_of_read c) = true ->
  utf8_valid (buf +:+ bytes_of_read c) = true ->
  exists w',
    tee_byte X lf c buf w = (Ok "", w')
    /\ w_fs w' = <[lf := FLog (match w_fs w !! lf with
                               | Some (FLog l) =>
                                   l ++ [{| lw_stamp := wall_clock X (w_clock_reads w);
                                            lw_text := buf +:+ bytes_of_read c |}]
                               | _ => [{| lw_stamp := wall_clock X (w_clock_reads w);
                                          lw_text := buf +:+ bytes_of_read c |}]
                               end)]> (w_fs w)
    /\ w_trace w' = w_trace w ++ [EvLogWrite lf]
    /\ w_clock_reads w' = S (w_clock_reads w)
    /\ w_eups w' = w_eups w
    /\ w_environ w' = w_environ w.
Proof.
  intros Hend Hbuf Hval. unfold tee_byte.
  rewrite Hend, Hbuf, (decode_valid _ Hval). simpl.
  unfold bind, now, log_write, emit, modify, ret, bind. simpl.
  eexists. split; [reflexivity|]. simpl. done.
Qed.

Lemma tee_byte_undecodable X lf c buf w :
  is_line_end c = true ->
  truthy (buf +:+ bytes_of_read c) = true ->
  utf8_valid (buf +:+ bytes_of_read c) = false ->
  fst (tee_byte X lf c buf w) = Raise UnicodeDecodeError
  /\ w_fs (snd (tee_byte X lf c buf w)) = w_fs w.
Proof.
  intros Hend Hbuf Hval. unfold tee_byte, decode.
  rewrite Hend, Hbuf, Hval. simpl. done.
Qed.

Lemma tee_byte_trace X lf c buf w buf' w' :
  tee_byte X lf c buf w = (Ok buf', w') ->
  w_trace w' = w_trace w
               ++ (if is_line_end c && truthy (buf +:+ bytes_of_read c)
                   then [EvLogWrite lf] else []).
Proof.
  unfold tee_byte.
  destruct (is_line_end c && truthy (buf +:+ bytes_of_read c)).
  - unfold bind, now. simpl. destruct (decode _); [|discriminate].
    unfold log_write, bind, emit, modify, ret. simpl.
    intros [= _ <-]. done.
  - intros [= _ <-]. by rewrite app_nil_r.
Qed.

Lemma emit_run e w : emit e w = (Ok tt, set_trace (w_trace w ++ [e]) w).
Proof. reflexivity. Qed.

Ltac run_emit := rewrite (bind_ok _ _ _ _ _ (emit_run _ _)).

(** The poll loop, when every line decodes: it returns, and the log holds
    the lines of the stream, each stamped with the reading of the clock
    that was next when the end of the line was read. *)
Lemma drain_log_readings X lf evs : forall buf p w l0,
  w_fs w !! lf = Some (FLog l0) ->
  Forall (fun line => utf8_valid line = true) (split_lines buf (stream_bytes evs)) ->
  exists p' w',
    drain X lf evs buf p w = (Ok p', w')
    /\ w_fs w' !! lf
        = Some (FLog (l0 ++ stamped X (line_end_readings (w_clock_reads w) buf evs)
                              (split_lines buf (stream_bytes evs))))
    /\ length (line_end_readings (w_clock_reads w) buf evs)
       = length (split_lines buf (stream_bytes evs))
    /\ StronglySorted lt (line_end_readings (w_clock_reads w) buf evs)
    /\ Forall (fun n => (w_clock_reads w <= n < w_clock_reads w')%nat)
              (line_end_readings (w_clock_reads w) buf evs)
    /\ (w_clock_reads w <= w_clock_reads w')%nat
    /\ w_eups w' = w_eups w
    /\ w_environ w' = w_environ w
    /\ (forall q, q <> lf -> w_fs w' !! q = w_fs w !! q).
Proof.
  induction evs as [|[|c] evs IH]; intros buf p w l0 Hlog Hval;
    cbn [drain stream_bytes split_lines line_end_readings] in *.
  - (* end of file *)
    do 2 run_emit.
    set (w0 := set_trace _ (set_trace _ w)).
    destruct (truthy buf) eqn:Hb.
    + apply Forall_cons in Hval as [Hv _].
      destruct (tee_byte_flush X lf None buf w0)
        as (w' & E & Hfs & _ & Hclk & He & Henv).
      { done. } { simpl. by rewrite string_app_nil_r. }
      { simpl. by rewrite string_app_nil_r. }
      rewrite (bind_ok _ _ _ _ _ E). subst w0. simpl in *.
      rewrite string_app_nil_r in Hfs.
      exists p, w'. rewrite Hlog in Hfs.
      split; [done|]. split.
      { rewrite Hfs. by rewrite lookup_insert_eq. }
      split; [done|]. split; [repeat constructor|].
      split; [constructor; [lia|constructor]|].
      split; [lia|]. split; [done|]. split; [done|].
      intros q Hq. rewrite Hfs. by rewrite lookup_insert_ne.
    + assert (is_line_end None && truthy (buf +:+ bytes_of_read None) = false)
        as Hp by (simpl; by rewrite string_app_nil_r, Hb).
      rewrite (bind_ok _ _ _ _ _ (tee_byte_pass X lf None buf w0 Hp)).
      exists p, w0. subst w0. simpl. rewrite app_nil_r.
      repeat split; first [done | constructor].
  - (* nothing to read *)
    run_emit.
    set (w0 := set_trace _ w).
    destruct (report_progress_spec X p w0)
      as (p1 & w1 & E1 & _ & Hc1 & Hf1 & He1 & Hn1).
    rewrite (bind_ok _ _ _ _ _ E1).
    destruct (IH buf p1 w1 l0)
      as (p' & w' & E & Hfs & Hlen & Hs & Hr & Hle & He & Hn & Hq).
    { by rewrite Hf1. } { done. }
    exists p', w'. subst w0. simpl in *. rewrite Hc1 in Hfs, Hlen, Hs, Hr, Hle.
    split; [done|]. split; [done|]. split; [done|]. split; [done|].
    split. { eapply Forall_impl; [exact Hr|]. simpl. intros; lia. }
    split; [lia|]. split; [congruence|]. split; [congruence|].
    intros q Hne. rewrite Hq by done. by rewrite Hf1.
  - (* one byte *)
    do 2 run_emit.
    set (w0 := set_trace _ (set_trace _ w)).
    destruct (bool_decide (c = LF)) eqn:Hc.
    + apply Forall_cons in Hval as [Hv Hval].
      destruct (tee_byte_flush X lf (Some c) buf w0)
        as (wa & Ea & Hfa & _ & Hca & Hea & Hna);
        [done | apply truthy_snoc | done |].
      rewrite (bind_ok _ _ _ _ _ Ea).
      destruct (report_progress_spec X p wa)
        as (p1 & w1 & E1 & _ & Hc1 & Hf1 & He1 & Hn1).
      rewrite (bind_ok _ _ _ _ _ E1).
      subst w0. simpl in *. rewrite Hlog in Hfa.
      destruct (IH "" p1 w1
                  (l0 ++ [{| lw_stamp := wall_clock X (w_clock_reads w);
                             lw_text := buf +:+ String c "" |}]))
        as (p' & w' & E & Hfs & Hlen & Hs & Hr & Hle & He & Hn & Hq).
      { rewrite Hf1, Hfa. by rewrite lookup_insert_eq. } { done. }
      rewrite Hc1, Hca in Hfs, Hlen, Hs, Hr, Hle.
      exists p', w'.
      split; [done|]. split.
      { rewrite Hfs. simpl. by rewrite <- app_assoc. }
      split; [simpl; by rewrite Hlen|]. split.
      { constructor; [done|]. eapply Forall_impl; [exact Hr|]. simpl. intros; lia. }
      split.
      { constructor; [lia|]. eapply Forall_impl; [exact Hr|]. simpl. intros; lia. }
      split; [lia|]. split; [congruence|]. split; [congruence|].
      intros q Hne. rewrite Hq, Hf1, Hfa by done. by rewrite lookup_insert_ne.
    + assert (is_line_end (Some c) && truthy (buf +:+ bytes_of_read (Some c)) = false)
        as Hp by (simpl; by rewrite Hc).
      rewrite (bind_ok _ _ _ _ _ (tee_byte_pass X lf (Some c) buf w0 Hp)).
      destruct (report_progress_spec X p w0)
        as (p1 & w1 & E1 & _ & Hc1 & Hf1 & He1 & Hn1).
      rewrite (bind_ok _ _ _ _ _ E1).
      destruct (IH (buf +:+ String c "") p1 w1 l0)
        as (p' & w' & E & Hfs & Hlen & Hs & Hr & Hle & He & Hn & Hq).
      { by rewrite Hf1. } { done. }
      subst w0. simpl in *. rewrite Hc1 in Hfs, Hlen, Hs, Hr, Hle.
      exists p', w'.
      split; [done|]. split; [done|]. split; [done|]. split; [done|].
      split. { eapply Forall_impl; [exact Hr|]. simpl. intros; lia. }
      split; [lia|]. split; [congruence|]. split; [congruence|].
      intros q Hne. rewrite Hq by done. by rewrite Hf1.
Qed.

(** So each line carries a reading of the clock made during the loop,
    later readings further down. *)
Lemma drain_log X lf evs : forall buf p w l0,
  w_fs w !! lf = Some (FLog l0) ->
  Forall (fun line => utf8_valid line = true) (split_lines buf (stream_bytes evs)) ->
  exists p' w' idxs,
    drain X lf evs buf p w = (Ok p', w')
    /\ w_fs w' !! lf
        = Some (FLog (l0 ++ stamped X idxs (split_lines buf (stream_bytes evs))))
    /\ length idxs = length (split_lines buf (stream_bytes evs))
    /\ StronglySorted lt idxs
    /\ Forall (fun n => (w_clock_reads w <= n < w_clock_reads w')%nat) idxs
    /\ (w_clock_reads w <= w_clock_reads w')%nat
    /\ w_eups w' = w_eups w
    /\ w_environ w' = w_environ w
    /\ (forall q, q <> lf -> w_fs w' !! q = w_fs w !! q).
Proof.
  intros buf p w l0 Hlog Hval.
  destruct (drain_log_readings X lf evs buf p w l0 Hlog Hval) as (p' & w' & H).
  by exists p', w', (line_end_readings (w_clock_reads w) buf evs).
Qed.

Lemma stamped_texts X idxs lines :
  length idxs = length lines -> map lw_text (stamped X idxs lines) = lines.
Proof.
  revert lines. induction idxs as [|n idxs IH]; intros [|l lines] H;
    simpl in *; try done.
  f_equal. apply IH. lia.
Qed.

Lemma stamped_stamps X idxs lines :
  length idxs = length lines ->
  map lw_stamp (stamped X idxs lines) = map (wall_clock X) idxs.
Proof.
  revert lines. induction idxs as [|n idxs IH]; intros [|l lines] H;
    simpl in *; try done.
  f_equal. apply IH. lia.
Qed.

Lemma readings_sorted X idxs :
  clock_monotone X -> StronglySorted lt idxs ->
  StronglySorted Z.le (map (wall_clock X) idxs).
Proof.
  intros Hmono Hs. induction Hs as [|n idxs Hs IH Hall]; simpl.
  - constructor.
  - constructor; [exact IH|].
    apply Forall_map. eapply Forall_impl; [exact Hall|].
    simpl. intros m Hm. apply Hmono. lia.
Qed.

Lemma string_app_assoc (a b c : string) : (a +:+ b) +:+ c = a +:+ (b +:+ c).
Proof.
  induction a as [|x a IH]; [done|].
  change (String x ((a +:+ b) +:+ c) = String x (a +:+ (b +:+ c))).
  by rewrite IH.
Qed.

Lemma concat_empty_cons (x : string) l :
  String.concat "" (x :: l) = x +:+ String.concat "" l.
Proof.
  destruct l as [|y l]; simpl; [by rewrite string_app_nil_r | done].
Qed.

Lemma truthy_false s : truthy s = false -> s = "".
Proof. by destruct s. Qed.

(** The lines of a stream, put back together, are the stream. *)
Lemma split_lines_concat s : forall cur,
  String.concat "" (split_lines cur s) = cur +:+ s.
Proof.
  induction s as [|c s IH]; intros cur; cbn [split_lines].
  - destruct (truthy cur) eqn:E.
    + by rewrite concat_empty_cons, !string_app_nil_r.
    + by rewrite (truthy_false _ E).
  - destruct (bool_decide (c = LF)).
    + rewrite concat_empty_cons, IH, string_app_assoc. done.
    + rewrite IH, string_app_assoc. done.
Qed.




(** ** Progress ticks in the poll loop *)

Lemma ticks_app l1 l2 : ticks (l1 ++ l2) = (ticks l1 + ticks l2)%nat.
Proof. unfold ticks. by rewrite filter_app, length_app. Qed.

Lemma ticks_iteration lf e : ticks (iteration_events lf e) = 1%nat.
Proof. destruct e as [|c]; [done|]. simpl. by destruct (bool_decide (c = LF)). Qed.

Lemma ticks_iterations lf evs :
  ticks (flat_map (iteration_events lf) evs) = length evs.
Proof.
  induction evs as [|e evs IH]; [done|].
  simpl. by rewrite ticks_app, ticks_iteration, IH.
Qed.

(** The trace of the poll loop: the events of each iteration, then the
    end-of-file iteration. *)
Lemma drain_trace X lf evs : forall buf p w p' w',
  drain X lf evs buf p w = (Ok p', w') ->
  exists tail,
    w_trace w' = w_trace w ++ flat_map (iteration_events lf) evs
                 ++ [EvSelect true; EvRead None] ++ tail
    /\ (tail = [] \/ tail = [EvLogWrite lf]).
Proof.
  induction evs as [|[|c] evs IH]; intros buf p w p' w' H; cbn [drain] in H.
  - do 2 rewrite (bind_ok _ _ _ _ _ (emit_run _ _)) in H.
    apply bind_inv_ok in H as (buf' & w1 & Ht & Hr).
    injection Hr as _ <-.
    apply tee_byte_trace in Ht. simpl in Ht.
    exists (if truthy (buf +:+ "") then [EvLogWrite lf] else []).
    split.
    + rewrite Ht. simpl. by rewrite <- ?app_assoc.
    + destruct (truthy _); auto.
  - rewrite (bind_ok _ _ _ _ _ (emit_run _ _)) in H.
    destruct (report_progress_spec X p (set_trace (w_trace w ++ [EvSelect false]) w))
      as (p1 & w1 & E1 & Ht1 & _).
    rewrite (bind_ok _ _ _ _ _ E1) in H.
    apply IH in H as (tail & Ht & Htail).
    exists tail. split; [|done].
    rewrite Ht, Ht1. simpl. by rewrite <- ?app_assoc.
  - do 2 rewrite (bind_ok _ _ _ _ _ (emit_run _ _)) in H.
    apply bind_inv_ok in H as (buf' & w1 & Hb & H).
    apply tee_byte_trace in Hb. simpl in Hb. rewrite truthy_snoc, andb_true_r in Hb.
    destruct (report_progress_spec X p w1) as (p1 & w2 & E1 & Ht1 & _).
    rewrite (bind_ok _ _ _ _ _ E1) in H.
    apply IH in H as (tail & Ht & Htail).
    exists tail. split; [|done].
    rewrite Ht, Ht1, Hb. simpl. rewrite <- ?app_assoc. simpl.
    by rewrite <- ?app_assoc.
Qed.

(** C4, as amended.  Every iteration of the poll loop that does not meet
    end-of-file ends with one call of [report_progress], whether it read a
    byte or found nothing to read; the end-of-file iteration makes none.
    The number of ticks is the number of iterations before end-of-file. *)
Theorem progress_tick_every_iteration X lf evs buf p w p' w' :
  drain X lf evs buf p w = (Ok p', w') ->
  (exists tail,
     new_events w w' = flat_map (iteration_events lf) evs
                       ++ [EvSelect true; EvRead None] ++ tail
     /\ (tail = [] \/ tail = [EvLogWrite lf]))
  /\ (forall e, e ∈ evs -> last (iteration_events lf e) = Some EvTick)
  /\ ticks (new_events w w') = length evs.
Proof.
  intros H. apply drain_trace in H as (tail & Ht & Htail).
  assert (new_events w w' = flat_map (iteration_events lf) evs
                            ++ [EvSelect true; EvRead None] ++ tail) as Hn.
  { unfold new_events. by rewrite Ht, drop_app_length. }
  split; [by exists tail|]. split.
  - intros [|c] _; [done|]. simpl. by destruct (bool_decide (c = LF)).
  - rewrite Hn, ticks_app, ticks_iterations.
    destruct Htail as [-> | ->]; simpl; unfold ticks; simpl; lia.
Qed.

Lemma progress_tick_every_iteration_witness :
  (exists tail,
     new_events Scenario.world_log
       (snd (drain Scenario.ext Scenario.afw_log Scenario.afw_output ""
                   Scenario.reporter0 Scenario.world_log))
     = flat_map (iteration_events Scenario.afw_log) Scenario.afw_output
       ++ [EvSelect true; EvRead None] ++ tail
     /\ (tail = [] \/ tail = [EvLogWrite Scenario.afw_log]))
  /\ (forall e, e ∈ Scenario.afw_output ->
        last (iteration_events Scenario.afw_log e) = Some EvTick)
  /\ ticks (new_events Scenario.world_log
              (snd (drain Scenario.ext Scenario.afw_log Scenario.afw_output ""
                          Scenario.reporter0 Scenario.world_log)))
     = length Scenario.afw_output.
Proof.
  apply (progress_tick_every_iteration Scenario.ext Scenario.afw_log
           Scenario.afw_output "" Scenario.reporter0 Scenario.world_log
           (set_t 6000000 (set_progress_bar "" Scenario.reporter0))).
  vm_compute. reflexivity.
Defined.

(** C4 as stated fails: an iteration that reads a byte calls
    [report_progress] before the next [select], although no wait was
    idle. *)
Lemma progress_tick_counterexample :
  new_events Scenario.world_log
    (snd (drain Scenario.ext Scenario.afw_log [Ready "a"%char] ""
                Scenario.reporter0 Scenario.world_log))
  = [EvSelect true; EvRead (Some "a"%char); EvTick;
     EvSelect true; EvRead None; EvLogWrite Scenario.afw_log]
  /\ idle_waits [Ready "a"%char] = 0%nat
  /\ ticks (new_events Scenario.world_log
              (snd (drain Scenario.ext Scenario.afw_log [Ready "a"%char] ""
                          Scenario.reporter0 Scenario.world_log))) = 1%nat
  /\ w_stdout (snd (drain Scenario.ext Scenario.afw_log [Ready "a"%char] ""
                          Scenario.reporter0 Scenario.world_log))
     = [TWrite "v"; TFlush].
Proof. vm_compute. done. Qed.

(** ** The outcome of one build *)

Lemma tee_byte_log_kept X lf c buf w r w' l0 :
  w_fs w !! lf = Some (FLog l0) ->
  tee_byte X lf c buf w = (r, w') ->
  exists l, w_fs w' !! lf = Some (FLog l).
Proof.
  intros Hlog. unfold tee_byte.
  destruct (is_line_end c && truthy (buf +:+ bytes_of_read c)).
  - unfold bind, now. simpl. destruct (decode _).
    + unfold log_write, bind, emit, modify, ret. simpl.
      intros [= _ <-]. simpl. rewrite lookup_insert_eq. eauto.
    + intros [= _ <-]. simpl. eauto.
  - intros [= _ <-]. eauto.
Qed.

(** The log file opened before the loop is still a log file after it. *)
Lemma drain_log_kept X lf evs : forall buf p w r w' l0,
  w_fs w !! lf = Some (FLog l0) ->
  drain X lf evs buf p w = (r, w') ->
  exists l, w_fs w' !! lf = Some (FLog l).
Proof.
  induction evs as [|[|c] evs IH]; intros buf p w r w' l0 Hlog H; cbn [drain] in H.
  - do 2 rewrite (bind_ok _ _ _ _ _ (emit_run _ _)) in H.
    unfold bind in H.
    destruct (tee_byte X lf None buf _) as [[b'|e] w1] eqn:E.
    + injection H as _ <-. eapply tee_byte_log_kept; [|exact E]. exact Hlog.
    + injection H as _ <-. eapply tee_byte_log_kept; [|exact E]. exact Hlog.
  - rewrite (bind_ok _ _ _ _ _ (emit_run _ _)) in H.
    destruct (report_progress_spec X p (set_trace (w_trace w ++ [EvSelect false]) w))
      as (p1 & w1 & E1 & _ & _ & Hf1 & _).
    rewrite (bind_ok _ _ _ _ _ E1) in H.
    eapply IH; [|exact H]. rewrite Hf1. exact Hlog.
  - do 2 rewrite (bind_ok _ _ _ _ _ (emit_run _ _)) in H.
    unfold bind at 1 in H.
    destruct (tee_byte X lf (Some c) buf _) as [[b'|e] w1] eqn:E.
    + eapply tee_byte_log_kept in E as (l1 & Hl1); [|exact Hlog].
      destruct (report_progress_spec X p w1) as (p1 & w2 & E1 & _ & _ & Hf1 & _).
      rewrite (bind_ok _ _ _ _ _ E1) in H.
      eapply IH; [|exact H]. rewrite Hf1. exact Hl1.
    + injection H as _ <-. eapply tee_byte_log_kept; [|exact E]. exact Hlog.
Qed.

Lemma run_buildscript_log X script sf lf p w process p' w' :
  run_buildscript X script sf lf p w = (Ok (process, p'), w') ->
  exists l, w_fs w' !! lf = Some (FLog l).
Proof.
  unfold run_buildscript, write_file.
  intros H.
  apply bind_inv_ok in H as ([] & w1 & H1 & H). injection H1 as <-.
  rewrite (bind_ok _ _ _ _ _ (emit_run _ _)) in H.
  apply bind_inv_ok in H as (wg & w2 & H2 & H). injection H2 as <- <-.
  apply bind_inv_ok in H as (p1 & w3 & H3 & H).
  injection H as _ _ <-.
  eapply drain_log_kept in H3 as (l & Hl); [by exists l|].
  simpl. by rewrite lookup_insert_eq.
Qed.

(** C10.  Once the child has terminated with exit code [rc]: on a nonzero
    code [_build_product] returns [(None, rc, logfile)] in the world the
    poll loop left, without looking the product up or copying anything; on
    code zero, the product being declared by then, it looks the product up,
    copies the log into the product's directory and returns
    [(eups_prod, 0, logfile)]. *)
Theorem build_outcome_by_exit_code X b u progress w script w1 process progress' w2 rc :
  write_buildscript X b u w = (Ok script, w1) ->
  run_buildscript X script (buildscript b u) (logfile_of b u) progress w1
    = (Ok (process, progress'), w2) ->
  cr_poll process = Some rc ->
  (rc <> 0 ->
     _build_product X b u progress w
       = (Ok ((None, Some rc, Some (logfile_of b u)), progress'), w2))
  /\ (rc = 0 -> forall ep,
        e_products (w_eups w2) !! (name u, version u) = Some ep ->
        exists w3,
          _build_product X b u progress w
            = (Ok ((Some ep, Some 0, Some (logfile_of b u)), progress'), w3)
          /\ w_trace w3 = w_trace w2 ++ [EvGetProduct (name u) (version u);
                                         EvCopy (logfile_of b u) (ep_dir ep)]
          /\ is_Some (w_fs w2 !! logfile_of b u)
          /\ w_fs w3 !! path_join (ep_dir ep) "_build.log"
             = w_fs w2 !! logfile_of b u).
Proof.
  intros Hw Hr Hpoll. unfold _build_product.
  rewrite (bind_ok _ _ _ _ _ Hw), (bind_ok _ _ _ _ _ Hr). simpl. rewrite Hpoll.
  split.
  - intros Hrc. unfold collect_result, retcode_falsy, retcode_truthy.
    apply Z.eqb_neq in Hrc. rewrite Hrc. simpl. done.
  - intros -> ep Hep.
    destruct (run_buildscript_log _ _ _ _ _ _ _ _ _ Hr) as (l & Hl).
    unfold collect_result, retcode_falsy, retcode_truthy. simpl.
    unfold getProduct, copy2, write_file, bind, emit, modify, get, ret. simpl.
    rewrite Hep. simpl. rewrite Hl.
    eexists. split; [reflexivity|]. simpl.
    split; [by rewrite <- app_assoc|]. split; [by eexists|].
    by rewrite lookup_insert_eq.
Qed.

Lemma build_outcome_by_exit_code_witness :
  (_build_product Scenario.ext Scenario.builder0 Scenario.base
                  Scenario.reporter0 Scenario.world0
   = (Ok ((None, Some 1, Some (logfile_of Scenario.builder0 Scenario.base)),
          set_t 2000000 (set_progress_bar "1 " Scenario.reporter0)),
      Scenario.world_ran Scenario.base))
  /\ (exists w3,
        _build_product Scenario.ext Scenario.builder0 Scenario.afw
                       Scenario.reporter0 Scenario.world0
        = (Ok ((Some (Scenario.installed "afw" "v1" []), Some 0,
                Some (logfile_of Scenario.builder0 Scenario.afw)),
               set_t 6000000 (set_progress_bar "" Scenario.reporter0)), w3)
        /\ w_trace w3
           = w_trace (Scenario.world_ran Scenario.afw)
             ++ [EvGetProduct (name Scenario.afw) (version Scenario.afw);
                 EvCopy (logfile_of Scenario.builder0 Scenario.afw)
                        (ep_dir (Scenario.installed "afw" "v1" []))]
        /\ is_Some (w_fs (Scenario.world_ran Scenario.afw)
                      !! logfile_of Scenario.builder0 Scenario.afw)
        /\ w_fs w3 !! path_join (ep_dir (Scenario.installed "afw" "v1" [])) "_build.log"
           = w_fs (Scenario.world_ran Scenario.afw)
               !! logfile_of Scenario.builder0 Scenario.afw).
Proof.
  split.
  - apply (proj1 (build_outcome_by_exit_code Scenario.ext Scenario.builder0
                    Scenario.base Scenario.reporter0 Scenario.world0
                    (Scenario.script_of Scenario.base)
                    (Scenario.world_script Scenario.base)
                    (child Scenario.ext (Scenario.script_of Scenario.base) Scenario.eups0)
                    (set_t 2000000 (set_progress_bar "1 " Scenario.reporter0))
                    (Scenario.world_ran Scenario.base) 1
                    ltac:(vm_compute; reflexivity)
                    ltac:(vm_compute; reflexivity)
                    ltac:(vm_compute; reflexivity))).
    lia.
  - apply (proj2 (build_outcome_by_exit_code Scenario.ext Scenario.builder0
                    Scenario.afw Scenario.reporter0 Scenario.world0
                    (Scenario.script_of Scenario.afw)
                    (Scenario.world_script Scenario.afw)
                    (child Scenario.ext (Scenario.script_of Scenario.afw) Scenario.eups0)
                    (set_t 6000000 (set_progress_bar "" Scenario.reporter0))
                    (Scenario.world_ran Scenario.afw) 0
                    ltac:(vm_compute; reflexivity)
                    ltac:(vm_compute; reflexivity)
                    ltac:(vm_compute; reflexivity))).
    + reflexivity.
    + vm_compute. reflexivity.
Defined.

(** ** Units that are already installed, and tags *)

(** The run of [_build_product_if_needed] on an installed unit. *)
Lemma installed_unit_run X b u ep w :
  e_products (w_eups w) !! (name u, version u) = Some ep ->
  exists w',
    _build_product_if_needed X b u w = (Ok true, w')
    /\ w_stdout w' = w_stdout w ++ [TWrite (rjust 20 (name u) +:+ ": "); TFlush;
                                    TWrite (version u +:+ " "); TFlush;
                                    TWrite ("(already installed)." +:+ NL); TFlush]
    /\ w_trace w' = w_trace w ++ [EvBuildStarted (name u);
                                  EvGetProduct (name u) (version u)]
                    ++ tag_events b u ep ++ [EvReportResult; EvFinalize]
    /\ w_fs w' = w_fs w
    /\ w_eups w' = tagged_eups b u ep (w_eups w)
    /\ w_environ w' = w_environ w.
Proof.
  intros H.
  unfold _build_product_if_needed, new_build, installed_or_build,
    try_ProductNotFound, getProduct, _build_started, bind. simpl.
  rewrite H. simpl.
  unfold tag_if_missing, tag_events, tagged_eups, _tag_product, report_result, bind.
  simpl. rewrite truthy_bar.
  destruct (build_id_not_in _ _);
    [destruct (build_id (manifest b)) as [tg|]; [destruct (truthy tg)|]|];
    simpl; (eexists; split; [reflexivity|]); simpl;
    rewrite <- ?app_assoc; simpl; done.
Qed.

(** C9.  For a unit the package manager already has: the outcome is the
    installed product with exit code 0 and no log file, nothing is built
    (no script, no child process, no file touched), the terminal shows
    the name, the version and "(already installed).", the call returns
    [True], and the loop of [build] goes on with the unit appended to
    [built]: when the unit is the last one the loop returns [True] with
    [built] one unit longer, and whatever the loop returns after more
    units, [built] holds what it held, then the unit, then what came
    after. *)
Theorem already_installed_unit X b u rest ep w :
  e_products (w_eups w) !! (name u, version u) = Some ep ->
  (forall progress, exists w1,
      installed_or_build X b u progress w
        = (Ok ((Some ep, Some 0, None), progress), w1)
      /\ w_trace w1 = w_trace w ++ [EvGetProduct (name u) (version u)]
      /\ w_fs w1 = w_fs w)
  /\ exists w',
      _build_product_if_needed X b u w = (Ok true, w')
      /\ w_stdout w' = w_stdout w ++ [TWrite (rjust 20 (name u) +:+ ": "); TFlush;
                                      TWrite (version u +:+ " "); TFlush;
                                      TWrite ("(already installed)." +:+ NL); TFlush]
      /\ w_trace w' = w_trace w ++ [EvBuildStarted (name u);
                                    EvGetProduct (name u) (version u)]
                      ++ tag_events b u ep ++ [EvReportResult; EvFinalize]
      /\ w_fs w' = w_fs w
      /\ build_loop X b (u :: rest) w = build_loop X (append_built u b) rest w'
      /\ (exists b1, build_loop X b [u] w = (Ok (true, b1), w')
                     /\ built b1 = built b ++ [u]
                     /\ failed_at b1 = failed_at b)
      /\ (forall ok b' w'',
            build_loop X b (u :: rest) w = (Ok (ok, b'), w'') ->
            exists more, built b' = built b ++ u :: more).
Proof.
  intros H. split.
  - intros progress.
    unfold installed_or_build, try_ProductNotFound, getProduct, bind. simpl.
    rewrite H. simpl. eexists. split; [reflexivity|]. done.
  - destruct (installed_unit_run X b u ep w H) as (w' & E & Ho & Ht & Hf & _).
    exists w'.
    assert (build_loop X b (u :: rest) w = build_loop X (append_built u b) rest w')
      as Hstep by (simpl; by rewrite (bind_ok _ _ _ _ _ E)).
    split; [done|]. split; [done|]. split; [done|]. split; [done|].
    split; [done|]. split.
    + exists (append_built u b). simpl. by rewrite (bind_ok _ _ _ _ _ E).
    + intros ok b' w'' Hl. rewrite Hstep in Hl.
      apply (build_loop_inv X b rest (append_built u b)) in Hl
        as [(_ & _ & ->) | (_ & pre & uk & post & wk & _ & _ & _ & ->)];
        [ | | done | done ].
      * exists rest. simpl. by rewrite <- app_assoc.
      * exists pre. simpl. by rewrite <- app_assoc.
Qed.

Lemma already_installed_unit_witness :
  (forall progress, exists w1,
      installed_or_build Scenario.ext Scenario.builder0 Scenario.afw progress
                         Scenario.world_afw
        = (Ok ((Some (Scenario.installed "afw" "v1" ["b42"]), Some 0, None), progress), w1)
      /\ w_trace w1 = w_trace Scenario.world_afw ++ [EvGetProduct "afw" "v1"]
      /\ w_fs w1 = w_fs Scenario.world_afw)
  /\ exists w',
      _build_product_if_needed Scenario.ext Scenario.builder0 Scenario.afw
                               Scenario.world_afw = (Ok true, w')
      /\ w_stdout w' = w_stdout Scenario.world_afw
                       ++ [TWrite (rjust 20 "afw" +:+ ": "); TFlush;
                           TWrite ("v1" +:+ " "); TFlush;
                           TWrite ("(already installed)." +:+ NL); TFlush]
      /\ w_trace w' = w_trace Scenario.world_afw
                      ++ [EvBuildStarted "afw"; EvGetProduct "afw" "v1"]
                      ++ tag_events Scenario.builder0 Scenario.afw
                           (Scenario.installed "afw" "v1" ["b42"])
                      ++ [EvReportResult; EvFinalize]
      /\ w_fs w' = w_fs Scenario.world_afw
      /\ build_loop Scenario.ext Scenario.builder0 (Scenario.afw :: [Scenario.obs])
                    Scenario.world_afw
         = build_loop Scenario.ext (append_built Scenario.afw Scenario.builder0)
                      [Scenario.obs] w'
      /\ (exists b1, build_loop Scenario.ext Scenario.builder0 [Scenario.afw]
                                Scenario.world_afw = (Ok (true, b1), w')
                     /\ built b1 = built Scenario.builder0 ++ [Scenario.afw]
                     /\ failed_at b1 = failed_at Scenario.builder0)
      /\ (forall ok b' w'',
            build_loop Scenario.ext Scenario.builder0 (Scenario.afw :: [Scenario.obs])
                       Scenario.world_afw = (Ok (ok, b'), w'') ->
            exists more, built b' = built Scenario.builder0 ++ Scenario.afw :: more).
Proof.
  apply (already_installed_unit Scenario.ext Scenario.builder0 Scenario.afw
           [Scenario.obs] (Scenario.installed "afw" "v1" ["b42"])
           Scenario.world_afw).
  vm_compute. reflexivity.
Defined.

Lemma declare_eups_tag_present tag w :
  tag ∈ e_tag_names (w_eups w) -> declare_eups_tag tag w = (Ok tt, w).
Proof.
  intros H. unfold declare_eups_tag, bind. simpl.
  by rewrite (bool_decide_eq_true_2 _ H).
Qed.

Lemma declare_eups_tag_absent tag p ps w :
  tag ∉ e_tag_names (w_eups w) ->
  e_path (w_eups w) = p :: ps ->
  exists w0,
    declare_eups_tag tag w = (Ok tt, w0)
    /\ e_tag_names (w_eups w0) = e_tag_names (w_eups w) ++ [tag]
    /\ e_saved_tags (w_eups w0) !! p = Some (e_tag_names (w_eups w0))
    /\ e_products (w_eups w0) = e_products (w_eups w)
    /\ new_events w w0 = [EvRegisterTag tag; EvSaveGlobalTags p].
Proof.
  intros H Hp. unfold declare_eups_tag, bind. simpl.
  rewrite (bool_decide_eq_false_2 _ H). simpl.
  unfold eups_path0, bind. simpl. rewrite Hp. simpl.
  eexists. split; [reflexivity|]. simpl.
  rewrite lookup_insert_eq. repeat split; try done.
  unfold new_events. simpl. by rewrite <- app_assoc, drop_app_length.
Qed.

(** With an empty EUPS path the tag is registered and the save fails. *)
Lemma declare_eups_tag_nopath tag w :
  tag ∉ e_tag_names (w_eups w) ->
  e_path (w_eups w) = [] ->
  exists w0,
    declare_eups_tag tag w = (Raise IndexError, w0)
    /\ w_trace w0 = w_trace w ++ [EvRegisterTag tag].
Proof.
  intros H Hp. unfold declare_eups_tag, bind. simpl.
  rewrite (bool_decide_eq_false_2 _ H). simpl.
  unfold eups_path0, bind. simpl. rewrite Hp. simpl.
  eexists. split; [reflexivity|]. done.
Qed.

(** C8.  With a build tag configured, in any state of the package
    database: registering the tag is a no-op when the tag name space
    already has it; with an EUPS path to save to, it is registered and
    saved once when it is missing, and doing it again changes nothing; for
    an installed unit, the association is skipped when the product already
    carries the tag, adds the tag once when it does not, and running the
    step again returns [True] and leaves the package database as it is;
    and in a whole call of [build], however it ends, the tag is registered
    once when it was missing and not at all otherwise. *)
Theorem tagging_is_idempotent X b tag w :
  build_id (manifest b) = Some tag ->
  truthy tag = true ->
  (tag ∈ e_tag_names (w_eups w) ->
     declare_build_tag b w = (Ok tt, w))
  /\ (forall p ps, e_path (w_eups w) = p :: ps ->
        exists w0,
          declare_build_tag b w = (Ok tt, w0)
          /\ (tag ∈ e_tag_names (w_eups w) -> w0 = w)
          /\ (tag ∉ e_tag_names (w_eups w) ->
                e_tag_names (w_eups w0) = e_tag_names (w_eups w) ++ [tag]
                /\ e_saved_tags (w_eups w0) !! p = Some (e_tag_names (w_eups w0))
                /\ new_events w w0 = [EvRegisterTag tag; EvSaveGlobalTags p])
          /\ declare_build_tag b w0 = (Ok tt, w0))
  /\ (forall u ep, e_products (w_eups w) !! (name u, version u) = Some ep ->
        exists w1 ep1,
          _build_product_if_needed X b u w = (Ok true, w1)
          /\ e_products (w_eups w1) !! (name u, version u) = Some ep1
          /\ (tag ∈ ep_tags ep ->
                w_eups w1 = w_eups w
                /\ EvDeclare (name u) (version u) tag ∉ new_events w w1)
          /\ (tag ∉ ep_tags ep -> ep_tags ep1 = ep_tags ep ++ [tag])
          /\ exists w2,
               _build_product_if_needed X b u w1 = (Ok true, w2)
               /\ w_eups w2 = w_eups w1
               /\ EvDeclare (name u) (version u) tag ∉ new_events w1 w2)
  /\ (forall r w', build X b w = (r, w') ->
        registrations (new_events w w')
        = if bool_decide (tag ∈ e_tag_names (w_eups w)) then [] else [tag]).
Proof.
  intros Hid Htag. split; [|split; [|split]].
  - intros Hin. unfold declare_build_tag. rewrite Hid, Htag.
    by apply declare_eups_tag_present.
  - intros p ps Hpath. unfold declare_build_tag. rewrite Hid, Htag.
    destruct (decide (tag ∈ e_tag_names (w_eups w))) as [Hin|Hout].
    + exists w. rewrite (declare_eups_tag_present _ _ Hin).
      repeat split; try done.
    + destruct (declare_eups_tag_absent tag p ps w Hout Hpath)
        as (w0 & E & Hn & Hs & _ & Hev).
      exists w0. split; [done|]. split; [done|]. split; [done|].
      apply declare_eups_tag_present. rewrite Hn.
      apply elem_of_app. right. by left.
  - intros u ep Hep.
    destruct (installed_unit_run X b u ep w Hep) as (w1 & E1 & _ & Ht1 & _ & He1 & _).
    assert (forall w w' ep', tag ∈ ep_tags ep' ->
              w_trace w' = w_trace w ++ [EvBuildStarted (name u);
                                         EvGetProduct (name u) (version u)]
                           ++ tag_events b u ep' ++ [EvReportResult; EvFinalize] ->
              EvDeclare (name u) (version u) tag ∉ new_events w w') as Hquiet.
    { intros wa wb ep' Hin Ht. unfold new_events. rewrite Ht, drop_app_length.
      unfold tag_events, build_id_not_in. rewrite Hid.
      rewrite (bool_decide_eq_true_2 _ Hin). simpl.
      intros Hx. repeat (apply elem_of_cons in Hx as [Hx|Hx]; [discriminate|]).
      by apply elem_of_nil in Hx. }
    destruct (decide (tag ∈ ep_tags ep)) as [Hin|Hout].
    + assert (w_eups w1 = w_eups w) as Hsame.
      { rewrite He1. unfold tagged_eups, build_id_not_in.
        rewrite Hid. by rewrite (bool_decide_eq_true_2 _ Hin). }
      exists w1, ep. split; [done|]. split; [by rewrite Hsame|].
      split; [intros _; split; [done | by eapply Hquiet]|].
      split; [done|].
      assert (e_products (w_eups w1) !! (name u, version u) = Some ep) as Hep1
          by (by rewrite Hsame).
      destruct (installed_unit_run X b u ep w1 Hep1) as (w2 & E2 & _ & Ht2 & _ & He2 & _).
      exists w2. split; [done|]. split; [|by eapply Hquiet].
      rewrite He2. unfold tagged_eups, build_id_not_in.
      rewrite Hid. by rewrite (bool_decide_eq_true_2 _ Hin).
    + assert (w_eups w1
              = set_products (alter (add_tag tag) (name u, version u)
                                    (e_products (w_eups w))) (w_eups w)) as Hnew.
      { rewrite He1. unfold tagged_eups, build_id_not_in.
        rewrite Hid, Htag. by rewrite (bool_decide_eq_false_2 _ Hout). }
      assert (e_products (w_eups w1) !! (name u, version u) = Some (add_tag tag ep))
        as Hep1.
      { rewrite Hnew. simpl. by rewrite lookup_alter_eq, Hep. }
      assert (tag ∈ ep_tags (add_tag tag ep)) as Hin1.
      { simpl. apply elem_of_app. right. by left. }
      exists w1, (add_tag tag ep). split; [done|]. split; [done|].
      split; [done|]. split; [done|].
      destruct (installed_unit_run X b u _ w1 Hep1) as (w2 & E2 & _ & Ht2 & _ & He2 & _).
      exists w2. split; [done|]. split; [|by eapply Hquiet].
      rewrite He2. unfold tagged_eups, build_id_not_in.
      rewrite Hid. by rewrite (bool_decide_eq_true_2 _ Hin1).
  - intros r w' Hb. unfold build in Hb.
    set (paths := map (buildscript b) (product_index (manifest b))).
    assert (forall w0, w_trace (snd (build_loop X b (product_index (manifest b)) w0))
                       = w_trace w0 ++ drop (length (w_trace w0))
                                          (w_trace (snd (build_loop X b (product_index (manifest b)) w0)))
                       /\ registrations (drop (length (w_trace w0))
                                          (w_trace (snd (build_loop X b (product_index (manifest b)) w0)))) = [])
      as Hloop.
    { intros w0.
      destruct (emits_build_loop X paths (product_index (manifest b)) b) with (w := w0)
        as (e1 & E1 & F1).
      { intros u' Hu'. apply list_elem_of_fmap. by exists u'. }
      rewrite E1, drop_app_length. split; [done|].
      by eapply registrations_unit_events. }
    unfold declare_build_tag in Hb. rewrite Hid, Htag in Hb.
    destruct (decide (tag ∈ e_tag_names (w_eups w))) as [Hin|Hout].
    + rewrite (bind_ok _ _ _ _ _ (declare_eups_tag_present _ _ Hin)) in Hb.
      rewrite (bool_decide_eq_true_2 _ Hin).
      destruct (Hloop w) as [_ Hr]. rewrite Hb in Hr. exact Hr.
    + rewrite (bool_decide_eq_false_2 _ Hout).
      destruct (e_path (w_eups w)) as [|p ps] eqn:Hpath.
      * destruct (declare_eups_tag_nopath tag w Hout Hpath) as (w0 & E & Ht0).
        rewrite (bind_raise _ _ _ _ _ E) in Hb. injection Hb as _ <-.
        unfold new_events. by rewrite Ht0, drop_app_length.
      * destruct (declare_eups_tag_absent tag p ps w Hout Hpath)
          as (w0 & E & _ & _ & _ & Hev).
        rewrite (bind_ok _ _ _ _ _ E) in Hb.
        destruct (Hloop w0) as [Ht Hr]. rewrite Hb in Ht, Hr. simpl in Ht, Hr.
        assert (w_trace w0 = w_trace w ++ [EvRegisterTag tag; EvSaveGlobalTags p]) as Ht0.
        { destruct (emits_declare_build_tag [] b w) as (e0 & E0 & _).
          unfold declare_build_tag in E0. rewrite Hid, Htag, E in E0. simpl in E0.
          unfold new_events in Hev. rewrite E0, drop_app_length in Hev.
          by rewrite E0, Hev. }
        set (e1 := drop (length (w_trace w0)) (w_trace w')) in *.
        unfold new_events. rewrite Ht, Ht0, <- app_assoc, drop_app_length.
        rewrite registrations_app, Hr. done.
Qed.

Lemma tagging_is_idempotent_witness :
  (* a stack with nothing installed: the tag is registered and saved once *)
  (exists w0,
     declare_build_tag Scenario.builder0 Scenario.world0 = (Ok tt, w0)
     /\ e_tag_names (w_eups w0) = e_tag_names (w_eups Scenario.world0) ++ ["b42"]
     /\ e_saved_tags (w_eups w0) !! "/stack" = Some (e_tag_names (w_eups w0))
     /\ new_events Scenario.world0 w0 = [EvRegisterTag "b42"; EvSaveGlobalTags "/stack"]
     /\ declare_build_tag Scenario.builder0 w0 = (Ok tt, w0))
  /\ (forall r w', build Scenario.ext Scenario.builder0 Scenario.world0 = (r, w') ->
        registrations (new_events Scenario.world0 w') = ["b42"])
  (* the tag registered already: nothing happens *)
  /\ declare_build_tag Scenario.builder0 Scenario.world_tagged
     = (Ok tt, Scenario.world_tagged)
  /\ (forall r w', build Scenario.ext Scenario.builder0 Scenario.world_tagged = (r, w') ->
        registrations (new_events Scenario.world_tagged w') = [])
  (* an installed unit without the tag, and then with it *)
  /\ (exists w1 ep1,
        _build_product_if_needed Scenario.ext Scenario.builder0 Scenario.afw
                                 Scenario.world_installed = (Ok true, w1)
        /\ e_products (w_eups w1) !! (name Scenario.afw, version Scenario.afw) = Some ep1
        /\ ep_tags ep1 = ep_tags (Scenario.installed "afw" "v1" []) ++ ["b42"]
        /\ exists w2,
             _build_product_if_needed Scenario.ext Scenario.builder0 Scenario.afw w1
               = (Ok true, w2)
             /\ w_eups w2 = w_eups w1
             /\ EvDeclare (name Scenario.afw) (version Scenario.afw) "b42"
                  ∉ new_events w1 w2).
Proof.
  destruct (tagging_is_idempotent Scenario.ext Scenario.builder0 "b42" Scenario.world0
              eq_refl eq_refl) as (_ & A0 & _ & C0).
  destruct (tagging_is_idempotent Scenario.ext Scenario.builder0 "b42"
              Scenario.world_tagged eq_refl eq_refl) as (A1 & _ & _ & C1).
  destruct (tagging_is_idempotent Scenario.ext Scenario.builder0 "b42"
              Scenario.world_installed eq_refl eq_refl) as (_ & _ & B2 & _).
  assert ("b42" ∉ e_tag_names (w_eups Scenario.world0)) as Hout.
  { vm_compute. intros H. repeat (apply elem_of_cons in H as [H|H]; [discriminate|]).
    by apply elem_of_nil in H. }
  assert ("b42" ∈ e_tag_names (w_eups Scenario.world_tagged)) as Hin.
  { vm_compute. right. left. }
  split; [|split; [|split; [|split]]].
  - destruct (A0 "/stack" [] eq_refl) as (w0 & E & _ & Habs & Hagain).
    destruct (Habs Hout) as (Hn & Hs & Hev). by exists w0.
  - intros r w' H. rewrite (C0 r w' H). by rewrite (bool_decide_eq_false_2 _ Hout).
  - by apply A1.
  - intros r w' H. rewrite (C1 r w' H). by rewrite (bool_decide_eq_true_2 _ Hin).
  - destruct (B2 Scenario.afw (Scenario.installed "afw" "v1" []))
      as (w1 & ep1 & E1 & Hl & _ & Hnew & Hre).
    { vm_compute. reflexivity. }
    exists w1, ep1. split; [done|]. split; [done|]. split; [|done].
    apply Hnew. simpl. apply not_elem_of_nil.
Defined.

(** ** The status record *)

Lemma load_product_representer u : load_product (product_representer u) = Some u.
Proof. by destruct u. Qed.

Lemma load_products_representer us :
  load_products (map product_representer us) = Some us.
Proof.
  induction us as [|u us IH]; [done|].
  cbn [map load_products]. by rewrite load_product_representer, IH.
Qed.

Lemma load_status_yaml b : load_status (status_yaml b) = Some (built b, failed_at b).
Proof.
  unfold status_yaml, load_status.
  change (yaml_get "built" (("built", YSeq (map product_representer (built b))) :: _))
    with (Some (YSeq (map product_representer (built b)))).
  cbv beta iota. rewrite load_products_representer.
  destruct (failed_at b) as [u|].
  - change (yaml_get "failed_at" _) with (Some (product_representer u)).
    cbv beta iota. by rewrite load_product_representer.
  - done.
Qed.

(** C6.  The status record written by [write_status], read back, gives the
    [built] sequence with every unit's name, version and fingerprint, and
    [failed_at]; the document has a [failed_at] key exactly when
    [failed_at] is set. *)
Theorem status_round_trip b w :
  exists w',
    write_status b w = (Ok tt, w')
    /\ w_fs w' !! status_file b = Some (FStatus (status_yaml b))
    /\ reload_status b w' = (Ok (built b, failed_at b), w')
    /\ yaml_keys (status_yaml b)
       = match failed_at b with
         | Some _ => ["built"; "failed_at"]
         | None => ["built"]
         end
    /\ yaml_get "failed_at" (match status_yaml b with YMap l => l | _ => [] end)
       = product_representer <$> failed_at b.
Proof.
  unfold write_status, write_file, bind, emit, modify. simpl.
  eexists. split; [reflexivity|]. simpl.
  split; [by rewrite lookup_insert_eq|]. split.
  - unfold reload_status, bind. simpl.
    by rewrite lookup_insert_eq, load_status_yaml.
  - by destruct (failed_at b).
Qed.

(** ** Exceptions and the exit code *)

Lemma ro_ret P {A} (a : A) : raises_only P (ret a).
Proof. intros w e w' H. discriminate. Qed.

Lemma ro_raise (P : Exn -> Prop) {A} e : P e -> raises_only P (@raise A e).
Proof. intros HP w e' w' [= <- _]. exact HP. Qed.

Lemma ro_get P : raises_only P get.
Proof. intros w e w' H. discriminate. Qed.

Lemma ro_modify P f : raises_only P (modify f).
Proof. intros w e w' H. discriminate. Qed.

Lemma ro_bind P {A B} (m : M A) (k : A -> M B) :
  raises_only P m -> (forall a, raises_only P (k a)) -> raises_only P (bind m k).
Proof.
  intros Hm Hk w e w'. unfold bind.
  destruct (m w) as [[a|e0] w1] eqn:E.
  - apply Hk.
  - intros [= <- _]. eapply Hm, E.
Qed.

Ltac ro_step :=
  match goal with
  | |- raises_only _ (bind _ _) => apply ro_bind; [|intros]
  | |- raises_only _ (ret _) => apply ro_ret
  | |- raises_only _ (raise _) => apply ro_raise; exact I
  | |- raises_only _ get => apply ro_get
  | |- raises_only _ (emit _) => apply ro_modify
  | |- raises_only _ (modify _) => apply ro_modify
  | |- raises_only _ (if ?c then _ else _) => destruct c
  | |- raises_only _ (match ?x with _ => _ end) => destruct x
  end.

Create HintDb ro_db.

Ltac ro_tac := repeat first [ ro_step | solve [eauto with ro_db] ].

Section NoExit.
Variable X : Ext.
Local Abbreviation safe := (raises_only not_exit).

Lemma ro_out_write s : safe (out_write s).
Proof. apply ro_modify. Qed.
Lemma ro_out_flush : safe out_flush.
Proof. apply ro_modify. Qed.
Lemma ro_print s : safe (print s).
Proof. apply ro_modify. Qed.
Lemma ro_write_file p f : safe (write_file p f).
Proof. apply ro_modify. Qed.
Lemma ro_environ_get k : safe (environ_get k).
Proof.
  intros w e w'. unfold environ_get.
  destruct (w_environ w !! k); [discriminate|]. by intros [= <- _].
Qed.
Lemma ro_now : safe (now X).
Proof. intros w e w' H. discriminate. Qed.
Hint Resolve ro_out_write ro_out_flush ro_print ro_write_file ro_environ_get
  ro_now : ro_db.

Lemma ro_copy2 s d b : safe (copy2 s d b).
Proof. unfold copy2. ro_tac. Qed.
Lemma ro_getProduct n v : safe (getProduct n v).
Proof. unfold getProduct. ro_tac. Qed.
Lemma ro_eups_declare n v tg : safe (eups_declare n v tg).
Proof. unfold eups_declare. ro_tac. Qed.
Lemma ro_declare_eups_tag tg : safe (declare_eups_tag tg).
Proof.
  unfold declare_eups_tag, registerTag, eups_path0, saveGlobalTags. ro_tac.
Qed.
Lemma ro_product_name p : safe (product_name p).
Proof. unfold product_name. ro_tac. Qed.
Lemma ro_product_version p : safe (product_version p).
Proof. unfold product_version. ro_tac. Qed.
Hint Resolve ro_copy2 ro_getProduct ro_eups_declare ro_declare_eups_tag
  ro_product_name ro_product_version : ro_db.

Lemma ro__build_started p : safe (_build_started X p).
Proof. unfold _build_started. ro_tac. Qed.

Lemma ro_report_progress p : safe (report_progress X p).
Proof.
  intros w e w' H.
  destruct (report_progress_spec X p w) as (p1 & w1 & E & _). congruence.
Qed.
Lemma ro_report_result p rc lf : safe (report_result X p rc lf).
Proof. unfold report_result. ro_tac. Qed.
Lemma ro__finalize p : safe (_finalize p).
Proof. unfold _finalize. ro_tac. Qed.
Hint Resolve ro__build_started ro_report_progress ro_report_result
  ro__finalize : ro_db.

Lemma ro_new_build {A} prod
    (body : ProductProgressReporter -> M (A * ProductProgressReporter)) :
  (forall p, safe (body p)) -> safe (new_build X prod body).
Proof.
  intros Hb. unfold new_build. apply ro_bind; [ro_tac|].
  intros p w e w'.
  destruct (body p w) as [[[a p']|e0] w1] eqn:E.
  - assert (safe (_finalize p' ;; ret a)) as Hf by ro_tac. apply Hf.
  - intros [= <- _]. eapply Hb, E.
Qed.

Lemma ro_try {A} (m h : M A) : safe m -> safe h -> safe (try_ProductNotFound m h).
Proof.
  intros Hm Hh w e w'. unfold try_ProductNotFound.
  destruct (m w) as [[a|e0] w1] eqn:E; [discriminate|].
  destruct e0; try (intros [= <- _]; exact I).
  - apply Hh.
  - intros _. destruct (Hm _ _ _ E).
Qed.

Lemma ro_tee_byte lf c buf : safe (tee_byte X lf c buf).
Proof. unfold tee_byte, log_write. ro_tac. Qed.
Hint Resolve ro_tee_byte : ro_db.

Lemma ro_drain lf evs buf p : safe (drain X lf evs buf p).
Proof.
  revert buf p. induction evs as [|[|c] evs IH]; intros buf p; simpl; ro_tac.
  all: apply IH.
Qed.
Hint Resolve ro_drain : ro_db.

Lemma ro_collect_result u rc lf : safe (collect_result u rc lf).
Proof. unfold collect_result. ro_tac. Qed.
Hint Resolve ro_collect_result : ro_db.

Lemma ro__build_product b u p : safe (_build_product X b u p).
Proof. unfold _build_product, write_buildscript, run_buildscript. ro_tac. Qed.

Lemma ro_tag_if_missing b u ep : safe (tag_if_missing b u ep).
Proof. unfold tag_if_missing, _tag_product. ro_tac. Qed.
Hint Resolve ro_tag_if_missing ro__build_product : ro_db.

Lemma ro__build_product_if_needed b u : safe (_build_product_if_needed X b u).
Proof.
  unfold _build_product_if_needed.
  apply ro_bind; [|intros; ro_tac].
  apply ro_new_build. intros p.
  apply ro_bind.
  - unfold installed_or_build. apply ro_try; ro_tac.
  - intros [[[ep rc] lf] p']. ro_tac.
Qed.
Hint Resolve ro__build_product_if_needed : ro_db.

Lemma ro_build_loop us : forall b, safe (build_loop X b us).
Proof. induction us as [|u us IH]; intros b; simpl; ro_tac; apply IH. Qed.

Lemma ro_build b : safe (build X b).
Proof.
  unfold build, declare_build_tag. apply ro_bind; [ro_tac|].
  intros _. apply ro_build_loop.
Qed.

Lemma ro_post_github_status pr st d a : safe (post_github_status X pr st d a).
Proof. unfold post_github_status, dict_get. ro_tac. Qed.

Lemma ro_rm_status b : safe (rm_status b).
Proof. unfold rm_status. ro_tac. Qed.

Lemma ro_write_status b : safe (write_status b).
Proof. unfold write_status. ro_tac. Qed.

Lemma ro_load_pr_info dir : safe (load_pr_info dir).
Proof. unfold load_pr_info. ro_tac. Qed.

Lemma ro_open_manifest path : safe (open_manifest path).
Proof. unfold open_manifest. ro_tac. Qed.

End NoExit.

Lemma bind_inv_exit {A B} (m : M A) (k : A -> M B) w code w' :
  raises_only not_exit m ->
  bind m k w = (Raise (SystemExit code), w') ->
  exists a w1, m w = (Ok a, w1) /\ k a w1 = (Raise (SystemExit code), w').
Proof.
  intros Hm. unfold bind. destruct (m w) as [[a|e] w1] eqn:E; [eauto|].
  intros [= -> _]. destruct (Hm _ _ _ E).
Qed.

(** C5 fails on the code.  In the run of [world_pr_full] with the endpoint
    unreachable for the final status, the precondition checks pass and
    nothing is installed beforehand; from the world in which the run's
    [build] starts, the build tag is declared and every unit of the
    manifest is built in turn, each call of [_build_product_if_needed]
    returning [True]; [build] returns [True] with all the units in [built];
    the run ends in the world the final post leaves from the world of the
    build, where both units are installed and tagged.  Yet it ends in the
    exception of that post: the exit status is 1 and there is no status
    record.  With the endpoint reachable the same run exits with 0. *)
Theorem exit_code_one_with_every_unit_built :
  access_w Scenario.ext_offline "/b" = true
  /\ w_fs Scenario.world_pr_full !! path_join "/b" "manifest.txt"
     = Some (FManifest Scenario.man_ok)
  /\ e_products (w_eups Scenario.world_pr_full) = ∅
  /\ declare_build_tag Scenario2.builder_ok Scenario2.offline_start
     = (Ok tt, Scenario2.offline_tagged)
  /\ units_succeed Scenario.ext_offline Scenario2.builder_ok
       (product_index Scenario.man_ok) Scenario2.offline_tagged Scenario2.offline_built
  /\ (exists b',
        build Scenario.ext_offline Scenario2.builder_ok Scenario2.offline_start
          = (Ok (true, b'), Scenario2.offline_built)
        /\ built b' = product_index Scenario.man_ok
        /\ failed_at b' = None)
  /\ run Scenario.ext_offline "/b" Scenario.world_pr_full
     = (Raise RequestException,
        snd (post_github_status Scenario.ext_offline Scenario.pr_info "success"
               "Build succeeded on linux" "linux" Scenario2.offline_built))
  /\ (forall u, u ∈ product_index Scenario.man_ok ->
        exists ep,
          e_products (w_eups (snd (run Scenario.ext_offline "/b" Scenario.world_pr_full)))
            !! (name u, version u) = Some ep
          /\ "b42" ∈ ep_tags ep)
  /\ exit_status (fst (run Scenario.ext_offline "/b" Scenario.world_pr_full)) = 1
  /\ w_fs (snd (run Scenario.ext_offline "/b" Scenario.world_pr_full))
       !! "/b/status.yaml" = None
  /\ fst (run Scenario.ext "/b" Scenario.world_pr_full) = Raise (SystemExit 0).
Proof.
  split; [reflexivity|]. split; [vm_compute; reflexivity|].
  split; [vm_compute; reflexivity|]. split; [vm_compute; reflexivity|].
  split.
  { exists (snd (_build_product_if_needed Scenario.ext_offline Scenario2.builder_ok
                   Scenario.afw Scenario2.offline_tagged)).
    split; [vm_compute; reflexivity|].
    exists Scenario2.offline_built. split; [vm_compute; reflexivity | reflexivity]. }
  split.
  { eexists. split; [vm_compute; reflexivity|]. split; reflexivity. }
  split; [vm_compute; reflexivity|].
  split.
  { intros u Hu. simpl in Hu.
    apply elem_of_cons in Hu as [->|Hu]; [|apply elem_of_cons in Hu as [->|Hu]].
    - eexists. split; [vm_compute; reflexivity|]. vm_compute. left.
    - eexists. split; [vm_compute; reflexivity|]. vm_compute. left.
    - by apply elem_of_nil in Hu. }
  split; [vm_compute; reflexivity|]. split; vm_compute; reflexivity.
Qed.

(** A run with notification off reaches its [sys.exit] as soon as the
    build returns. *)
Lemma run_reaches_exit X dir w m ok b' w2 :
  access_w X dir = true ->
  w_fs w !! path_join dir "manifest.txt" = Some (FManifest m) ->
  w_fs w !! path_join dir "pr_info.json" = None ->
  build X (new_Builder dir m)
        (snd (rm_status (new_Builder dir m)
                (set_stdout (w_stdout w ++ [TPrInfo None]) w)))
    = (Ok (ok, b'), w2) ->
  fst (run X dir w) = Raise (SystemExit (if ok then 0 else 1)).
Proof.
  intros Ha Hm Hp Hb. unfold run. rewrite Ha.
  unfold bind at 1. simpl.
  unfold open_manifest. unfold bind at 1. unfold bind at 1. simpl. rewrite Hm.
  simpl. unfold load_pr_info. unfold bind at 1. unfold bind at 1. simpl.
  rewrite Hp. simpl. unfold bind at 1. simpl.
  unfold bind at 1.
  destruct (rm_status (new_Builder dir m) _) as [[[]|e] wr] eqn:Er.
  - simpl in Hb. unfold bind at 1. simpl. rewrite (bind_ok _ _ _ _ _ Hb).
    reflexivity.
  - unfold rm_status, bind in Er. simpl in Er.
    destruct (w_fs w !! status_file (new_Builder dir m)); discriminate.
Qed.

(** [run] always ends by raising: in [sys.exit] or before. *)
Lemma run_never_returns X dir w a w' : run X dir w <> (Ok a, w').
Proof.
  unfold run. intros H.
  repeat (apply bind_inv_ok in H as (? & ? & _ & H)).
  match type of H with context [let '(_, _) := ?r in _] => destruct r as [ok b'] end.
  repeat (apply bind_inv_ok in H as (? & ? & _ & H)).
  discriminate.
Qed.

(** Exit status 0 is reached through [sys.exit(0)] only. *)
Lemma exit_status_zero X dir w :
  exit_status (fst (run X dir w)) = 0 ->
  fst (run X dir w) = Raise (SystemExit 0).
Proof.
  destruct (run X dir w) as [[a|e] w'] eqn:E; simpl.
  - by destruct (run_never_returns X dir w a w').
  - destruct e; simpl; try discriminate. by intros ->.
Qed.

(** ** Notification failures *)

(** Without [GITHUB_TOKEN] in the environment the lookup raises before the
    test that was meant to log the missing credential. *)
Lemma post_github_status_without_token X pr_info state description agent w :
  w_environ w !! "GITHUB_TOKEN" = None ->
  fst (post_github_status X pr_info state description agent w)
    = Raise (KeyError "GITHUB_TOKEN").
Proof.
  intros H. unfold post_github_status, bind, print, out_write, environ_get.
  simpl. by rewrite H.
Qed.

(** C2 fails on the code.  With a PR context and no [GITHUB_TOKEN],
    [post_github_status] raises [KeyError]; the run that exits with 0 and
    a status record when notification is off then stops before the first
    unit, writes no status record and ends with exit status 1.  With the
    endpoint unreachable for the final status, every unit is built, and
    again no record is written and the exit status is 1. *)
Theorem notifier_failure_aborts_run :
  fst (post_github_status Scenario.ext Scenario.pr_info "pending"
         "Build started on linux" "linux" Scenario.world_pr)
    = Raise (KeyError "GITHUB_TOKEN")
  /\ (fst (run Scenario.ext "/b" Scenario.world_ok) = Raise (SystemExit 0)
      /\ is_Some (w_fs (snd (run Scenario.ext "/b" Scenario.world_ok))
                    !! "/b/status.yaml"))
  /\ (fst (run Scenario.ext "/b" Scenario.world_pr) = Raise (KeyError "GITHUB_TOKEN")
      /\ exit_status (fst (run Scenario.ext "/b" Scenario.world_pr)) = 1
      /\ w_trace (snd (run Scenario.ext "/b" Scenario.world_pr)) = []
      /\ w_fs (snd (run Scenario.ext "/b" Scenario.world_pr)) !! "/b/status.yaml" = None)
  /\ (fst (run Scenario.ext "/b" Scenario.world_pr_token) = Raise (KeyError "BUILD_URL")
      /\ w_fs (snd (run Scenario.ext "/b" Scenario.world_pr_token))
           !! "/b/status.yaml" = None)
  /\ (fst (run Scenario.ext_offline "/b" Scenario.world_pr_full) = Raise RequestException
      /\ exit_status (fst (run Scenario.ext_offline "/b" Scenario.world_pr_full)) = 1
      /\ In (EvCopy "/b/obs/_build.log" "/stack/obs")
            (w_trace (snd (run Scenario.ext_offline "/b" Scenario.world_pr_full)))
      /\ w_fs (snd (run Scenario.ext_offline "/b" Scenario.world_pr_full))
           !! "/b/status.yaml" = None).
Proof.
  vm_compute. repeat split; try done.
  - by eexists.
  - tauto.
Qed.

(** ** The scope of the progress display *)

(** When the body returns, [_finalize] runs once, after it. *)
Lemma new_build_body_returns X {A} prod
    (body : ProductProgressReporter -> M (A * ProductProgressReporter))
    w p w1 a p' w2 :
  _build_started X (ppr_init prod) w = (Ok p, w1) ->
  body p w1 = (Ok (a, p'), w2) ->
  exists w3,
    new_build X prod body w = (Ok a, w3)
    /\ w_trace w3 = w_trace w2 ++ [EvFinalize].
Proof.
  intros Hs Hb. unfold new_build. rewrite (bind_ok _ _ _ _ _ Hs), Hb.
  unfold _finalize, bind, emit, modify, out_write, out_flush, ret. simpl.
  destruct (product p'); simpl; eexists; split; reflexivity.
Qed.

(** When the body raises, the exception leaves [new_build] in the world
    the body left: [_finalize] does not run. *)
Lemma new_build_body_raises X {A} prod
    (body : ProductProgressReporter -> M (A * ProductProgressReporter))
    w p w1 e w2 :
  _build_started X (ppr_init prod) w = (Ok p, w1) ->
  body p w1 = (Raise e, w2) ->
  new_build X prod body w = (Raise e, w2).
Proof.
  intros Hs Hb. unfold new_build. by rewrite (bind_ok _ _ _ _ _ Hs), Hb.
Qed.

(** C3 fails on the code.  With [EUPS_PATH] missing, the body of the
    [with] block raises [KeyError] after the product name was written:
    [_finalize] is never called and the terminal is left after the prefix,
    without a newline.  (In a build that returns, it is called once.) *)
Theorem finalize_skipped_when_body_raises :
  fst (_build_product_if_needed Scenario.ext Scenario.builder0 Scenario.afw
         Scenario.world_noenv) = Raise (KeyError "EUPS_PATH")
  /\ w_trace (snd (_build_product_if_needed Scenario.ext Scenario.builder0 Scenario.afw
                     Scenario.world_noenv))
     = [EvBuildStarted "afw"; EvGetProduct "afw" "v1"]
  /\ w_stdout (snd (_build_product_if_needed Scenario.ext Scenario.builder0 Scenario.afw
                      Scenario.world_noenv))
     = [TWrite "                 afw: "; TFlush]
  /\ length (filter (fun e => e = EvFinalize)
               (w_trace (snd (_build_product_if_needed Scenario.ext Scenario.builder0
                                Scenario.afw Scenario.world0)))) = 1%nat.
Proof. vm_compute. done. Qed.

(** * Further properties *)

(** ** The loop of [build] *)

(** X1.  When every unit of the manifest, in turn, is built or found
    installed, [build] returns [True] with [built] holding all the units in
    manifest order and [failed_at] unset (an empty manifest included). *)
Theorem build_all_units X b w w0 wend :
  built b = [] ->
  failed_at b = None ->
  declare_build_tag b w = (Ok tt, w0) ->
  units_succeed X b (product_index (manifest b)) w0 wend ->
  exists b',
    build X b w = (Ok (true, b'), wend)
    /\ built b' = product_index (manifest b)
    /\ failed_at b' = None
    /\ build_dir b' = build_dir b
    /\ manifest b' = manifest b.
Proof.
  intros Hb Hf Ht Hs.
  exists (add_built (product_index (manifest b)) b).
  split; [|by simpl; rewrite Hb].
  unfold build. rewrite (bind_ok _ _ _ _ _ Ht).
  pose proof (build_loop_prefix X b _ [] w0 wend Hs b eq_refl eq_refl) as E.
  rewrite app_nil_r in E. exact E.
Qed.

Lemma build_all_units_witness :
  exists b',
    build Scenario.ext Scenario2.builder_ok Scenario.world_ok
      = (Ok (true, b'), Scenario2.world_ok_obs)
    /\ built b' = product_index (manifest Scenario2.builder_ok)
    /\ failed_at b' = None
    /\ build_dir b' = build_dir Scenario2.builder_ok
    /\ manifest b' = manifest Scenario2.builder_ok.
Proof.
  apply (build_all_units Scenario.ext Scenario2.builder_ok Scenario.world_ok
           Scenario2.world_ok_tagged Scenario2.world_ok_obs).
  - reflexivity.
  - reflexivity.
  - vm_compute. reflexivity.
  - exists Scenario2.world_ok_afw. split; [vm_compute; reflexivity|].
    exists Scenario2.world_ok_obs. split; [vm_compute; reflexivity | reflexivity].
Defined.

(** X2.  Whatever [build] returns, [built] is a prefix of the manifest
    order: all of it when the result is [True], and otherwise the units
    before [failed_at], which is the next unit of the manifest. *)
Theorem build_keeps_manifest_order X b w ok b' w' :
  built b = [] ->
  failed_at b = None ->
  build X b w = (Ok (ok, b'), w') ->
  (ok = true /\ built b' = product_index (manifest b) /\ failed_at b' = None
   \/ ok = false /\ exists uk post,
        product_index (manifest b) = built b' ++ uk :: post
        /\ failed_at b' = Some uk)
  /\ build_dir b' = build_dir b
  /\ manifest b' = manifest b.
Proof.
  intros Hb Hf H. unfold build in H.
  apply bind_inv_ok in H as ([] & w0 & _ & H).
  apply (build_loop_inv X b) in H
    as [(-> & _ & ->) | (-> & pre & uk & post & wk & Hidx & _ & _ & ->)];
    try done; simpl; rewrite Hb; simpl.
  - split; [left|]; done.
  - split; [right; split; [done|]; by exists uk, post | done].
Qed.

Lemma build_keeps_manifest_order_witness :
  (false = true /\ built (set_failed_at Scenario.base (add_built [Scenario.afw] Scenario.builder0))
                   = product_index (manifest Scenario.builder0)
   /\ failed_at (set_failed_at Scenario.base (add_built [Scenario.afw] Scenario.builder0)) = None
   \/ false = false /\ exists uk post,
        product_index (manifest Scenario.builder0)
        = built (set_failed_at Scenario.base (add_built [Scenario.afw] Scenario.builder0))
          ++ uk :: post
        /\ failed_at (set_failed_at Scenario.base (add_built [Scenario.afw] Scenario.builder0))
           = Some uk)
  /\ build_dir (set_failed_at Scenario.base (add_built [Scenario.afw] Scenario.builder0))
     = build_dir Scenario.builder0
  /\ manifest (set_failed_at Scenario.base (add_built [Scenario.afw] Scenario.builder0))
     = manifest Scenario.builder0.
Proof.
  apply (build_keeps_manifest_order Scenario.ext Scenario.builder0 Scenario.world0
           false _ Scenario.world_base).
  - reflexivity.
  - reflexivity.
  - vm_compute. reflexivity.
Defined.

(** ** One unit, built *)

Lemma progress_loop_keeps fuel t1 : forall p w p' w',
  progress_loop fuel t1 p w = (Ok p', w') ->
  product p' = product p /\ t0 p' = t0 p.
Proof.
  induction fuel as [|fuel IH]; intros p w p' w'; simpl.
  - by intros [= <- _].
  - destruct (Z.leb (t p) t1); [|by intros [= <- _]].
    unfold bind, out_write, out_flush, modify, ret.
    destruct (py_uncons (progress_bar p)) as [[c rest]|]; simpl;
      intros H; apply IH in H as [-> ->]; done.
Qed.

Lemma report_progress_keeps X p w p' w' :
  report_progress X p w = (Ok p', w') ->
  product p' = product p /\ t0 p' = t0 p.
Proof.
  unfold report_progress, bind, emit, modify, now. simpl.
  apply progress_loop_keeps.
Qed.

Lemma drain_keeps X lf evs : forall buf p w p' w',
  drain X lf evs buf p w = (Ok p', w') ->
  product p' = product p /\ t0 p' = t0 p.
Proof.
  induction evs as [|[|c] evs IH]; intros buf p w p' w' H; cbn [drain] in H.
  - do 2 rewrite (bind_ok _ _ _ _ _ (emit_run _ _)) in H.
    apply bind_inv_ok in H as (? & ? & _ & H). by injection H as <- _.
  - rewrite (bind_ok _ _ _ _ _ (emit_run _ _)) in H.
    apply bind_inv_ok in H as (p1 & w1 & Hp & H).
    apply report_progress_keeps in Hp as [<- <-]. by apply IH in H.
  - do 2 rewrite (bind_ok _ _ _ _ _ (emit_run _ _)) in H.
    apply bind_inv_ok in H as (? & ? & _ & H).
    apply bind_inv_ok in H as (p1 & w1 & Hp & H).
    apply report_progress_keeps in Hp as [<- <-]. by apply IH in H.
Qed.

(** What [_build_product] returns: the log file of the unit, the reporter
    it was given with product and start time as they were, and an installed
    product exactly when [poll()] did not give a nonzero code. *)
Lemma _build_product_inv X b u p w o rc lf p' w' :
  _build_product X b u p w = (Ok ((o, rc, lf), p'), w') ->
  lf = Some (logfile_of b u)
  /\ product p' = product p /\ t0 p' = t0 p
  /\ (retcode_truthy rc = true -> o = None)
  /\ (retcode_truthy rc = false ->
      exists ep, o = Some ep
                 /\ e_products (w_eups w') !! (name u, version u) = Some ep).
Proof.
  unfold _build_product. intros H.
  apply bind_inv_ok in H as (script & w1 & _ & H).
  apply bind_inv_ok in H as ([process p1] & w2 & Hr & H).
  apply bind_inv_ok in H as (res & w3 & Hc & H).
  injection H as Hres Hp Hw. simpl in Hp. subst res p1 w3. simpl in *.
  assert (product p' = product p /\ t0 p' = t0 p) as Hk.
  { unfold run_buildscript in Hr.
    apply bind_inv_ok in Hr as (? & ? & _ & Hr).
    apply bind_inv_ok in Hr as (? & ? & _ & Hr).
    apply bind_inv_ok in Hr as (? & ? & _ & Hr).
    apply bind_inv_ok in Hr as (p2 & ? & Hd & Hr).
    apply bind_inv_ok in Hr as (? & ? & _ & Hr).
    injection Hr as _ <- _. by apply drain_keeps in Hd. }
  unfold collect_result, retcode_falsy in Hc.
  destruct (retcode_truthy (cr_poll process)) eqn:Et; simpl in Hc.
  - injection Hc as <- <- <- <-. rewrite Et. repeat split; try tauto; done.
  - apply bind_inv_ok in Hc as (ep & w4 & Hg & Hc).
    apply bind_inv_ok in Hc as ([] & w5 & Hcp & Hc).
    injection Hc as <- <- <- <-. rewrite Et.
    split; [done|]. split; [tauto|]. split; [tauto|]. split; [done|].
    intros _. exists ep. split; [done|].
    unfold getProduct, bind, emit, modify, get in Hg. simpl in Hg.
    destruct (e_products (w_eups w2) !! (name u, version u)) as [ep'|] eqn:El;
      [|discriminate].
    injection Hg as -> <-.
    unfold copy2, bind, emit, modify, get, write_file in Hcp. simpl in Hcp.
    destruct (w_fs w2 !! logfile_of b u); [|discriminate].
    injection Hcp as <-. simpl. done.
Qed.

(** The start of the [with] block: the name prefix is written and the
    reporter primed with the version; the lookup of a unit that is not
    installed then fails. *)
Lemma started_run X u w :
  started X u w
  = (Ok (started_reporter u (wall_clock X (w_clock_reads w))),
     set_clock_reads (S (w_clock_reads w))
       (set_stdout (w_stdout w ++ [TWrite (rjust 20 (name u) +:+ ": "); TFlush])
          (set_trace (w_trace w ++ [EvBuildStarted (name u)]) w))).
Proof.
  unfold started, _build_started, bind, emit, out_write, out_flush, modify, now.
  simpl. by rewrite <- app_assoc.
Qed.

Lemma getProduct_missing n v w :
  e_products (w_eups w) !! (n, v) = None ->
  getProduct n v w
  = (Raise (ProductNotFound n v), set_trace (w_trace w ++ [EvGetProduct n v]) w).
Proof. intros H. unfold getProduct, bind, emit, modify, get. simpl. by rewrite H. Qed.

Lemma getProduct_found n v w ep :
  e_products (w_eups w) !! (n, v) = Some ep ->
  getProduct n v w = (Ok ep, set_trace (w_trace w ++ [EvGetProduct n v]) w).
Proof. intros H. unfold getProduct, bind, emit, modify, get. simpl. by rewrite H. Qed.

(** [_build_product_if_needed] on a unit that is not installed, in terms
    of what [_build_product] does. *)
Lemma uninstalled_unit_run X b u w :
  e_products (w_eups w) !! (name u, version u) = None ->
  _build_product_if_needed X b u w
  = match _build_product X b u (started_reporter u (wall_clock X (w_clock_reads w)))
                         (lookup_world X u w) with
    | (Ok ((eups_prod, retcode, logfile), progress), w2) =>
        match (tag_if_missing b u eups_prod ;;
               progress' <- report_result X progress retcode logfile ;;
               _finalize progress') w2 with
        | (Ok _, w3) => (Ok (retcode_is_zero retcode), w3)
        | (Raise e, w3) => (Raise e, w3)
        end
    | (Raise e, w2) => (Raise e, w2)
    end.
Proof.
  intros Hl. unfold lookup_world. rewrite started_run.
  pose proof (started_run X u w) as Hs. unfold started in Hs.
  unfold _build_product_if_needed. unfold bind at 1.
  unfold new_build. rewrite (bind_ok _ _ _ _ _ Hs).
  unfold installed_or_build, try_ProductNotFound.
  unfold bind at 1. unfold bind at 1.
  rewrite !getProduct_missing by done. simpl.
  destruct (_build_product X b u _ _) as [[[[[o rc] lf] p']|e] w2]; [|done].
  unfold bind.
  destruct (tag_if_missing b u o w2) as [[[]|e] w3]; [|done].
  destruct (report_result X p' rc lf w3) as [[p2|e] w4]; [|done].
  unfold ret at 1. cbv beta iota.
  destruct (_finalize p2 w4) as [[[]|e] w5]; done.
Qed.

Lemma tag_if_missing_run b u ep w :
  exists w',
    tag_if_missing b u (Some ep) w = (Ok tt, w')
    /\ w_eups w' = tagged_eups b u ep (w_eups w)
    /\ w_trace w' = w_trace w ++ tag_events b u ep
    /\ w_fs w' = w_fs w /\ w_stdout w' = w_stdout w
    /\ w_clock_reads w' = w_clock_reads w /\ w_environ w' = w_environ w.
Proof.
  unfold tag_if_missing, tagged_eups, tag_events, _tag_product.
  destruct (build_id_not_in _ _);
    [destruct (build_id (manifest b)) as [tg|]; [destruct (truthy tg)|]|].
  - unfold eups_declare, bind, emit, modify. simpl. eexists. split; [reflexivity|]. done.
  - exists w. by rewrite app_nil_r.
  - exists w. by rewrite app_nil_r.
  - exists w. by rewrite app_nil_r.
Qed.

Lemma report_result_run X p u rc lf w :
  product p = Some u ->
  exists w',
    report_result X p rc (Some lf) w = (Ok (set_product None p), w')
    /\ w_stdout w' = w_stdout w ++ bar_rest p
                     ++ result_block X (name u) rc lf
                          (wall_clock X (w_clock_reads w) - t0 p)
    /\ w_trace w' = w_trace w ++ [EvReportResult]
    /\ w_clock_reads w' = S (w_clock_reads w)
    /\ w_fs w' = w_fs w /\ w_eups w' = w_eups w /\ w_environ w' = w_environ w.
Proof.
  intros Hp. unfold report_result, bar_rest, result_block, product_name.
  rewrite Hp.
  unfold bind, emit, out_write, out_flush, print, out_write, modify, now, ret.
  destruct (truthy (progress_bar p)), (retcode_truthy rc); simpl;
    (eexists; split; [reflexivity|]); simpl;
    rewrite <- ?app_assoc; simpl; done.
Qed.

(** After [_build_product] returned: the tag, the result on the terminal,
    and the end of the [with] block. *)
Lemma built_unit_run X b u w o rc lf p' w2 :
  e_products (w_eups w) !! (name u, version u) = None ->
  _build_product X b u (started_reporter u (wall_clock X (w_clock_reads w)))
                 (lookup_world X u w)
    = (Ok ((o, rc, lf), p'), w2) ->
  exists w3,
    _build_product_if_needed X b u w = (Ok (retcode_is_zero rc), w3)
    /\ w_eups w3 = match o with
                   | Some ep => tagged_eups b u ep (w_eups w2)
                   | None => w_eups w2
                   end
    /\ w_trace w3 = w_trace w2
                    ++ match o with Some ep => tag_events b u ep | None => [] end
                    ++ [EvReportResult; EvFinalize]
    /\ w_stdout w3
       = w_stdout w2
         ++ bar_rest p' ++ result_block X (name u) rc (logfile_of b u)
                             (wall_clock X (w_clock_reads w2)
                              - wall_clock X (w_clock_reads w))
    /\ w_fs w3 = w_fs w2.
Proof.
  intros Hl Hb. rewrite (uninstalled_unit_run X b u w Hl), Hb.
  apply _build_product_inv in Hb as (-> & Hprod & Ht0 & _). simpl in Hprod, Ht0.
  assert (exists wt,
            tag_if_missing b u o w2 = (Ok tt, wt)
            /\ w_eups wt = match o with
                           | Some ep => tagged_eups b u ep (w_eups w2)
                           | None => w_eups w2
                           end
            /\ w_trace wt = w_trace w2
                            ++ match o with Some ep => tag_events b u ep | None => [] end
            /\ w_fs wt = w_fs w2 /\ w_stdout wt = w_stdout w2
            /\ w_clock_reads wt = w_clock_reads w2) as (wt & Et & He & Htr & Hf & Ho & Hc).
  { destruct o as [ep|].
    - destruct (tag_if_missing_run b u ep w2) as (wt & ? & ? & ? & ? & ? & ? & ?).
      by exists wt.
    - exists w2. by rewrite app_nil_r. }
  rewrite (bind_ok _ _ _ _ _ Et).
  destruct (report_result_run X p' u rc (logfile_of b u) wt Hprod)
    as (wr & Er & Hro & Hrt & _ & Hrf & Hre & _).
  rewrite (bind_ok _ _ _ _ _ Er).
  unfold _finalize, bind, emit, modify, ret. simpl.
  eexists. split; [reflexivity|]. simpl.
  rewrite Hre, He, Hrt, Htr, Hrf, Hf. split; [done|].
  split; [by rewrite <- !app_assoc|]. split; [|done].
  rewrite Hro, Ho, Hc, Ht0. done.
Qed.

(** X3.  A unit whose script ends with a nonzero exit code: the call
    returns [False]; after the poll loop nothing happens but the report of
    the result and the end of the display, so the product is not looked
    up, no log is copied and the unit is not tagged, and files and package
    database stay as the loop left them; the terminal gets the rest of the
    progress bar and the error block with the exit code, the log path and
    the tail of the log. *)
Theorem failed_unit_is_reported_not_tagged X b u w script w1 process p' w2 rc :
  e_products (w_eups w) !! (name u, version u) = None ->
  write_buildscript X b u (lookup_world X u w) = (Ok script, w1) ->
  run_buildscript X script (buildscript b u) (logfile_of b u)
                  (started_reporter u (wall_clock X (w_clock_reads w))) w1
    = (Ok (process, p'), w2) ->
  cr_poll process = Some rc ->
  rc <> 0 ->
  exists w3,
    _build_product_if_needed X b u w = (Ok false, w3)
    /\ w_trace w3 = w_trace w2 ++ [EvReportResult; EvFinalize]
    /\ w_eups w3 = w_eups w2
    /\ w_fs w3 = w_fs w2
    /\ new_output w2 w3
       = bar_rest p'
         ++ [TWrite (("ERROR (" +:+ format_1f X
                         (wall_clock X (w_clock_reads w2)
                          - wall_clock X (w_clock_reads w)) +:+ " sec).") +:+ NL);
             TWrite (("*** error building product " +:+ name u +:+ ".") +:+ NL);
             TWrite (("*** exit code = " +:+ pretty rc) +:+ NL);
             TWrite (("*** log is in " +:+ logfile_of b u) +:+ NL);
             TWrite ("*** last few lines:" +:+ NL);
             TSystemTail (logfile_of b u); TFlush].
Proof.
  intros Hl Hw Hr Hpoll Hrc.
  assert (retcode_truthy (Some rc) = true) as Ht.
  { simpl. by apply Z.eqb_neq in Hrc as ->. }
  assert (_build_product X b u (started_reporter u (wall_clock X (w_clock_reads w)))
            (lookup_world X u w)
          = (Ok ((None, Some rc, Some (logfile_of b u)), p'), w2)) as Hb.
  { unfold _build_product.
    rewrite (bind_ok _ _ _ _ _ Hw), (bind_ok _ _ _ _ _ Hr). cbn [fst snd].
    rewrite Hpoll. unfold collect_result, retcode_falsy. rewrite Ht. reflexivity. }
  destruct (built_unit_run X b u w None (Some rc) _ p' w2 Hl Hb)
    as (w3 & E & He & Htr & Hout & Hf).
  exists w3. unfold result_block in Hout. rewrite Ht in Hout.
  assert (retcode_is_zero (Some rc) = false) as Hz.
  { simpl. by apply Z.eqb_neq. }
  rewrite Hz in E. unfold new_output. rewrite Hout, drop_app_length. done.
Qed.

Lemma failed_unit_is_reported_not_tagged_witness :
  exists w3,
    _build_product_if_needed Scenario.ext Scenario.builder0 Scenario.base Scenario.world0
      = (Ok false, w3)
    /\ w_trace w3 = w_trace Scenario2.base_ran ++ [EvReportResult; EvFinalize]
    /\ w_eups w3 = w_eups Scenario2.base_ran
    /\ w_fs w3 = w_fs Scenario2.base_ran
    /\ new_output Scenario2.base_ran w3
       = bar_rest Scenario2.base_reporter
         ++ [TWrite (("ERROR (" +:+ format_1f Scenario.ext
                         (wall_clock Scenario.ext (w_clock_reads Scenario2.base_ran)
                          - wall_clock Scenario.ext (w_clock_reads Scenario.world0))
                      +:+ " sec).") +:+ NL);
             TWrite (("*** error building product " +:+ name Scenario.base +:+ ".") +:+ NL);
             TWrite (("*** exit code = " +:+ pretty 1) +:+ NL);
             TWrite (("*** log is in " +:+ logfile_of Scenario.builder0 Scenario.base) +:+ NL);
             TWrite ("*** last few lines:" +:+ NL);
             TSystemTail (logfile_of Scenario.builder0 Scenario.base); TFlush].
Proof.
  apply (failed_unit_is_reported_not_tagged Scenario.ext Scenario.builder0
           Scenario.base Scenario.world0 (Scenario.script_of Scenario.base)
           Scenario2.base_script
           (child Scenario.ext (Scenario.script_of Scenario.base) Scenario.eups0)
           Scenario2.base_reporter Scenario2.base_ran 1).
  - vm_compute. reflexivity.
  - vm_compute. reflexivity.
  - vm_compute. reflexivity.
  - reflexivity.
  - lia.
Defined.

(** X4.  When [poll()] gives [None] after the output ended (the child has
    not been reaped yet), the product is looked up, the log copied into
    the product's directory and the unit tagged as after a success, and
    the terminal shows "ok"; but the call returns [False], since
    [None == 0] does not hold. *)
Theorem unreaped_child_is_ok_but_fails X b u w script w1 process p' w2 ep :
  e_products (w_eups w) !! (name u, version u) = None ->
  write_buildscript X b u (lookup_world X u w) = (Ok script, w1) ->
  run_buildscript X script (buildscript b u) (logfile_of b u)
                  (started_reporter u (wall_clock X (w_clock_reads w))) w1
    = (Ok (process, p'), w2) ->
  cr_poll process = None ->
  e_products (w_eups w2) !! (name u, version u) = Some ep ->
  exists w3 log,
    _build_product_if_needed X b u w = (Ok false, w3)
    /\ w_trace w3 = w_trace w2
                    ++ [EvGetProduct (name u) (version u);
                        EvCopy (logfile_of b u) (ep_dir ep)]
                    ++ tag_events b u ep ++ [EvReportResult; EvFinalize]
    /\ w_fs w2 !! logfile_of b u = Some log
    /\ w_fs w3 = <[path_join (ep_dir ep) "_build.log" := log]> (w_fs w2)
    /\ w_eups w3 = tagged_eups b u ep (w_eups w2)
    /\ new_output w2 w3
       = bar_rest p'
         ++ [TWrite (("ok (" +:+ format_1f X
                         (wall_clock X (w_clock_reads w2)
                          - wall_clock X (w_clock_reads w)) +:+ " sec).") +:+ NL);
             TFlush].
Proof.
  intros Hl Hw Hr Hpoll Hep.
  destruct (run_buildscript_log _ _ _ _ _ _ _ _ _ Hr) as (l & Hlog).
  set (wc := set_fs (<[path_join (ep_dir ep) "_build.log" := FLog l]> (w_fs w2))
               (set_trace (w_trace w2 ++ [EvGetProduct (name u) (version u);
                                          EvCopy (logfile_of b u) (ep_dir ep)]) w2)).
  assert (_build_product X b u (started_reporter u (wall_clock X (w_clock_reads w)))
            (lookup_world X u w)
          = (Ok ((Some ep, None, Some (logfile_of b u)), p'), wc)) as Hb.
  { unfold _build_product.
    rewrite (bind_ok _ _ _ _ _ Hw), (bind_ok _ _ _ _ _ Hr). cbn [fst snd].
    rewrite Hpoll. unfold collect_result, retcode_falsy, retcode_truthy. cbn [negb].
    unfold getProduct, copy2, write_file, bind, emit, modify, get, ret. simpl.
    rewrite Hep. simpl. rewrite Hlog. unfold wc. simpl.
    by rewrite <- app_assoc. }
  destruct (built_unit_run X b u w (Some ep) None _ p' wc Hl Hb)
    as (w3 & E & He & Htr & Hout & Hf).
  exists w3, (FLog l). unfold wc in *. simpl in *.
  split; [done|]. split; [by rewrite Htr, <- !app_assoc|].
  split; [done|]. split; [done|]. split; [done|].
  unfold new_output. rewrite Hout, drop_app_length. done.
Qed.

Lemma unreaped_child_is_ok_but_fails_witness :
  exists w3 log,
    _build_product_if_needed Scenario2.ext_unreaped Scenario.builder0 Scenario.afw
                             Scenario.world0 = (Ok false, w3)
    /\ w_trace w3 = w_trace Scenario2.afw_unreaped_ran
                    ++ [EvGetProduct (name Scenario.afw) (version Scenario.afw);
                        EvCopy (logfile_of Scenario.builder0 Scenario.afw)
                               (ep_dir (Scenario.installed "afw" "v1" []))]
                    ++ tag_events Scenario.builder0 Scenario.afw
                         (Scenario.installed "afw" "v1" [])
                    ++ [EvReportResult; EvFinalize]
    /\ w_fs Scenario2.afw_unreaped_ran !! logfile_of Scenario.builder0 Scenario.afw = Some log
    /\ w_fs w3 = <[path_join (ep_dir (Scenario.installed "afw" "v1" [])) "_build.log"
                   := log]> (w_fs Scenario2.afw_unreaped_ran)
    /\ w_eups w3 = tagged_eups Scenario.builder0 Scenario.afw
                     (Scenario.installed "afw" "v1" []) (w_eups Scenario2.afw_unreaped_ran)
    /\ new_output Scenario2.afw_unreaped_ran w3
       = bar_rest Scenario2.afw_reporter
         ++ [TWrite (("ok (" +:+ format_1f Scenario2.ext_unreaped
                         (wall_clock Scenario2.ext_unreaped
                            (w_clock_reads Scenario2.afw_unreaped_ran)
                          - wall_clock Scenario2.ext_unreaped
                              (w_clock_reads Scenario.world0)) +:+ " sec).") +:+ NL);
             TFlush].
Proof.
  apply (unreaped_child_is_ok_but_fails Scenario2.ext_unreaped Scenario.builder0
           Scenario.afw Scenario.world0 (Scenario.script_of Scenario.afw)
           Scenario2.afw_unreaped_script
           (child Scenario2.ext_unreaped (Scenario.script_of Scenario.afw) Scenario.eups0)
           Scenario2.afw_reporter Scenario2.afw_unreaped_ran
           (Scenario.installed "afw" "v1" [])).
  - vm_compute. reflexivity.
  - vm_compute. reflexivity.
  - vm_compute. reflexivity.
  - reflexivity.
  - vm_compute. reflexivity.
Defined.

(** X5.  When the script ends without a nonzero code and the product is
    still not declared, the lookup after the build raises
    [ProductNotFound]; the [except] clause of [_build_product_if_needed]
    does not cover it, so the exception leaves the call right after the
    lookup: no result is reported and the display is not finalized. *)
Theorem undeclared_product_after_build_raises X b u w script w1 process p' w2 :
  e_products (w_eups w) !! (name u, version u) = None ->
  write_buildscript X b u (lookup_world X u w) = (Ok script, w1) ->
  run_buildscript X script (buildscript b u) (logfile_of b u)
                  (started_reporter u (wall_clock X (w_clock_reads w))) w1
    = (Ok (process, p'), w2) ->
  retcode_truthy (cr_poll process) = false ->
  e_products (w_eups w2) !! (name u, version u) = None ->
  _build_product_if_needed X b u w
  = (Raise (ProductNotFound (name u) (version u)),
     set_trace (w_trace w2 ++ [EvGetProduct (name u) (version u)]) w2).
Proof.
  intros Hl Hw Hr Hrc Hmiss.
  rewrite (uninstalled_unit_run X b u w Hl).
  unfold _build_product.
  rewrite (bind_ok _ _ _ _ _ Hw), (bind_ok _ _ _ _ _ Hr). cbn [fst snd].
  unfold collect_result, retcode_falsy. rewrite Hrc. cbn [negb].
  rewrite (bind_raise _ _ _ _ _
             (bind_raise _ _ _ _ _ (getProduct_missing _ _ _ Hmiss))).
  done.
Qed.

Lemma undeclared_product_after_build_raises_witness :
  _build_product_if_needed Scenario2.ext_noinstall Scenario.builder0 Scenario.afw
                           Scenario.world0
  = (Raise (ProductNotFound (name Scenario.afw) (version Scenario.afw)),
     set_trace (w_trace Scenario2.afw_noinstall_ran
                ++ [EvGetProduct (name Scenario.afw) (version Scenario.afw)])
               Scenario2.afw_noinstall_ran).
Proof.
  apply (undeclared_product_after_build_raises Scenario2.ext_noinstall
           Scenario.builder0 Scenario.afw Scenario.world0
           (Scenario.script_of Scenario.afw) Scenario2.afw_noinstall_script
           (child Scenario2.ext_noinstall (Scenario.script_of Scenario.afw) Scenario.eups0)
           Scenario2.afw_reporter Scenario2.afw_noinstall_ran).
  - vm_compute. reflexivity.
  - vm_compute. reflexivity.
  - vm_compute. reflexivity.
  - reflexivity.
  - vm_compute. reflexivity.
Defined.

Lemma tagged_eups_lookup b u ep e :
  e_products e !! (name u, version u) = Some ep ->
  exists ep',
    e_products (tagged_eups b u ep e) !! (name u, version u) = Some ep'
    /\ forall tag, build_id (manifest b) = Some tag -> truthy tag = true ->
                   tag ∈ ep_tags ep'.
Proof.
  intros Hl. unfold tagged_eups, build_id_not_in.
  destruct (build_id (manifest b)) as [tg|].
  - destruct (decide (tg ∈ ep_tags ep)) as [Hin|Hout].
    + rewrite (bool_decide_eq_true_2 _ Hin). simpl. exists ep. split; [done|].
      by intros tag [= <-] _.
    + rewrite (bool_decide_eq_false_2 _ Hout). simpl.
      destruct (truthy tg) eqn:Ht.
      * exists (add_tag tg ep). simpl. rewrite lookup_alter_eq, Hl. split; [done|].
        intros tag [= <-] _. simpl. apply elem_of_app. right. by left.
      * exists ep. split; [done|]. intros tag [= <-] Ht'. congruence.
  - exists ep. split; [done|]. intros tag H. discriminate.
Qed.

(** X6.  When [_build_product_if_needed] returns [True], the unit is in
    the package database, and it carries the build tag when one is
    configured: whether it was found installed or has just been built. *)
Theorem successful_unit_is_installed_and_tagged X b u w w' :
  _build_product_if_needed X b u w = (Ok true, w') ->
  exists ep,
    e_products (w_eups w') !! (name u, version u) = Some ep
    /\ forall tag, build_id (manifest b) = Some tag -> truthy tag = true ->
                   tag ∈ ep_tags ep.
Proof.
  intros H.
  destruct (e_products (w_eups w) !! (name u, version u)) as [ep|] eqn:Hl.
  - destruct (installed_unit_run X b u ep w Hl) as (w1 & E & _ & _ & _ & He & _).
    rewrite E in H. injection H as <-. rewrite He.
    by apply tagged_eups_lookup.
  - destruct (_build_product X b u (started_reporter u (wall_clock X (w_clock_reads w)))
                (lookup_world X u w)) as [[[[[o rc] lf] p']|e] w2] eqn:Eb.
    + destruct (built_unit_run X b u w o rc lf p' w2 Hl Eb) as (w3 & E & He & _).
      rewrite E in H. injection H as Hz <-.
      destruct rc as [rc|]; [|discriminate]. simpl in Hz.
      apply Z.eqb_eq in Hz as ->.
      destruct (_build_product_inv _ _ _ _ _ _ _ _ _ _ Eb) as (_ & _ & _ & _ & Ho).
      destruct (Ho eq_refl) as (ep & -> & Hep).
      rewrite He. by apply tagged_eups_lookup.
    + rewrite (uninstalled_unit_run X b u w Hl), Eb in H. discriminate.
Qed.

Lemma successful_unit_is_installed_and_tagged_witness :
  exists ep,
    e_products (w_eups Scenario.world_afw) !! (name Scenario.afw, version Scenario.afw)
      = Some ep
    /\ forall tag, build_id (manifest Scenario.builder0) = Some tag ->
                   truthy tag = true -> tag ∈ ep_tags ep.
Proof.
  apply (successful_unit_is_installed_and_tagged Scenario.ext Scenario.builder0
           Scenario.afw Scenario.world_tagged Scenario.world_afw).
  vm_compute. reflexivity.
Defined.

(** ** The progress display *)

Lemma take_cont_app s : forall a b, take_cont s = (a, b) -> s = a +:+ b.
Proof.
  induction s as [|c s IH]; intros a b; simpl.
  - by intros [= <- <-].
  - destruct (is_cont c).
    + destruct (take_cont s) as [a' b'] eqn:E. intros [= <- <-].
      change (String c s = String c (a' +:+ b')). f_equal. by apply IH.
    + by intros [= <- <-].
Qed.

Lemma py_uncons_some s c r : py_uncons s = Some (c, r) -> s = c +:+ r.
Proof.
  destruct s as [|x s]; [done|]. simpl.
  destruct (take_cont s) as [a b] eqn:E. intros [= <- <-].
  change (String x s = String x (a +:+ b)). f_equal. by apply take_cont_app.
Qed.

Lemma py_uncons_none s : py_uncons s = None -> s = "".
Proof. destruct s as [|x s]; [done|]. simpl. by destruct (take_cont s). Qed.

Lemma string_app_eq_nil (a b : string) : a +:+ b = "" -> a = "" /\ b = "".
Proof. destruct a; [by intros <- | discriminate]. Qed.

Lemma writes_app o1 o2 : writes (o1 ++ o2) = writes o1 ++ writes o2.
Proof. apply omap_app. Qed.

Lemma concat_empty_app l1 l2 :
  String.concat "" (l1 ++ l2) = String.concat "" l1 +:+ String.concat "" l2.
Proof.
  induction l1 as [|x l1 IH]; [done|].
  change ((x :: l1) ++ l2) with (x :: (l1 ++ l2)).
  by rewrite !concat_empty_cons, IH, string_app_assoc.
Qed.

Lemma written_text_app o1 o2 :
  written_text (o1 ++ o2) = written_text o1 +:+ written_text o2.
Proof. unfold written_text. by rewrite writes_app, concat_empty_app. Qed.

Lemma dots_app j k : dots (j + k) = dots j +:+ dots k.
Proof.
  induction j as [|j IH]; [done|].
  change (String "."%char (dots (j + k)) = String "."%char (dots j +:+ dots k)).
  by rewrite IH.
Qed.

(** The loop of [report_progress]: one write and two seconds of virtual
    time per iteration, each iteration entered with the virtual clock not
    ahead of [t1]; the writes are the next characters of the progress bar
    and, once it is used up, dots. *)
Lemma progress_loop_run fuel t1 : forall p w,
  exists p' w' out k,
    progress_loop fuel t1 p w = (Ok p', w')
    /\ w_stdout w' = w_stdout w ++ out
    /\ t p' = t p + Z.of_nat (length (writes out)) * two_seconds
    /\ (out <> [] -> t p' - two_seconds <= t1)
    /\ (t1 < t p -> out = [] /\ p' = p)
    /\ written_text out +:+ progress_bar p' = progress_bar p +:+ dots k
    /\ (k <> 0%nat -> progress_bar p' = "").
Proof.
  induction fuel as [|fuel IH]; intros p w; simpl.
  - exists p, w, [], 0%nat. rewrite app_nil_r, string_app_nil_r.
    repeat split; try done. simpl. lia.
  - destruct (Z.leb (t p) t1) eqn:Hle.
    + apply Z.leb_le in Hle.
      unfold bind, out_write, out_flush, modify, ret.
      destruct (py_uncons (progress_bar p)) as [[c rest]|] eqn:Eu; simpl.
      * edestruct IH as (p' & w' & out & k & E & Ho & Ht & Hlast & _ & Hbar & Hk).
        rewrite E. simpl in *.
        exists p', w', ([TWrite c; TFlush] ++ out), k.
        split; [done|]. split; [rewrite Ho; by rewrite <- !app_assoc|].
        split. { rewrite writes_app, length_app. simpl. rewrite Ht. lia. }
        split. { intros _. destruct out as [|o out'].
                 - simpl in Ht. rewrite Ht. lia.
                 - by apply Hlast. }
        split; [lia|]. split; [|done].
        rewrite written_text_app, string_app_assoc, Hbar.
        apply py_uncons_some in Eu. rewrite Eu.
        unfold written_text. simpl. by rewrite <- !string_app_assoc.
      * edestruct IH as (p' & w' & out & k & E & Ho & Ht & Hlast & _ & Hbar & Hk).
        rewrite E. simpl in *.
        apply py_uncons_none in Eu. rewrite Eu in *.
        exists p', w', ([TWrite "."; TFlush] ++ out), (S k).
        split; [done|]. split; [rewrite Ho; by rewrite <- !app_assoc|].
        split. { rewrite writes_app, length_app. simpl. rewrite Ht. lia. }
        split. { intros _. destruct out as [|o out'].
                 - simpl in Ht. rewrite Ht. lia.
                 - by apply Hlast. }
        split; [lia|].
        assert (progress_bar p' = "") as Hempty.
        { destruct k as [|k]; [|by apply Hk].
          by apply string_app_eq_nil in Hbar as [_ ->]. }
        split; [|done].
        rewrite written_text_app, string_app_assoc, Hbar. done.
    + apply Z.leb_gt in Hle.
      exists p, w, [], 0%nat. rewrite app_nil_r, string_app_nil_r.
      repeat split; try done. simpl. lia.
Qed.

(** X7.  [report_progress] is throttled: it makes one write to the
    terminal per two seconds by which its virtual clock lags the wall
    clock, leaves the virtual clock ahead of the reading it took, and
    writes nothing when the virtual clock is already ahead. *)
Theorem report_progress_is_throttled X p w :
  exists p' w',
    report_progress X p w = (Ok p', w')
    /\ wall_clock X (w_clock_reads w) < t p'
    /\ t p' = t p + Z.of_nat (length (writes (new_output w w'))) * two_seconds
    /\ (new_output w w' <> [] -> t p' - two_seconds <= wall_clock X (w_clock_reads w))
    /\ (wall_clock X (w_clock_reads w) < t p -> new_output w w' = [] /\ p' = p)
    /\ product p' = product p /\ t0 p' = t0 p.
Proof.
  destruct (report_progress_catches_up X p w) as (p' & w' & E & Hlt).
  exists p', w'. split; [done|]. split; [done|].
  pose proof (report_progress_keeps X p w p' w' E) as [Hp Ht0].
  unfold report_progress, bind, emit, modify, now in E. simpl in E.
  edestruct progress_loop_run as (p1 & w1 & out & k & E1 & Ho & Ht & Hlast & Hno & _).
  rewrite E1 in E. injection E as -> ->.
  unfold new_output. rewrite Ho. simpl. rewrite drop_app_length. done.
Qed.

(** X8.  What [report_progress] writes are the next characters of the
    progress bar, in order, and dots only when the bar is used up: the
    text written followed by the bar that is left is the bar as it was
    followed by the dots. *)
Theorem report_progress_spells_the_bar X p w :
  exists p' w' k,
    report_progress X p w = (Ok p', w')
    /\ written_text (new_output w w') +:+ progress_bar p'
       = progress_bar p +:+ dots k
    /\ (k <> 0%nat -> progress_bar p' = "").
Proof.
  unfold report_progress, bind, emit, modify, now. simpl.
  edestruct progress_loop_run as (p1 & w1 & out & k & E1 & Ho & _ & _ & _ & Hbar & Hk).
  rewrite E1. exists p1, w1, k. split; [done|].
  unfold new_output. rewrite Ho. simpl. by rewrite drop_app_length.
Qed.

Lemma string_app_nil_l (s : string) : "" +:+ s = s.
Proof. reflexivity. Qed.

Lemma bar_progress_refl p : bar_progress p p [].
Proof. exists 0%nat. by rewrite string_app_nil_r. Qed.

Lemma bar_progress_trans p p1 p2 o1 o2 :
  bar_progress p p1 o1 -> bar_progress p1 p2 o2 -> bar_progress p p2 (o1 ++ o2).
Proof.
  intros (k1 & H1 & E1) (k2 & H2 & E2).
  exists (k1 + k2)%nat. split.
  - rewrite written_text_app, string_app_assoc, H2, dots_app.
    destruct k1 as [|k1].
    + rewrite <- string_app_assoc, H1, string_app_nil_r. done.
    + rewrite (E1 ltac:(done)) in H1 |- *. rewrite string_app_nil_r in H1.
      by rewrite H1, string_app_nil_l, string_app_assoc.
  - intros Hk. destruct k2 as [|k2]; [|by apply E2].
    assert (k1 <> 0%nat) as Hk1 by lia.
    rewrite (E1 Hk1) in H2. by apply string_app_eq_nil in H2 as [_ ->].
Qed.

Lemma report_progress_bar X p w p' w' :
  report_progress X p w = (Ok p', w') ->
  exists out, w_stdout w' = w_stdout w ++ out /\ bar_progress p p' out.
Proof.
  unfold report_progress, bind, emit, modify, now. simpl.
  edestruct progress_loop_run as (p1 & w1 & out & k & E1 & Ho & _ & _ & _ & Hbar & Hk).
  rewrite E1. intros [= <- <-]. exists out. split; [done|]. by exists k.
Qed.

Lemma tee_byte_stdout X lf c buf w r w' :
  tee_byte X lf c buf w = (r, w') -> w_stdout w' = w_stdout w.
Proof.
  unfold tee_byte.
  destruct (is_line_end c && truthy (buf +:+ bytes_of_read c)).
  - unfold bind, now. simpl. destruct (decode _).
    + unfold log_write, bind, emit, modify, ret. simpl. by intros [= _ <-].
    + by intros [= _ <-].
  - by intros [= _ <-].
Qed.

(** The poll loop writes to the terminal through [report_progress] only. *)
Lemma drain_bar X lf evs : forall buf p w p' w',
  drain X lf evs buf p w = (Ok p', w') ->
  exists out, w_stdout w' = w_stdout w ++ out /\ bar_progress p p' out.
Proof.
  induction evs as [|[|c] evs IH]; intros buf p w p' w' H; cbn [drain] in H.
  - do 2 rewrite (bind_ok _ _ _ _ _ (emit_run _ _)) in H.
    apply bind_inv_ok in H as (? & w1 & Ht & H). injection H as <- <-.
    apply tee_byte_stdout in Ht. exists []. rewrite app_nil_r.
    split; [done | apply bar_progress_refl].
  - rewrite (bind_ok _ _ _ _ _ (emit_run _ _)) in H.
    apply bind_inv_ok in H as (p1 & w1 & Hp & H).
    apply report_progress_bar in Hp as (o1 & Ho1 & Hb1).
    apply IH in H as (o2 & Ho2 & Hb2).
    exists (o1 ++ o2). split; [|by eapply bar_progress_trans].
    rewrite Ho2, Ho1. simpl. by rewrite app_assoc.
  - do 2 rewrite (bind_ok _ _ _ _ _ (emit_run _ _)) in H.
    apply bind_inv_ok in H as (? & wt & Ht & H).
    apply tee_byte_stdout in Ht.
    apply bind_inv_ok in H as (p1 & w1 & Hp & H).
    apply report_progress_bar in Hp as (o1 & Ho1 & Hb1).
    apply IH in H as (o2 & Ho2 & Hb2).
    exists (o1 ++ o2). split; [|by eapply bar_progress_trans].
    rewrite Ho2, Ho1, Ht. simpl. by rewrite app_assoc.
Qed.

Lemma _build_product_bar X b u p w r p' w' :
  _build_product X b u p w = (Ok (r, p'), w') ->
  exists out, w_stdout w' = w_stdout w ++ out /\ bar_progress p p' out.
Proof.
  unfold _build_product. intros H.
  apply bind_inv_ok in H as (script & w1 & Hw & H).
  apply bind_inv_ok in H as ([process p1] & w2 & Hr & H).
  apply bind_inv_ok in H as (res & w3 & Hc & H).
  injection H as _ Hp Hw3. simpl in Hp. subst p1 w3.
  assert (w_stdout w1 = w_stdout w) as H1.
  { unfold write_buildscript, environ_get, bind, emit, modify, write_file, ret in Hw.
    simpl in Hw. destruct (w_environ w !! "EUPS_PATH"); [|discriminate].
    by injection Hw as _ <-. }
  assert (w_stdout w' = w_stdout w2) as H3.
  { unfold collect_result in Hc. destruct (retcode_falsy _).
    - apply bind_inv_ok in Hc as (ep & w4 & Hg & Hc).
      apply bind_inv_ok in Hc as ([] & w5 & Hcp & Hc). injection Hc as _ <-.
      unfold getProduct, bind, emit, modify, get in Hg. simpl in Hg.
      destruct (e_products (w_eups w2) !! (name u, version u)); [|discriminate].
      injection Hg as _ <-.
      unfold copy2, bind, emit, modify, get, write_file in Hcp. simpl in Hcp.
      destruct (w_fs w2 !! logfile_of b u); [|discriminate].
      by injection Hcp as <-.
    - by injection Hc as _ <-. }
  unfold run_buildscript in Hr.
  apply bind_inv_ok in Hr as ([] & wa & Ha & Hr). injection Ha as <-.
  rewrite (bind_ok _ _ _ _ _ (emit_run _ _)) in Hr.
  apply bind_inv_ok in Hr as (wg & wb & Hg & Hr). injection Hg as <- <-.
  apply bind_inv_ok in Hr as (p2 & wd & Hd & Hr).
  injection Hr as _ <- <-.
  apply drain_bar in Hd as (out & Ho & Hb). simpl in Ho.
  exists out. split; [|done]. rewrite H3. simpl. by rewrite Ho, H1.
Qed.

(** X9.  The terminal line of a unit: whenever [_build_product_if_needed]
    returns, what it wrote is the name, right-justified to 20, a colon,
    the whole version string and a space, then dots, then the result:
    "(already installed)." or the ok or error text of the build. *)
Theorem unit_line_on_terminal X b u w ok w' :
  _build_product_if_needed X b u w = (Ok ok, w') ->
  exists k tail,
    written_text (new_output w w')
    = (rjust 20 (name u) +:+ ": ") +:+ (version u +:+ " ") +:+ dots k +:+ tail
    /\ (tail = "(already installed)." +:+ NL /\ ok = true /\ k = 0%nat
        \/ exists rc elapsed,
             tail = written_text (result_block X (name u) rc (logfile_of b u) elapsed)
             /\ ok = retcode_is_zero rc).
Proof.
  intros H.
  destruct (e_products (w_eups w) !! (name u, version u)) as [ep|] eqn:Hl.
  - destruct (installed_unit_run X b u ep w Hl) as (w1 & E & Ho & _).
    rewrite E in H. injection H as <- <-.
    exists 0%nat, ("(already installed)." +:+ NL). split; [|by left].
    unfold new_output. rewrite Ho, drop_app_length.
    unfold written_text. simpl. reflexivity.
  - destruct (_build_product X b u (started_reporter u (wall_clock X (w_clock_reads w)))
                (lookup_world X u w)) as [[[[[o rc] lf] p']|e] w2] eqn:Eb.
    + destruct (built_unit_run X b u w o rc lf p' w2 Hl Eb) as (w3 & E & _ & _ & Hout & _).
      rewrite E in H. injection H as <- <-.
      apply _build_product_bar in Eb as (out & Ho & (k & Hbar & _)).
      assert (w_stdout (lookup_world X u w)
              = w_stdout w ++ [TWrite (rjust 20 (name u) +:+ ": "); TFlush]) as Hs.
      { unfold lookup_world. rewrite started_run. simpl.
        unfold getProduct, bind, emit, modify, get. simpl.
        by destruct (e_products (w_eups w) !! (name u, version u)). }
      exists k, (written_text (result_block X (name u) rc (logfile_of b u)
                   (wall_clock X (w_clock_reads w2) - wall_clock X (w_clock_reads w)))).
      split; [|right; by eexists _, _].
      unfold new_output. rewrite Hout, Ho, Hs, <- !app_assoc, drop_app_length.
      rewrite !written_text_app.
      assert (written_text (bar_rest p') = progress_bar p') as ->.
      { unfold bar_rest. by destruct (progress_bar p'). }
      rewrite <- (string_app_assoc (written_text out)), Hbar. simpl.
      unfold written_text at 1. simpl.
      by rewrite !string_app_assoc.
    + rewrite (uninstalled_unit_run X b u w Hl), Eb in H. discriminate.
Qed.

Lemma unit_line_on_terminal_witness :
  exists k tail,
    written_text (new_output Scenario.world_tagged Scenario.world_afw)
    = (rjust 20 (name Scenario.afw) +:+ ": ") +:+ (version Scenario.afw +:+ " ")
      +:+ dots k +:+ tail
    /\ (tail = "(already installed)." +:+ NL /\ true = true /\ k = 0%nat
        \/ exists rc elapsed,
             tail = written_text (result_block Scenario.ext (name Scenario.afw) rc
                                    (logfile_of Scenario.builder0 Scenario.afw) elapsed)
             /\ true = retcode_is_zero rc).
Proof.
  apply (unit_line_on_terminal Scenario.ext Scenario.builder0 Scenario.afw
           Scenario.world_tagged true Scenario.world_afw).
  vm_compute. reflexivity.
Defined.

(** X10.  [report_result] marks the reporter as done: [_finalize] then
    writes nothing, while on a reporter whose result was not reported it
    writes the newline that ends the line; and a reporter that is done
    cannot report a failure again ([self.product] is [None]). *)
Theorem result_then_finalize X p u rc lf w :
  product p = Some u ->
  exists p1 w1,
    report_result X p rc lf w = (Ok p1, w1)
    /\ product p1 = None
    /\ _finalize p1 w1 = (Ok tt, set_trace (w_trace w1 ++ [EvFinalize]) w1)
    /\ new_output w (snd (_finalize p w)) = [TWrite NL; TFlush]
    /\ forall rc' lf', rc' <> 0 ->
         fst (report_result X p1 (Some rc') (Some lf') w1) = Raise AttributeError.
Proof.
  intros Hp.
  assert (exists w1, report_result X p rc lf w = (Ok (set_product None p), w1))
    as (w1 & E).
  { destruct lf as [lf|].
    - destruct (report_result_run X p u rc lf w Hp) as (w1 & E & _). by exists w1.
    - unfold report_result, bind, emit, out_write, out_flush, modify, ret.
      destruct (truthy (progress_bar p)); simpl; eexists; reflexivity. }
  exists (set_product None p), w1. split; [done|]. split; [done|].
  split; [done|]. split.
  - unfold _finalize, new_output, bind, emit, out_write, out_flush, modify.
    rewrite Hp. simpl. by rewrite <- app_assoc, drop_app_length.
  - intros rc' lf' Hrc.
    unfold report_result, product_name, bind, emit, out_write, out_flush, print,
      out_write, modify, now, ret.
    apply Z.eqb_neq in Hrc.
    destruct (truthy (progress_bar (set_product None p))); simpl; by rewrite Hrc.
Qed.

Lemma result_then_finalize_witness :
  exists p1 w1,
    report_result Scenario.ext Scenario.reporter0 (Some 0)
                  (Some Scenario.afw_log) Scenario.world0 = (Ok p1, w1)
    /\ product p1 = None
    /\ _finalize p1 w1 = (Ok tt, set_trace (w_trace w1 ++ [EvFinalize]) w1)
    /\ new_output Scenario.world0 (snd (_finalize Scenario.reporter0 Scenario.world0))
       = [TWrite NL; TFlush]
    /\ forall rc' lf', rc' <> 0 ->
         fst (report_result Scenario.ext p1 (Some rc') (Some lf') w1)
         = Raise AttributeError.
Proof.
  apply (result_then_finalize Scenario.ext Scenario.reporter0 Scenario.afw
           (Some 0) (Some Scenario.afw_log) Scenario.world0).
  reflexivity.
Defined.

(** ** Edge cases of the build step *)

(** X11.  With an empty EUPS path, declaring a tag that is not registered
    raises [IndexError] at [eups_obj.path[0]], after [registerTag] has
    run: the tag is in the name space but was not saved; [build] then
    raises before the first unit. *)
Theorem declare_eups_tag_without_path X b tag w :
  build_id (manifest b) = Some tag ->
  truthy tag = true ->
  tag ∉ e_tag_names (w_eups w) ->
  e_path (w_eups w) = [] ->
  exists w',
    declare_eups_tag tag w = (Raise IndexError, w')
    /\ e_tag_names (w_eups w') = e_tag_names (w_eups w) ++ [tag]
    /\ e_saved_tags (w_eups w') = e_saved_tags (w_eups w)
    /\ new_events w w' = [EvRegisterTag tag]
    /\ build X b w = (Raise IndexError, w').
Proof.
  intros Hid Ht Hout Hp.
  unfold build, declare_build_tag. rewrite Hid, Ht.
  unfold declare_eups_tag, registerTag, eups_path0, bind, emit, modify, get.
  simpl. rewrite (bool_decide_eq_false_2 _ Hout). simpl. rewrite Hp. simpl.
  eexists. split; [reflexivity|]. simpl.
  repeat split; try done.
  unfold new_events. simpl. by rewrite drop_app_length.
Qed.

Lemma declare_eups_tag_without_path_witness :
  exists w',
    declare_eups_tag "b42" Scenario2.world_nopath = (Raise IndexError, w')
    /\ e_tag_names (w_eups w') = e_tag_names (w_eups Scenario2.world_nopath) ++ ["b42"]
    /\ e_saved_tags (w_eups w') = e_saved_tags (w_eups Scenario2.world_nopath)
    /\ new_events Scenario2.world_nopath w' = [EvRegisterTag "b42"]
    /\ build Scenario.ext Scenario.builder0 Scenario2.world_nopath
       = (Raise IndexError, w').
Proof.
  apply (declare_eups_tag_without_path Scenario.ext Scenario.builder0 "b42"
           Scenario2.world_nopath).
  - reflexivity.
  - reflexivity.
  - change ("b42" ∉ ["current"]). intros H.
    apply elem_of_cons in H as [H|H]; [discriminate | by apply elem_of_nil in H].
  - reflexivity.
Defined.

(** X12.  For a unit that is not installed, with [EUPS_PATH] missing from
    the environment, [_build_product_if_needed] raises [KeyError] before
    anything is written to disk or started: the world is the one the
    failed lookup left. *)
Theorem build_without_eups_path X b u w :
  e_products (w_eups w) !! (name u, version u) = None ->
  w_environ w !! "EUPS_PATH" = None ->
  _build_product_if_needed X b u w
    = (Raise (KeyError "EUPS_PATH"), lookup_world X u w)
  /\ w_fs (lookup_world X u w) = w_fs w
  /\ w_eups (lookup_world X u w) = w_eups w
  /\ new_events w (lookup_world X u w)
     = [EvBuildStarted (name u); EvGetProduct (name u) (version u)].
Proof.
  intros Hl He.
  assert (lookup_world X u w
          = set_trace (w_trace (snd (started X u w))
                       ++ [EvGetProduct (name u) (version u)])
                      (snd (started X u w))) as Hw.
  { unfold lookup_world. rewrite getProduct_missing; [done|].
    rewrite started_run. simpl. done. }
  split.
  - rewrite (uninstalled_unit_run X b u w Hl).
    unfold _build_product, write_buildscript.
    assert (environ_get "EUPS_PATH" (lookup_world X u w)
            = (Raise (KeyError "EUPS_PATH"), lookup_world X u w)) as Hk.
    { unfold environ_get. rewrite Hw, started_run. simpl. by rewrite He. }
    by rewrite (bind_raise _ _ _ _ _ (bind_raise _ _ _ _ _ Hk)).
  - rewrite Hw, started_run. simpl. repeat split; try done.
    unfold new_events. simpl. by rewrite <- app_assoc, drop_app_length.
Qed.

Lemma build_without_eups_path_witness :
  _build_product_if_needed Scenario.ext Scenario.builder0 Scenario.afw
                           Scenario.world_noenv
    = (Raise (KeyError "EUPS_PATH"),
       lookup_world Scenario.ext Scenario.afw Scenario.world_noenv)
  /\ w_fs (lookup_world Scenario.ext Scenario.afw Scenario.world_noenv)
     = w_fs Scenario.world_noenv
  /\ w_eups (lookup_world Scenario.ext Scenario.afw Scenario.world_noenv)
     = w_eups Scenario.world_noenv
  /\ new_events Scenario.world_noenv
                (lookup_world Scenario.ext Scenario.afw Scenario.world_noenv)
     = [EvBuildStarted (name Scenario.afw);
        EvGetProduct (name Scenario.afw) (version Scenario.afw)].
Proof.
  apply (build_without_eups_path Scenario.ext Scenario.builder0 Scenario.afw
           Scenario.world_noenv).
  - vm_compute. reflexivity.
  - vm_compute. reflexivity.
Defined.

(** X13.  The log of a unit is written afresh by every build: whatever the
    log file held, after the script ran (its output being valid UTF-8) it
    holds exactly the lines of this output, one entry per line and in
    order, each stamped with the reading of the clock that was next when
    the end of the line was read; no other file is touched, and the
    package database is the one the child left. *)
Theorem log_is_rewritten X script sf lf p w :
  Forall (fun line => utf8_valid line = true)
         (split_lines "" (stream_bytes (cr_events (child X script (w_eups w))))) ->
  exists p' w' log,
    run_buildscript X script sf lf p w = (Ok (child X script (w_eups w), p'), w')
    /\ w_fs w' !! lf = Some (FLog log)
    /\ map lw_text log
       = split_lines "" (stream_bytes (cr_events (child X script (w_eups w))))
    /\ map lw_stamp log
       = map (wall_clock X)
             (line_end_readings (w_clock_reads w) ""
                                (cr_events (child X script (w_eups w))))
    /\ StronglySorted lt (line_end_readings (w_clock_reads w) ""
                            (cr_events (child X script (w_eups w))))
    /\ (forall q, q <> lf -> w_fs w' !! q = w_fs w !! q)
    /\ w_eups w' = cr_eups (child X script (w_eups w)).
Proof.
  intros Hval. unfold run_buildscript, write_file.
  unfold bind at 1. simpl. rewrite (bind_ok _ _ _ _ _ (emit_run _ _)).
  unfold bind at 1. simpl.
  set (w0 := set_trace _ _).
  destruct (drain_log_readings X lf (cr_events (child X script (w_eups w))) "" p w0 [])
    as (p' & w' & E & Hfs & Hlen & Hs & _ & _ & _ & _ & Hq).
  { subst w0. simpl. by rewrite lookup_insert_eq. } { done. }
  rewrite (bind_ok _ _ _ _ _ E). unfold bind, modify, ret. simpl.
  change (w_clock_reads w0) with (w_clock_reads w) in *.
  exists p', (set_eups (cr_eups (child X script (w_eups w))) w'),
    (stamped X (line_end_readings (w_clock_reads w) ""
                  (cr_events (child X script (w_eups w))))
       (split_lines "" (stream_bytes (cr_events (child X script (w_eups w)))))).
  simpl. rewrite stamped_texts, stamped_stamps by done.
  split; [done|]. split; [done|]. split; [done|]. split; [done|].
  split; [done|]. split; [|done].
  intros q Hne. rewrite Hq by done. subst w0. simpl. by rewrite lookup_insert_ne.
Qed.

Lemma log_is_rewritten_witness :
  exists p' w' log,
    run_buildscript Scenario.ext (Scenario.script_of Scenario.afw) "/b/afw/_build.sh"
                    Scenario.afw_log Scenario.reporter0 Scenario2.world_oldlog
    = (Ok (child Scenario.ext (Scenario.script_of Scenario.afw)
                 (w_eups Scenario2.world_oldlog), p'), w')
    /\ w_fs w' !! Scenario.afw_log = Some (FLog log)
    /\ map lw_text log
       = split_lines "" (stream_bytes
                           (cr_events (child Scenario.ext (Scenario.script_of Scenario.afw)
                                             (w_eups Scenario2.world_oldlog))))
    /\ map lw_stamp log
       = map (wall_clock Scenario.ext)
             (line_end_readings (w_clock_reads Scenario2.world_oldlog) ""
                (cr_events (child Scenario.ext (Scenario.script_of Scenario.afw)
                                  (w_eups Scenario2.world_oldlog))))
    /\ StronglySorted lt
         (line_end_readings (w_clock_reads Scenario2.world_oldlog) ""
            (cr_events (child Scenario.ext (Scenario.script_of Scenario.afw)
                              (w_eups Scenario2.world_oldlog))))
    /\ (forall q, q <> Scenario.afw_log ->
          w_fs w' !! q = w_fs Scenario2.world_oldlog !! q)
    /\ w_eups w' = cr_eups (child Scenario.ext (Scenario.script_of Scenario.afw)
                                  (w_eups Scenario2.world_oldlog)).
Proof.
  apply (log_is_rewritten Scenario.ext (Scenario.script_of Scenario.afw)
           "/b/afw/_build.sh" Scenario.afw_log Scenario.reporter0
           Scenario2.world_oldlog).
  vm_compute. repeat constructor.
Defined.

(** The three ways of one read of the log tee. *)
Lemma tee_byte_cases X lf c buf w :
  (is_line_end c && truthy (buf +:+ bytes_of_read c) = false
   /\ tee_byte X lf c buf w = (Ok (buf +:+ bytes_of_read c), w))
  \/ (is_line_end c = true
      /\ utf8_valid (buf +:+ bytes_of_read c) = true
      /\ exists w',
           tee_byte X lf c buf w = (Ok "", w')
           /\ w_fs w' = <[lf := FLog (match w_fs w !! lf with
                                      | Some (FLog l) =>
                                          l ++ [{| lw_stamp := wall_clock X (w_clock_reads w);
                                                   lw_text := buf +:+ bytes_of_read c |}]
                                      | _ => [{| lw_stamp := wall_clock X (w_clock_reads w);
                                                 lw_text := buf +:+ bytes_of_read c |}]
                                      end)]> (w_fs w))
  \/ (is_line_end c = true
      /\ truthy (buf +:+ bytes_of_read c) = true
      /\ utf8_valid (buf +:+ bytes_of_read c) = false
      /\ exists w', tee_byte X lf c buf w = (Raise UnicodeDecodeError, w')
                    /\ w_fs w' = w_fs w).
Proof.
  destruct (is_line_end c) eqn:Hend; [|left; split; [done|]; by apply tee_byte_pass; rewrite Hend].
  destruct (truthy (buf +:+ bytes_of_read c)) eqn:Hbuf;
    [|left; split; [done|]; apply tee_byte_pass; by rewrite Hend, Hbuf].
  destruct (utf8_valid (buf +:+ bytes_of_read c)) eqn:Hval.
  - right. left. split; [done|]. split; [done|].
    destruct (tee_byte_flush X lf c buf w Hend Hbuf Hval) as (w' & E & Hfs & _).
    by exists w'.
  - right. right. split; [done|]. split; [done|]. split; [done|].
    pose proof (tee_byte_undecodable X lf c buf w Hend Hbuf Hval) as [Hr Hf].
    destruct (tee_byte X lf c buf w) as [r w'] eqn:E. simpl in *. subst r.
    by exists w'.
Qed.

(** X14.  The poll loop raises only [UnicodeDecodeError], at the first
    line of the output that is not valid UTF-8: the lines before it are in
    the log, stamped, and nothing after it is written. *)
Theorem undecodable_line_stops_the_log X lf evs : forall buf p w l0 e w',
  w_fs w !! lf = Some (FLog l0) ->
  drain X lf evs buf p w = (Raise e, w') ->
  e = UnicodeDecodeError
  /\ exists k idxs bad,
       split_lines buf (stream_bytes evs) !! k = Some bad
       /\ utf8_valid bad = false
       /\ Forall (fun line => utf8_valid line = true)
                 (take k (split_lines buf (stream_bytes evs)))
       /\ length idxs = k
       /\ w_fs w' !! lf
          = Some (FLog (l0 ++ stamped X idxs (take k (split_lines buf (stream_bytes evs))))).
Proof.
  induction evs as [|[|c] evs IH]; intros buf p w l0 e w' Hlog H;
    cbn [drain stream_bytes split_lines] in *.
  - do 2 rewrite (bind_ok _ _ _ _ _ (emit_run _ _)) in H.
    set (w0 := set_trace _ (set_trace _ w)) in H.
    destruct (tee_byte_cases X lf None buf w0)
      as [(_ & E) | [(_ & _ & w1 & E & _) | (_ & Hb & Hv & w1 & E & Hf)]].
    + rewrite (bind_ok _ _ _ _ _ E) in H. discriminate.
    + rewrite (bind_ok _ _ _ _ _ E) in H. discriminate.
    + rewrite (bind_raise _ _ _ _ _ E) in H. injection H as <- <-.
      split; [done|]. simpl in Hb, Hv. rewrite string_app_nil_r in Hb, Hv.
      rewrite Hb. exists 0%nat, [], buf. simpl.
      rewrite app_nil_r, Hf. subst w0. simpl. repeat split; first [done | constructor].
  - rewrite (bind_ok _ _ _ _ _ (emit_run _ _)) in H.
    destruct (report_progress_spec X p (set_trace (w_trace w ++ [EvSelect false]) w))
      as (p1 & w1 & E1 & _ & _ & Hf1 & _).
    rewrite (bind_ok _ _ _ _ _ E1) in H.
    eapply IH; [|exact H]. by rewrite Hf1.
  - do 2 rewrite (bind_ok _ _ _ _ _ (emit_run _ _)) in H.
    set (w0 := set_trace _ (set_trace _ w)) in H.
    destruct (tee_byte_cases X lf (Some c) buf w0)
      as [(Hc & E) | [(Hc & Hv & wa & E & Hfa) | (Hc & Hb & Hv & wa & E & Hf)]];
      simpl in Hc.
    + rewrite truthy_snoc, andb_true_r in Hc. rewrite Hc.
      rewrite (bind_ok _ _ _ _ _ E) in H.
      destruct (report_progress_spec X p w0) as (p1 & w1 & E1 & _ & _ & Hf1 & _).
      rewrite (bind_ok _ _ _ _ _ E1) in H.
      eapply IH; [|exact H]. rewrite Hf1. subst w0. exact Hlog.
    + rewrite Hc. rewrite (bind_ok _ _ _ _ _ E) in H.
      destruct (report_progress_spec X p wa) as (p1 & w1 & E1 & _ & _ & Hf1 & _).
      rewrite (bind_ok _ _ _ _ _ E1) in H.
      subst w0. simpl in Hfa, Hv. rewrite Hlog in Hfa.
      eapply IH in H as (-> & k & idxs & bad & Hk & Hbad & Hall & Hlen & Hfs).
      2:{ rewrite Hf1, Hfa. by rewrite lookup_insert_eq. }
      split; [done|].
      exists (S k), (w_clock_reads w :: idxs), bad. simpl.
      split; [done|]. split; [done|]. split; [by constructor|].
      split; [by rewrite Hlen|]. rewrite Hfs. by rewrite <- app_assoc.
    + rewrite Hc. rewrite (bind_raise _ _ _ _ _ E) in H. injection H as <- <-.
      split; [done|]. exists 0%nat, [], (buf +:+ String c ""). simpl.
      rewrite app_nil_r, Hf. subst w0. simpl. repeat split; first [done | constructor].
Qed.

Lemma undecodable_line_stops_the_log_witness :
  UnicodeDecodeError = UnicodeDecodeError
  /\ exists k idxs bad,
       split_lines "" (stream_bytes [Ready "a"%char; Ready LF; Ready "255"%char]) !! k
       = Some bad
       /\ utf8_valid bad = false
       /\ Forall (fun line => utf8_valid line = true)
                 (take k (split_lines ""
                            (stream_bytes [Ready "a"%char; Ready LF; Ready "255"%char])))
       /\ length idxs = k
       /\ w_fs (snd (drain Scenario.ext Scenario.afw_log
                       [Ready "a"%char; Ready LF; Ready "255"%char] ""
                       Scenario.reporter0 Scenario.world_log)) !! Scenario.afw_log
          = Some (FLog ([] ++ stamped Scenario.ext idxs
                          (take k (split_lines ""
                             (stream_bytes [Ready "a"%char; Ready LF; Ready "255"%char]))))).
Proof.
  apply (undecodable_line_stops_the_log Scenario.ext Scenario.afw_log
           [Ready "a"%char; Ready LF; Ready "255"%char] ""
           Scenario.reporter0 Scenario.world_log []).
  - vm_compute. reflexivity.
  - vm_compute. reflexivity.
Defined.

(** ** What the steps of a build may change *)

Lemma co_ret R {A} (a : A) : (forall w, R w w) -> changes_only R (ret a).
Proof. intros Hr w. apply Hr. Qed.

Lemma co_raise R {A} e : (forall w, R w w) -> changes_only R (@raise A e).
Proof. intros Hr w. apply Hr. Qed.

Lemma co_bind (R : World -> World -> Prop) {A B} (m : M A) (k : A -> M B) :
  (forall w1 w2 w3, R w1 w2 -> R w2 w3 -> R w1 w3) ->
  changes_only R m -> (forall a, changes_only R (k a)) -> changes_only R (bind m k).
Proof.
  intros Ht Hm Hk w. unfold bind. specialize (Hm w).
  destruct (m w) as [[a|e] w1]; simpl in *; [|done].
  eapply Ht; [exact Hm | apply Hk].
Qed.

Section Steps.
Variable X : Ext.
Variable R : World -> World -> Prop.
Variable ok_event : Event -> Prop.
Variable ok_path : string -> Prop.
Hypothesis R_refl : forall w, R w w.
Hypothesis R_trans : forall w1 w2 w3, R w1 w2 -> R w2 w3 -> R w1 w3.
Hypothesis R_emit : forall w e, ok_event e -> R w (set_trace (w_trace w ++ [e]) w).
Hypothesis R_stdout : forall w o, R w (set_stdout o w).
Hypothesis R_clock : forall w n, R w (set_clock_reads n w).
Hypothesis R_eups : forall w e, R w (set_eups e w).
Hypothesis R_fs : forall w p f, ok_path p -> R w (set_fs (<[p := f]> (w_fs w)) w).
Hypothesis ok_unit : forall e, unit_op e -> ok_event e.
Hypothesis ok_sh : forall d, ok_path (path_join d "_build.sh").
Hypothesis ok_log : forall d, ok_path (path_join d "_build.log").

Local Abbreviation steady := (changes_only R).

Lemma co_emit e : ok_event e -> steady (emit e).
Proof. intros H w. by apply R_emit. Qed.

Lemma co_emit_unit e : unit_op e -> steady (emit e).
Proof. intros H. by apply co_emit, ok_unit. Qed.

Lemma co_get : steady get.
Proof. intros w. apply R_refl. Qed.

Lemma co_out_write s : steady (out_write s).
Proof. intros w. apply R_stdout. Qed.
Lemma co_out_flush : steady out_flush.
Proof. intros w. apply R_stdout. Qed.
Lemma co_print s : steady (print s).
Proof. intros w. apply R_stdout. Qed.
Lemma co_tail lf : steady (modify (fun w => set_stdout (w_stdout w ++ [TSystemTail lf]) w)).
Proof. intros w. apply R_stdout. Qed.
Lemma co_write_file p f : ok_path p -> steady (write_file p f).
Proof. intros H w. by apply R_fs. Qed.
Lemma co_environ_get k : steady (environ_get k).
Proof. intros w. unfold environ_get. destruct (w_environ w !! k); apply R_refl. Qed.
Lemma co_now : steady (now X).
Proof. intros w. apply R_clock. Qed.
Lemma co_set_eups e : steady (modify (set_eups e)).
Proof. intros w. apply R_eups. Qed.

Ltac co_step :=
  match goal with
  | |- changes_only _ (bind _ _) => apply co_bind; [exact R_trans | | intros]
  | |- changes_only _ (ret _) => apply co_ret; exact R_refl
  | |- changes_only _ (raise _) => apply co_raise; exact R_refl
  | |- changes_only _ get => apply co_get
  | |- changes_only _ (emit _) => apply co_emit_unit; exact I
  | |- changes_only _ (out_write _) => apply co_out_write
  | |- changes_only _ out_flush => apply co_out_flush
  | |- changes_only _ (print _) => apply co_print
  | |- changes_only _ (environ_get _) => apply co_environ_get
  | |- changes_only _ (now _) => apply co_now
  | |- changes_only _ (if ?c then _ else _) => destruct c
  | |- changes_only _ (match ?x with _ => _ end) => destruct x
  end.
Ltac co_tac := repeat first [ co_step | assumption ].

Lemma co_getProduct n v : steady (getProduct n v).
Proof. unfold getProduct. co_tac. Qed.

Lemma co_copy2 s d : steady (copy2 s d "_build.log").
Proof. unfold copy2. co_tac. by apply co_write_file. Qed.

Lemma co_eups_declare n v tg : ok_event (EvDeclare n v tg) -> steady (eups_declare n v tg).
Proof.
  intros H. unfold eups_declare.
  apply co_bind; [exact R_trans | by apply co_emit | intros; intros w; apply R_eups].
Qed.

Lemma co__build_started p : steady (_build_started X p).
Proof. unfold _build_started, product_name, product_version. co_tac. Qed.

Lemma co_progress_loop fuel t1 : forall p, steady (progress_loop fuel t1 p).
Proof. induction fuel as [|fuel IH]; intros p; simpl; co_tac; apply IH. Qed.

Lemma co_report_progress p : steady (report_progress X p).
Proof. unfold report_progress. co_tac. apply co_progress_loop. Qed.

Lemma co_report_result p rc lf : steady (report_result X p rc lf).
Proof. unfold report_result, product_name. co_tac; apply co_tail. Qed.

Lemma co__finalize p : steady (_finalize p).
Proof. unfold _finalize. co_tac. Qed.

Lemma co_new_build {A} prod
    (body : ProductProgressReporter -> M (A * ProductProgressReporter)) :
  (forall p, steady (body p)) -> steady (new_build X prod body).
Proof.
  intros Hb. unfold new_build.
  apply co_bind; [exact R_trans | apply co__build_started |].
  intros p w. specialize (Hb p w).
  destruct (body p w) as [[[a p']|e] w1]; simpl in *; [|done].
  eapply R_trans; [exact Hb|].
  assert (steady (_finalize p' ;; ret a)) as Hf.
  { apply co_bind; [exact R_trans | apply co__finalize | intros; co_tac]. }
  apply Hf.
Qed.

Lemma co_try {A} (m h : M A) : steady m -> steady h -> steady (try_ProductNotFound m h).
Proof.
  intros Hm Hh w. unfold try_ProductNotFound. specialize (Hm w).
  destruct (m w) as [[a|e] w1]; simpl in *; [done|].
  destruct e; try done. eapply R_trans; [exact Hm | apply Hh].
Qed.

Lemma co_tee_byte lf c buf : ok_path lf -> steady (tee_byte X lf c buf).
Proof.
  intros Hp. unfold tee_byte, log_write. co_tac.
  intros w. by apply R_fs.
Qed.

Lemma co_drain lf evs : ok_path lf -> forall buf p, steady (drain X lf evs buf p).
Proof.
  intros Hp. induction evs as [|[|c] evs IH]; intros buf p; simpl; co_tac;
    first [ by apply co_tee_byte | apply co_report_progress | apply IH ].
Qed.

Lemma co_collect_result u rc lf : steady (collect_result u rc lf).
Proof.
  unfold collect_result. co_tac; first [ apply co_getProduct | apply co_copy2 ].
Qed.

Lemma co__build_product b u p : steady (_build_product X b u p).
Proof.
  unfold _build_product, write_buildscript, run_buildscript. co_tac;
    first [ apply co_write_file; first [apply ok_sh | apply ok_log]
          | apply co_drain; apply ok_log
          | apply co_set_eups
          | apply co_collect_result ].
Qed.

Lemma co_tag_if_missing b u o :
  (forall tg, build_id (manifest b) = Some tg -> truthy tg = true ->
              ok_event (EvDeclare (name u) (version u) tg)) ->
  steady (tag_if_missing b u o).
Proof.
  intros Hd. unfold tag_if_missing, _tag_product.
  destruct o as [ep|]; [|co_tac].
  destruct (build_id_not_in _ _); [|co_tac].
  destruct (build_id (manifest b)) as [tg|]; [|co_tac].
  destruct (truthy tg) eqn:Ht; [|co_tac].
  by apply co_eups_declare, Hd.
Qed.

Lemma co__build_product_if_needed b u :
  (forall tg, build_id (manifest b) = Some tg -> truthy tg = true ->
              ok_event (EvDeclare (name u) (version u) tg)) ->
  steady (_build_product_if_needed X b u).
Proof.
  intros Hd. unfold _build_product_if_needed.
  apply co_bind; [exact R_trans | | intros; co_tac].
  apply co_new_build. intros p.
  apply co_bind; [exact R_trans | |].
  - unfold installed_or_build. apply co_try; [|apply co__build_product].
    co_tac. apply co_getProduct.
  - intros [[[o rc] lf] p'].
    apply co_bind; [exact R_trans | by apply co_tag_if_missing |].
    intros _. co_tac. apply co_report_result.
Qed.

Lemma co_build_loop us : forall b,
  (forall u tg, build_id (manifest b) = Some tg -> truthy tg = true ->
                ok_event (EvDeclare (name u) (version u) tg)) ->
  steady (build_loop X b us).
Proof.
  induction us as [|u us IH]; intros b Hd; simpl; [co_tac|].
  apply co_bind; [exact R_trans | apply co__build_product_if_needed, Hd |].
  intros [|]; [|co_tac]. apply IH. exact Hd.
Qed.

Lemma co_declare_build_tag b :
  (forall tg, build_id (manifest b) = Some tg -> truthy tg = true ->
              ok_event (EvRegisterTag tg) /\ forall p, ok_event (EvSaveGlobalTags p)) ->
  steady (declare_build_tag b).
Proof.
  intros Hr. unfold declare_build_tag.
  destruct (build_id (manifest b)) as [tg|]; [|co_tac].
  destruct (truthy tg) eqn:Ht; [|co_tac].
  destruct (Hr tg eq_refl Ht) as [Hreg Hsave].
  unfold declare_eups_tag, registerTag, eups_path0, saveGlobalTags.
  co_tac; first [ by apply co_emit | intros w; apply R_eups ].
Qed.

Lemma co_build b :
  (forall u tg, build_id (manifest b) = Some tg -> truthy tg = true ->
                ok_event (EvDeclare (name u) (version u) tg)) ->
  (forall tg, build_id (manifest b) = Some tg -> truthy tg = true ->
              ok_event (EvRegisterTag tg) /\ forall p, ok_event (EvSaveGlobalTags p)) ->
  steady (build X b).
Proof.
  intros Hd Hr. unfold build.
  apply co_bind; [exact R_trans | by apply co_declare_build_tag |].
  intros _. by apply co_build_loop.
Qed.

Lemma co_post_github_status pr st d a :
  ok_event (EvHttpPost st) -> steady (post_github_status X pr st d a).
Proof.
  intros H. unfold post_github_status, dict_get. co_tac. by apply co_emit.
Qed.

End Steps.

(** ** Frames of a build *)

Lemma build_emits X b (P : Event -> Prop) :
  (forall e, unit_op e -> P e) ->
  (forall u tg, build_id (manifest b) = Some tg -> truthy tg = true ->
                P (EvDeclare (name u) (version u) tg)) ->
  (forall tg, build_id (manifest b) = Some tg -> truthy tg = true ->
              P (EvRegisterTag tg) /\ forall p, P (EvSaveGlobalTags p)) ->
  emits P (build X b).
Proof.
  intros Hu Hd Hr.
  apply (co_build X
           (fun w w' => exists evs, w_trace w' = w_trace w ++ evs /\ Forall P evs)
           P (fun _ => True)); try done.
  - intros w. exists []. by rewrite app_nil_r.
  - intros w1 w2 w3 (e1 & E1 & F1) (e2 & E2 & F2). exists (e1 ++ e2).
    rewrite E2, E1, app_assoc. split; [done | by apply Forall_app_2].
  - intros w e He. exists [e]. split; [done | by constructor].
  - intros w o. exists []. simpl. by rewrite app_nil_r.
  - intros w n. exists []. simpl. by rewrite app_nil_r.
  - intros w e. exists []. simpl. by rewrite app_nil_r.
  - intros w p f _. exists []. simpl. by rewrite app_nil_r.
Qed.

Lemma build_emits_build_event X b :
  emits (build_event (build_id (manifest b))) (build X b).
Proof.
  apply build_emits.
  - by intros [].
  - by intros u tg Hb Ht.
  - intros tg Hb Ht. split; [done|]. intros p. by exists tg.
Qed.

(** X15.  [build] declares, registers and saves tags with the manifest's
    build id only, and only when that id is a non-empty string; it posts
    no status and writes no status record. *)
Theorem build_uses_its_tag_only X b w :
  Forall (build_event (build_id (manifest b))) (new_events w (snd (build X b w))).
Proof.
  destruct (build_emits_build_event X b w) as (evs & E & F).
  unfold new_events. by rewrite E, drop_app_length.
Qed.

Lemma last_char_app s c r : last_char (s +:+ String c r) = last_char (String c r).
Proof.
  induction s as [|a s IH]; [done|].
  change (String a s +:+ String c r) with (String a (s +:+ String c r)).
  simpl. rewrite IH. by destruct s.
Qed.

Lemma last_char_path_join d c r : last_char (path_join d (String c r)) = last_char (String c r).
Proof.
  unfold path_join.
  change (d +:+ "/" +:+ String c r) with (d +:+ String "/" (String c r)).
  by rewrite last_char_app.
Qed.

Lemma build_frame_fs X b p :
  (forall d, p <> path_join d "_build.sh") ->
  (forall d, p <> path_join d "_build.log") ->
  changes_only (fun w w' => w_fs w' !! p = w_fs w !! p) (build X b).
Proof.
  intros Hs Hl.
  apply (co_build X (fun w w' => w_fs w' !! p = w_fs w !! p)
           (fun _ => True) (fun q => q <> p)); try done.
  - intros w1 w2 w3 E1 E2. by rewrite E2.
  - intros w q f Hq. simpl. by rewrite lookup_insert_ne.
Qed.

Lemma build_frame_environ X b :
  changes_only (fun w w' => w_environ w' = w_environ w) (build X b).
Proof.
  apply (co_build X (fun w w' => w_environ w' = w_environ w)
           (fun _ => True) (fun _ => True)); try done.
  intros w1 w2 w3 E1 E2. by rewrite E2.
Qed.

(** X16.  [build] leaves the environment as it was, and itself writes no
    file other than the [_build.sh] and [_build.log] of product
    directories. *)
Theorem build_writes_unit_files_only X b w p :
  (forall d, p <> path_join d "_build.sh") ->
  (forall d, p <> path_join d "_build.log") ->
  w_fs (snd (build X b w)) !! p = w_fs w !! p
  /\ w_environ (snd (build X b w)) = w_environ w.
Proof.
  intros Hs Hl. split.
  - by apply (build_frame_fs X b p Hs Hl w).
  - apply (build_frame_environ X b w).
Qed.

Lemma build_writes_unit_files_only_witness :
  w_fs (snd (build Scenario.ext Scenario2.builder_ok Scenario.world_ok))
    !! "/b/manifest.txt" = w_fs Scenario.world_ok !! "/b/manifest.txt"
  /\ w_environ (snd (build Scenario.ext Scenario2.builder_ok Scenario.world_ok))
     = w_environ Scenario.world_ok.
Proof.
  apply (build_writes_unit_files_only Scenario.ext Scenario2.builder_ok
           Scenario.world_ok "/b/manifest.txt").
  - intros d E. apply (f_equal last_char) in E.
    rewrite last_char_path_join in E. vm_compute in E. discriminate.
  - intros d E. apply (f_equal last_char) in E.
    rewrite last_char_path_join in E. vm_compute in E. discriminate.
Defined.

(** ** The run and its notifications *)

Lemma rm_status_run b w :
  exists w', rm_status b w = (Ok tt, w')
    /\ w_fs w' !! status_file b = None
    /\ w_trace w' = w_trace w /\ w_environ w' = w_environ w.
Proof.
  unfold rm_status, bind, get, modify.
  destruct (w_fs w !! status_file b) eqn:E; eexists; (split; [reflexivity|]); simpl.
  - by rewrite lookup_delete_eq.
  - done.
Qed.

Lemma build_loop_dir X us : forall b w ok b' w',
  build_loop X b us w = (Ok (ok, b'), w') -> build_dir b' = build_dir b.
Proof.
  induction us as [|u us IH]; intros b w ok b' w' H; simpl in H.
  - by injection H as _ <- _.
  - apply bind_inv_ok in H as ([|] & w1 & _ & H).
    + by apply IH in H.
    + by injection H as _ <- _.
Qed.

Lemma build_dir_kept X b w ok b' w' :
  build X b w = (Ok (ok, b'), w') -> build_dir b' = build_dir b.
Proof.
  unfold build. intros H. apply bind_inv_ok in H as ([] & w1 & _ & H).
  by apply build_loop_dir in H.
Qed.

Lemma status_file_not_unit_file dir :
  (forall d, path_join dir "status.yaml" <> path_join d "_build.sh")
  /\ (forall d, path_join dir "status.yaml" <> path_join d "_build.log").
Proof.
  split; intros d E; apply (f_equal last_char) in E;
    rewrite !last_char_path_join in E; discriminate.
Qed.

Lemma post_github_status_frame X pr st d a :
  changes_only (fun w w' => w_fs w' = w_fs w /\ w_environ w' = w_environ w)
    (post_github_status X pr st d a).
Proof.
  apply (co_post_github_status X
           (fun w w' => w_fs w' = w_fs w /\ w_environ w' = w_environ w) (fun _ => True));
    try done.
  intros w1 w2 w3 [E1 E1'] [E2 E2']. by rewrite E2, E2'.
Qed.

Lemma post_github_status_sent X d st desc ag w tok url owner repo sha :
  w_environ w !! "GITHUB_TOKEN" = Some tok -> truthy tok = true ->
  w_environ w !! "BUILD_URL" = Some url ->
  d !! "owner" = Some owner -> d !! "repo" = Some repo -> d !! "sha" = Some sha ->
  (forall rq, requests_post X rq <> HttpRaise) ->
  exists w', post_github_status X d st desc ag w = (Ok tt, w')
    /\ w_trace w' = w_trace w ++ [EvHttpPost st]
    /\ w_environ w' = w_environ w /\ w_fs w' = w_fs w.
Proof.
  intros Ht Htt Hu Ho Hr Hs Hp.
  unfold post_github_status, bind, print, out_write, modify, environ_get, dict_get, emit.
  simpl. rewrite Ht, Htt. simpl. rewrite Ho, Hr, Hs. simpl. rewrite Hu. simpl.
  match goal with |- context [requests_post X ?rq] =>
    destruct (requests_post X rq) as [|code text] eqn:E end; [by destruct (Hp _ E)|].
  destruct (Z.eqb code 201); eexists; repeat split.
Qed.

Ltac run_prologue Ha Hm :=
  unfold run; rewrite Ha; unfold bind at 1; simpl;
  unfold open_manifest; unfold bind at 1; unfold bind at 1; simpl; rewrite Hm; simpl;
  unfold load_pr_info; unfold bind at 1; unfold bind at 1; simpl.

(** X17.  Once [run] has read the manifest and the PR context, a status
    record is in the build directory when it ends if and only if it ends
    in [sys.exit]: the record of an earlier run is removed first, and a run
    that stops on an exception leaves none. *)
Theorem status_record_iff_exit X dir w m :
  access_w X dir = true ->
  w_fs w !! path_join dir "manifest.txt" = Some (FManifest m) ->
  (w_fs w !! path_join dir "pr_info.json" = None
   \/ exists d, w_fs w !! path_join dir "pr_info.json" = Some (FPrInfo d)) ->
  is_Some (w_fs (snd (run X dir w)) !! path_join dir "status.yaml")
  <-> exists code, fst (run X dir w) = Raise (SystemExit code).
Proof.
  intros Ha Hm Hp.
  destruct (run X dir w) as [r w'] eqn:E. simpl.
  revert E. run_prologue Ha Hm.
  assert (exists pr, match w_fs w !! path_join dir "pr_info.json" with
                     | Some (FPrInfo d) => ret (Some d)
                     | Some _ => raise ValueError
                     | None => ret None
                     end w = (Ok pr, w)) as [pr Epr].
  { destruct Hp as [-> | [d ->]]; by eexists. }
  rewrite Epr. simpl. unfold bind at 1. simpl.
  set (b := new_Builder dir m). set (w1 := set_stdout _ w).
  destruct (rm_status_run b w1) as (w2 & Erm & Hnone & _).
  rewrite (bind_ok _ _ _ _ _ Erm).
  change (w_fs w2 !! path_join dir "status.yaml" = None) in Hnone.
  set (sp := path_join dir "status.yaml") in *.
  assert (forall e, not_exit e ->
            ~ exists code : Z, Raise e = Raise (A := unit) (SystemExit code)) as Hne.
  { intros e He [code [= ->]]. exact He. }
  destruct (status_file_not_unit_file dir) as [Hsh Hlog].
  match goal with |- bind ?n ?k _ = _ -> _ =>
    assert (changes_only (fun w w' => w_fs w' = w_fs w /\ w_environ w' = w_environ w) n)
      as F1;
    [| assert (raises_only not_exit n) as S1;
       [| destruct (n w2) as [[[]|e] w3] eqn:E1;
          [rewrite (bind_ok _ _ _ _ _ E1) | rewrite (bind_raise _ _ _ _ _ E1)]]]
  end.
  { destruct (notify_enabled pr (agent_label X)); [|by intros ?].
    apply co_bind; [intros ? ? ? [? ?] [? ?]; split; congruence | by intros ? |].
    intros _. apply post_github_status_frame. }
  { destruct (notify_enabled pr (agent_label X)); [|apply ro_ret].
    apply ro_bind; [apply ro_print | intros; apply ro_post_github_status]. }
  2:{ intros [= <- <-]. destruct (F1 w2) as [Hfs _]. rewrite E1 in Hfs. simpl in Hfs.
      split; [rewrite Hfs; rewrite Hnone; by intros [? ?]|].
      intros H. by destruct (Hne e (S1 _ _ _ E1)). }
  assert (w_fs w3 !! sp = None) as Hnone3.
  { destruct (F1 w2) as [Hfs _]. rewrite E1 in Hfs. simpl in Hfs. by rewrite Hfs. }
  destruct (build X b w3) as [[[ok b']|e] w4] eqn:Eb;
    [rewrite (bind_ok _ _ _ _ _ Eb) | rewrite (bind_raise _ _ _ _ _ Eb)].
  2:{ intros [= <- <-].
      pose proof (build_frame_fs X b sp Hsh Hlog w3) as Hfs.
      rewrite Eb in Hfs. simpl in Hfs.
      split; [rewrite Hfs, Hnone3; by intros [? ?]|].
      intros H. by destruct (Hne e (ro_build X b _ _ _ Eb)). }
  pose proof (build_frame_fs X b sp Hsh Hlog w3) as Hfs4.
  rewrite Eb in Hfs4. simpl in Hfs4.
  match goal with |- bind ?n ?k _ = _ -> _ =>
    assert (changes_only (fun w w' => w_fs w' = w_fs w /\ w_environ w' = w_environ w) n)
      as F2;
    [| assert (raises_only not_exit n) as S2;
       [| destruct (n w4) as [[[]|e] w5] eqn:E2;
          [rewrite (bind_ok _ _ _ _ _ E2) | rewrite (bind_raise _ _ _ _ _ E2)]]]
  end.
  { destruct (notify_enabled pr (agent_label X)); [|by intros ?].
    apply post_github_status_frame. }
  { destruct (notify_enabled pr (agent_label X)); [|apply ro_ret].
    apply ro_post_github_status. }
  2:{ intros [= <- <-]. destruct (F2 w4) as [Hfs _]. rewrite E2 in Hfs. simpl in Hfs.
      split; [rewrite Hfs; rewrite Hfs4, Hnone3; by intros [? ?]|].
      intros H. by destruct (Hne e (S2 _ _ _ E2)). }
  unfold write_status, write_file, bind, emit, modify, raise. simpl.
  intros [= <- <-]. simpl.
  unfold status_file. rewrite (build_dir_kept _ _ _ _ _ _ Eb). simpl.
  fold sp. rewrite lookup_insert_eq. split; [by eexists | by eexists].
Qed.

Lemma status_record_iff_exit_witness :
  is_Some (w_fs (snd (run Scenario.ext "/b" Scenario2.world_stale))
             !! path_join "/b" "status.yaml")
  <-> exists code, fst (run Scenario.ext "/b" Scenario2.world_stale)
                   = Raise (SystemExit code).
Proof.
  apply (status_record_iff_exit Scenario.ext "/b" Scenario2.world_stale Scenario.man_ok).
  - reflexivity.
  - vm_compute. reflexivity.
  - right. exists Scenario.pr_info. vm_compute. reflexivity.
Defined.

Lemma posted_states_none evs : Forall not_post evs -> posted_states evs = [].
Proof.
  induction 1 as [|e evs He _ IH]; [done|].
  destruct e; try done; exact IH.
Qed.

Lemma posted_states_app a b : posted_states (a ++ b) = posted_states a ++ posted_states b.
Proof. apply omap_app. Qed.

Lemma build_event_not_post tag e : build_event tag e -> not_post e.
Proof. by destruct e. Qed.

Lemma emits_rm_status P b : emits P (rm_status b).
Proof.
  unfold rm_status. apply emits_bind; [apply emits_get|]. intros w.
  destruct (w_fs w !! status_file b); [by apply emits_modify | apply emits_ret].
Qed.

Lemma emits_write_status (P : Event -> Prop) b :
  P (EvWriteStatus (status_file b)) -> emits P (write_status b).
Proof.
  intros H. unfold write_status, write_file.
  apply emits_bind; [by apply emits_emit | intros; by apply emits_modify].
Qed.

(** X18.  With notification off (no PR context, an empty one, or the agent
    [error]) [run] posts no status, however it ends. *)
Theorem no_status_posted_when_notification_is_off X dir w :
  notify_enabled (pr_info_of dir w) (agent_label X) = false ->
  posted_states (new_events w (snd (run X dir w))) = [].
Proof.
  intros Hn.
  enough (exists evs, w_trace (snd (run X dir w)) = w_trace w ++ evs
                      /\ Forall not_post evs) as (evs & E & F).
  { unfold new_events. rewrite E, drop_app_length. by apply posted_states_none. }
  assert (exists evs, w_trace w = w_trace w ++ evs /\ Forall not_post evs) as Hstop.
  { exists []. by rewrite app_nil_r. }
  unfold run. destruct (access_w X dir); [|exact Hstop].
  unfold bind at 1; simpl.
  unfold open_manifest; unfold bind at 1; unfold bind at 1; simpl.
  destruct (w_fs w !! path_join dir "manifest.txt") as [[| | |m|]|];
    simpl; try exact Hstop.
  unfold load_pr_info; unfold bind at 1; unfold bind at 1; simpl.
  unfold pr_info_of in Hn.
  destruct (w_fs w !! path_join dir "pr_info.json") as [[| | | |d]|];
    simpl; try exact Hstop.
  all: unfold bind at 1; simpl; simpl in Hn; try rewrite Hn.
  all: match goal with |- exists evs, w_trace (snd (?T ?w1)) = _ /\ _ =>
         enough (emits not_post T) as HT by apply (HT w1) end.
  all: apply emits_bind; [apply emits_rm_status | intros _].
  all: apply emits_bind; [apply emits_ret | intros _].
  all: apply emits_bind;
    [eapply emits_weaken; [apply build_event_not_post | apply build_emits_build_event]|].
  all: intros [ok b']; apply emits_bind; [apply emits_ret | intros _].
  all: apply emits_bind; [by apply emits_write_status | intros _; apply emits_raise].
Qed.

Lemma no_status_posted_when_notification_is_off_witness :
  posted_states (new_events Scenario.world_pr_full
                   (snd (run Scenario2.ext_error "/b" Scenario.world_pr_full))) = [].
Proof.
  apply (no_status_posted_when_notification_is_off Scenario2.ext_error "/b"
           Scenario.world_pr_full).
  vm_compute. reflexivity.
Defined.

(** X19.  With notification on, the credentials and PR fields present and
    an endpoint that answers, [run] posts [pending] before the build and,
    when it reaches [sys.exit], exactly one more status: [success] with
    exit code 0 and [failure] otherwise.  When the build raises, [pending]
    stays the only status posted. *)
Theorem status_posts_bracket_the_build X dir w m d tok url owner repo sha :
  access_w X dir = true ->
  w_fs w !! path_join dir "manifest.txt" = Some (FManifest m) ->
  w_fs w !! path_join dir "pr_info.json" = Some (FPrInfo d) ->
  notify_enabled (Some d) (agent_label X) = true ->
  w_environ w !! "GITHUB_TOKEN" = Some tok -> truthy tok = true ->
  w_environ w !! "BUILD_URL" = Some url ->
  d !! "owner" = Some owner -> d !! "repo" = Some repo -> d !! "sha" = Some sha ->
  (forall rq, requests_post X rq <> HttpRaise) ->
  posted_states (new_events w (snd (run X dir w)))
  = "pending" :: match fst (run X dir w) with
                 | Raise (SystemExit code) =>
                     [if Z.eqb code 0 then "success" else "failure"]
                 | _ => []
                 end.
Proof.
  intros Ha Hm Hp Hn Ht Htt Hu Ho Hr Hs Hpost.
  destruct (run X dir w) as [r w'] eqn:E. simpl. revert E.
  run_prologue Ha Hm. rewrite Hp. simpl. unfold bind at 1. simpl.
  simpl in Hn. rewrite Hn.
  set (b := new_Builder dir m). set (w1 := set_stdout _ w).
  destruct (rm_status_run b w1) as (w2 & Erm & _ & T2 & V2).
  rewrite (bind_ok _ _ _ _ _ Erm).
  destruct (post_github_status_sent X d "pending"
              ("Build started on " +:+ agent_label X) (agent_label X)
              (set_stdout (w_stdout w2 ++ [TWrite ("Github status pending" +:+ NL)]) w2)
              tok url owner repo sha) as (w3 & E3 & T3 & V3 & _); try done.
  1,2: simpl; by rewrite V2.
  simpl in T3, V3.
  assert ((print "Github status pending" ;;
           post_github_status X d "pending" ("Build started on " +:+ agent_label X)
             (agent_label X)) w2 = (Ok tt, w3)) as E1 by exact E3.
  rewrite (bind_ok _ _ _ _ _ E1).
  destruct (build_emits_build_event X b w3) as (evs & T4 & F4).
  pose proof (build_frame_environ X b w3) as V4. simpl in V4.
  destruct (build X b w3) as [[[ok b']|e] w4] eqn:Eb;
    [rewrite (bind_ok _ _ _ _ _ Eb) | rewrite (bind_raise _ _ _ _ _ Eb)];
    simpl in T4, V4.
  2:{ intros [= <- <-]. unfold new_events.
      rewrite T4, T3, T2, <- app_assoc, drop_app_length, posted_states_app.
      rewrite (posted_states_none evs).
      2:{ eapply Forall_impl; [exact F4 | apply build_event_not_post]. }
      pose proof (ro_build X b _ _ _ Eb) as He. by destruct e. }
  destruct (post_github_status_sent X d (if ok then "success" else "failure")
              ("Build " +:+ (if ok then "succeeded" else "failed") +:+ " on "
               +:+ agent_label X) (agent_label X) w4
              tok url owner repo sha) as (w5 & E5 & T5 & _); try done.
  1,2: by rewrite V4, V3, V2.
  rewrite (bind_ok _ _ _ _ _ E5).
  unfold write_status, write_file, bind, emit, modify, raise. simpl.
  intros [= <- <-]. unfold new_events. simpl.
  rewrite T5, T4, T3, T2, <- !app_assoc, drop_app_length, !posted_states_app.
  rewrite (posted_states_none evs).
  2:{ eapply Forall_impl; [exact F4 | apply build_event_not_post]. }
  by destruct ok.
Qed.

Lemma status_posts_bracket_the_build_witness :
  posted_states (new_events Scenario.world_pr_full
                   (snd (run Scenario2.ext_rejecting "/b" Scenario.world_pr_full)))
  = "pending" :: match fst (run Scenario2.ext_rejecting "/b" Scenario.world_pr_full) with
                 | Raise (SystemExit code) =>
                     [if Z.eqb code 0 then "success" else "failure"]
                 | _ => []
                 end.
Proof.
  apply (status_posts_bracket_the_build Scenario2.ext_rejecting "/b"
           Scenario.world_pr_full Scenario.man_ok Scenario.pr_info
           "s3cret" "https://ci/42" "lsst" "afw" "c0ffee");
    try (vm_compute; reflexivity).
  intros rq. vm_compute. discriminate.
Defined.

(** X20.  When the build directory is not writable, or has no manifest,
    [run] raises ([DirectoryError], [FileNotFoundError]) with nothing
    changed: the old status record is not removed, nothing is printed, and
    the exit status is 1. *)
Theorem run_stops_before_touching_anything X dir w :
  access_w X dir = false \/ w_fs w !! path_join dir "manifest.txt" = None ->
  run X dir w
  = (Raise (if access_w X dir then FileNotFoundError (path_join dir "manifest.txt")
            else DirectoryError dir), w)
  /\ exit_status (fst (run X dir w)) = 1.
Proof.
  intros H.
  assert (run X dir w
          = (Raise (if access_w X dir then FileNotFoundError (path_join dir "manifest.txt")
                    else DirectoryError dir), w)) as E.
  { unfold run. destruct (access_w X dir) eqn:Ha; [|done].
    destruct H as [H|H]; [done|].
    unfold bind at 1; simpl.
    unfold open_manifest; unfold bind at 1; unfold bind at 1; simpl. by rewrite H. }
  split; [exact E|]. rewrite E. simpl. by destruct (access_w X dir).
Qed.

Lemma run_stops_before_touching_anything_witness :
  run Scenario2.ext_readonly "/b" Scenario2.world_stale
  = (Raise (if access_w Scenario2.ext_readonly "/b"
            then FileNotFoundError (path_join "/b" "manifest.txt")
            else DirectoryError "/b"), Scenario2.world_stale)
  /\ exit_status (fst (run Scenario2.ext_readonly "/b" Scenario2.world_stale)) = 1.
Proof.
  apply (run_stops_before_touching_anything Scenario2.ext_readonly "/b"
           Scenario2.world_stale).
  left. reflexivity.
Defined.

(** X21.  The exit status of [run] is 0 or 1, whatever happens. *)
Theorem exit_status_is_0_or_1 X dir w :
  exit_status (fst (run X dir w)) = 0 \/ exit_status (fst (run X dir w)) = 1.
Proof.
  destruct (run X dir w) as [[a|e] w'] eqn:E; simpl.
  { by destruct (run_never_returns X dir w a w'). }
  destruct e; try (by right).
  unfold run in E.
  apply bind_inv_exit in E as ([] & wa & _ & H);
    [|destruct (access_w X dir); [apply ro_ret | by apply ro_raise]].
  apply bind_inv_exit in H as (m & wb & _ & H); [|apply ro_open_manifest].
  apply bind_inv_exit in H as (pr & wc & _ & H); [|apply ro_load_pr_info].
  apply bind_inv_exit in H as ([] & wd & _ & H); [|apply ro_modify].
  apply bind_inv_exit in H as ([] & we & _ & H); [|apply ro_rm_status].
  apply bind_inv_exit in H as ([] & w1 & _ & H).
  2:{ destruct (notify_enabled pr (agent_label X)); [|apply ro_ret].
      apply ro_bind; [apply ro_print | intros; apply ro_post_github_status]. }
  apply bind_inv_exit in H as ([ok b'] & w2 & Hb & H); [|apply ro_build].
  apply bind_inv_exit in H as ([] & w3 & _ & H).
  2:{ destruct (notify_enabled pr (agent_label X)); [|apply ro_ret].
      apply ro_post_github_status. }
  apply bind_inv_exit in H as ([] & w4 & Hw & H); [|apply ro_write_status].
  injection H as <- <-. destruct ok; [by left | by right].
Qed.

(** X22.  With an empty [GITHUB_TOKEN], [post_github_status] logs that the
    token was not found and returns: no request is sent, the PR fields are
    not looked at. *)
Theorem empty_token_skips_the_post X d st desc ag w tok :
  w_environ w !! "GITHUB_TOKEN" = Some tok -> truthy tok = false ->
  fst (post_github_status X d st desc ag w) = Ok tt
  /\ new_events w (snd (post_github_status X d st desc ag w)) = []
  /\ writes (new_output w (snd (post_github_status X d st desc ag w)))
     = [("Posting GitHub status: " +:+ st +:+ " - " +:+ desc) +:+ NL;
        "GITHUB_TOKEN not found in environment variables." +:+ NL].
Proof.
  intros Ht Htt.
  unfold post_github_status, bind, print, out_write, modify, environ_get.
  simpl. rewrite Ht, Htt. simpl.
  unfold new_events, new_output. simpl.
  rewrite drop_all. split; [done|]. split; [done|].
  by rewrite <- app_assoc, drop_app_length.
Qed.

Lemma empty_token_skips_the_post_witness :
  fst (post_github_status Scenario.ext Scenario.pr_info "pending" "Build started"
         "linux" (set_environ {["GITHUB_TOKEN" := ""]} Scenario.world_pr)) = Ok tt
  /\ new_events (set_environ {["GITHUB_TOKEN" := ""]} Scenario.world_pr)
       (snd (post_github_status Scenario.ext Scenario.pr_info "pending" "Build started"
               "linux" (set_environ {["GITHUB_TOKEN" := ""]} Scenario.world_pr))) = []
  /\ writes (new_output (set_environ {["GITHUB_TOKEN" := ""]} Scenario.world_pr)
       (snd (post_github_status Scenario.ext Scenario.pr_info "pending" "Build started"
               "linux" (set_environ {["GITHUB_TOKEN" := ""]} Scenario.world_pr))))
     = [("Posting GitHub status: " +:+ "pending" +:+ " - " +:+ "Build started") +:+ NL;
        "GITHUB_TOKEN not found in environment variables." +:+ NL].
Proof.
  apply (empty_token_skips_the_post Scenario.ext Scenario.pr_info "pending"
           "Build started" "linux"
           (set_environ {["GITHUB_TOKEN" := ""]} Scenario.world_pr) "").
  - vm_compute. reflexivity.
  - reflexivity.
Defined.

(** X23.  [post_github_status] sends one request, to
    [repos/<owner>/<repo>/statuses/<sha>] with the token, the state, the
    description, the agent context and the build URL; whatever the answer,
    it returns: 201 is logged as posted, any other code as a failure with
    the code and the text. *)
Theorem rejected_status_is_logged X d st desc ag w tok url owner repo sha code text :
  w_environ w !! "GITHUB_TOKEN" = Some tok -> truthy tok = true ->
  w_environ w !! "BUILD_URL" = Some url ->
  d !! "owner" = Some owner -> d !! "repo" = Some repo -> d !! "sha" = Some sha ->
  requests_post X
    {| rq_url := "https://api.github.com/repos/" +:+ owner +:+ "/" +:+ repo
                 +:+ "/statuses/" +:+ sha;
       rq_authorization := "token " +:+ tok;
       rq_state := st;
       rq_description := desc;
       rq_context := "Jenkins Build (" +:+ ag +:+ ")";
       rq_target_url := url |} = HttpResponse code text ->
  fst (post_github_status X d st desc ag w) = Ok tt
  /\ new_events w (snd (post_github_status X d st desc ag w)) = [EvHttpPost st]
  /\ writes (new_output w (snd (post_github_status X d st desc ag w)))
     = [("Posting GitHub status: " +:+ st +:+ " - " +:+ desc) +:+ NL;
        (if Z.eqb code 201 then "GitHub status posted successfully."
         else "Failed to post GitHub status: " +:+ pretty code +:+ " - " +:+ text)
        +:+ NL].
Proof.
  intros Ht Htt Hu Ho Hr Hs Hp.
  unfold post_github_status, bind, print, out_write, modify, environ_get, dict_get, emit.
  simpl. rewrite Ht, Htt. simpl. rewrite Ho, Hr, Hs. simpl. rewrite Hu. simpl.
  rewrite Hp. unfold new_events, new_output.
  destruct (Z.eqb code 201); simpl;
    rewrite drop_app_length, <- app_assoc, drop_app_length; done.
Qed.

Lemma rejected_status_is_logged_witness :
  fst (post_github_status Scenario2.ext_rejecting Scenario.pr_info "success"
         "Build succeeded on linux" "linux" Scenario.world_pr_full) = Ok tt
  /\ new_events Scenario.world_pr_full
       (snd (post_github_status Scenario2.ext_rejecting Scenario.pr_info "success"
               "Build succeeded on linux" "linux" Scenario.world_pr_full))
     = [EvHttpPost "success"]
  /\ writes (new_output Scenario.world_pr_full
       (snd (post_github_status Scenario2.ext_rejecting Scenario.pr_info "success"
               "Build succeeded on linux" "linux" Scenario.world_pr_full)))
     = [("Posting GitHub status: " +:+ "success" +:+ " - " +:+ "Build succeeded on linux")
        +:+ NL;
        (if Z.eqb 403 201 then "GitHub status posted successfully."
         else "Failed to post GitHub status: " +:+ pretty 403 +:+ " - " +:+ "Forbidden")
        +:+ NL].
Proof.
  apply (rejected_status_is_logged Scenario2.ext_rejecting Scenario.pr_info "success"
           "Build succeeded on linux" "linux" Scenario.world_pr_full
           "s3cret" "https://ci/42" "lsst" "afw" "c0ffee" 403 "Forbidden");
    vm_compute; reflexivity.
Defined.

(** X24.  With a token, a PR context without [owner], [repo] or [sha], or an
    environment without [BUILD_URL], makes [post_github_status] raise
    [KeyError] before any request is sent. *)
Theorem missing_field_raises_before_the_post X d st desc ag w tok :
  w_environ w !! "GITHUB_TOKEN" = Some tok -> truthy tok = true ->
  d !! "owner" = None \/ d !! "repo" = None \/ d !! "sha" = None
  \/ w_environ w !! "BUILD_URL" = None ->
  (exists k, fst (post_github_status X d st desc ag w) = Raise (KeyError k))
  /\ new_events w (snd (post_github_status X d st desc ag w)) = [].
Proof.
  intros Ht Htt H.
  unfold post_github_status, bind, print, out_write, modify, environ_get, dict_get, emit.
  simpl. rewrite Ht, Htt. simpl. unfold new_events.
  destruct (d !! "owner") as [o|] eqn:Ho; simpl;
    [|split; [by eexists | by rewrite drop_all]].
  destruct (d !! "repo") as [r|] eqn:Hr; simpl;
    [|split; [by eexists | by rewrite drop_all]].
  destruct (d !! "sha") as [s|] eqn:Hs; simpl;
    [|split; [by eexists | by rewrite drop_all]].
  destruct (w_environ w !! "BUILD_URL") as [u|] eqn:Hu; simpl;
    [|split; [by eexists | by rewrite drop_all]].
  by destruct H as [H|[H|[H|H]]].
Qed.

Lemma missing_field_raises_before_the_post_witness :
  (exists k, fst (post_github_status Scenario.ext Scenario.pr_info "pending"
                    "Build started" "linux" Scenario.world_pr_token)
             = Raise (KeyError k))
  /\ new_events Scenario.world_pr_token
       (snd (post_github_status Scenario.ext Scenario.pr_info "pending"
               "Build started" "linux" Scenario.world_pr_token)) = [].
Proof.
  apply (missing_field_raises_before_the_post Scenario.ext Scenario.pr_info "pending"
           "Build started" "linux" Scenario.world_pr_token "s3cret").
  - vm_compute. reflexivity.
  - reflexivity.
  - right. right. right. vm_compute. reflexivity.
Defined.

(** ** The build script *)

Lemma log_is_not_a_script d d' : path_join d "_build.log" <> path_join d' "_build.sh".
Proof.
  intros E. apply (f_equal last_char) in E. rewrite !last_char_path_join in E.
  discriminate.
Qed.

Lemma script_survives_the_run X b u script p :
  changes_only (fun w w' => w_fs w' !! buildscript b u = w_fs w !! buildscript b u)
    (r <- run_buildscript X script (buildscript b u) (logfile_of b u) p ;;
     res <- collect_result u (cr_poll (fst r)) (logfile_of b u) ;;
     ret (res, snd r)).
Proof.
  set (R := fun w w' : World => w_fs w' !! buildscript b u = w_fs w !! buildscript b u).
  assert (forall w1 w2 w3, R w1 w2 -> R w2 w3 -> R w1 w3) as Rt.
  { unfold R. intros w1 w2 w3 E1 E2. by rewrite E2. }
  assert (forall w q f, q <> buildscript b u -> R w (set_fs (<[q := f]> (w_fs w)) w)) as Rf.
  { unfold R. intros w q f Hq. simpl. by rewrite lookup_insert_ne. }
  apply co_bind; [exact Rt | | intros r].
  - unfold run_buildscript.
    apply co_bind; [exact Rt | |intros _].
    { apply (co_write_file R (fun q => q <> buildscript b u)); [exact Rf|].
      apply log_is_not_a_script. }
    apply co_bind; [exact Rt | by intros w | intros _].
    apply co_bind; [exact Rt | by intros w | intros w0].
    apply co_bind; [exact Rt | | intros p'].
    { apply (co_drain X R (fun _ => True) (fun q => q <> buildscript b u)); try done.
      apply log_is_not_a_script. }
    apply co_bind; [exact Rt | by intros w | intros _; by intros w].
  - apply co_bind; [exact Rt | | intros res; by intros w].
    apply (co_collect_result R (fun _ => True) (fun q => q <> buildscript b u)); try done.
    intros d. apply log_is_not_a_script.
Qed.

(** The script file written by [_build_product] is the one it starts, and
    it is still there when the call ends. *)
Lemma buildscript_kept X b u p w ep :
  w_environ w !! "EUPS_PATH" = Some ep ->
  w_fs (snd (_build_product X b u p w)) !! buildscript b u
    = Some (FScript (make_script X b u ep) true)
  /\ exists rest,
       new_events w (snd (_build_product X b u p w))
       = EvWriteScript (buildscript b u) :: EvSpawn (buildscript b u) :: rest.
Proof.
  intros He. unfold _build_product.
  assert (write_buildscript X b u w
          = (Ok (make_script X b u ep),
             set_fs (<[buildscript b u := FScript (make_script X b u ep) true]> (w_fs w))
               (set_trace (w_trace w ++ [EvWriteScript (buildscript b u)]) w))) as Ew.
  { unfold write_buildscript, bind, environ_get, emit, write_file, modify. rewrite He.
    simpl. by rewrite insert_insert_eq. }
  rewrite (bind_ok _ _ _ _ _ Ew). set (w1 := set_fs _ _). split.
  - rewrite (script_survives_the_run X b u (make_script X b u ep) p w1).
    simpl. by rewrite lookup_insert_eq.
  - set (lf := logfile_of b u). set (sf := buildscript b u).
    set (script := make_script X b u ep).
    assert (exists evs, w_trace (snd (run_buildscript X script sf lf p w1))
                        = w_trace w1 ++ EvSpawn sf :: evs) as [evs Er].
    { unfold run_buildscript.
      rewrite (bind_ok (write_file lf (FLog [])) _ w1 tt _ eq_refl).
      rewrite (bind_ok _ _ _ _ _ (emit_run _ _)).
      match goal with |- context [bind get ?k ?w2] =>
        rewrite (bind_ok get k w2 w2 w2 eq_refl);
        destruct (emits_bind (fun _ => True)
                    (drain X lf (cr_events (child X script (w_eups w2))) "" p)
                    (fun progress' =>
                       modify (set_eups (cr_eups (child X script (w_eups w2)))) ;;
                       ret (child X script (w_eups w2), progress'))) with (w := w2)
          as (evs & E & _) end.
      - eapply emits_weaken; [|apply (emits_drain X [])]. done.
      - intros p'. apply emits_bind; [by apply emits_modify | intros; apply emits_ret].
      - exists evs. rewrite E. simpl. by rewrite <- app_assoc. }
    destruct (run_buildscript X script sf lf p w1) as [[r|e] wr] eqn:Erb;
      [rewrite (bind_ok _ _ _ _ _ Erb) | rewrite (bind_raise _ _ _ _ _ Erb)];
      simpl in Er.
    + match goal with |- context [snd (bind ?m ?k wr)] =>
        destruct (emits_bind (fun _ => True) m k) with (w := wr) as (evs' & E' & _) end.
      * eapply emits_weaken; [|apply (emits_collect_result X [])]. done.
      * intros res. apply emits_ret.
      * exists (evs ++ evs'). unfold new_events. rewrite E', Er. simpl.
        by rewrite <- !app_assoc, drop_app_length.
    + exists evs. unfold new_events. simpl. rewrite Er. simpl.
      by rewrite <- !app_assoc, drop_app_length.
Qed.



(** ** The exit code *)

(** With notification off, a run that passes the precondition checks is
    the build, started once the old status record is removed, followed by
    [write_status] and [sys.exit]. *)
Lemma run_without_notification X dir w m :
  access_w X dir = true ->
  w_fs w !! path_join dir "manifest.txt" = Some (FManifest m) ->
  (w_fs w !! path_join dir "pr_info.json" = None
   \/ exists d, w_fs w !! path_join dir "pr_info.json" = Some (FPrInfo d)) ->
  notify_enabled (pr_info_of dir w) (agent_label X) = false ->
  fst (run X dir w)
  = match build X (new_Builder dir m)
            (snd (rm_status (new_Builder dir m)
                    (set_stdout (w_stdout w ++ [TPrInfo (pr_info_of dir w)]) w))) with
    | (Ok (ok, _), _) => Raise (SystemExit (if ok then 0 else 1))
    | (Raise e, _) => Raise e
    end.
Proof.
  intros Ha Hm Hp Hn. run_prologue Ha Hm.
  unfold pr_info_of in *.
  destruct Hp as [Hp | [d Hp]]; rewrite Hp in *; simpl; unfold bind at 1; simpl;
    simpl in Hn; try rewrite Hn.
  all: match goal with |- context [rm_status ?b ?w1] =>
         destruct (rm_status_run b w1) as (w2 & Erm & _);
         rewrite (bind_ok _ _ _ _ _ Erm), Erm; simpl;
         unfold bind at 1; unfold ret at 1; cbv beta iota;
         destruct (build X b w2) as [[[ok b']|e] w3] eqn:Eb;
         [ rewrite (bind_ok _ _ _ _ _ Eb) | rewrite (bind_raise _ _ _ _ _ Eb) ];
         reflexivity
       end.
Qed.

(** X26.  With notification off, a run that passes the precondition checks
    exits with 0 exactly when, from the world in which its [build] starts
    (the old status record removed), the build tag is declared and every
    unit of the manifest, in turn, is built or found installed; and it
    exits with 1 when a unit fails after its predecessors succeeded. *)
Theorem exit_code_follows_build X dir w m :
  access_w X dir = true ->
  w_fs w !! path_join dir "manifest.txt" = Some (FManifest m) ->
  (w_fs w !! path_join dir "pr_info.json" = None
   \/ exists d, w_fs w !! path_join dir "pr_info.json" = Some (FPrInfo d)) ->
  notify_enabled (pr_info_of dir w) (agent_label X) = false ->
  let b := new_Builder dir m in
  let w1 := snd (rm_status b (set_stdout (w_stdout w ++ [TPrInfo (pr_info_of dir w)]) w)) in
  let w0 := snd (declare_build_tag b w1) in
  (exit_status (fst (run X dir w)) = 0
   <-> fst (declare_build_tag b w1) = Ok tt
       /\ exists wend, units_succeed X b (product_index m) w0 wend)
  /\ (fst (declare_build_tag b w1) = Ok tt ->
      (exists pre uk post wk wf,
         product_index m = pre ++ uk :: post
         /\ units_succeed X b pre w0 wk
         /\ _build_product_if_needed X b uk wk = (Ok false, wf)) ->
      fst (run X dir w) = Raise (SystemExit 1)).
Proof.
  intros Ha Hm Hp Hn b w1 w0.
  rewrite (run_without_notification X dir w m Ha Hm Hp Hn). fold b. fold w1.
  assert (forall wend, fst (declare_build_tag b w1) = Ok tt ->
            units_succeed X b (product_index m) w0 wend ->
            build X b w1 = (Ok (true, add_built (product_index m) b), wend)) as Hall.
  { intros wend Ht Hs. unfold build.
    destruct (declare_build_tag b w1) as [[[]|e] wt] eqn:Et; [|discriminate].
    rewrite (bind_ok _ _ _ _ _ Et).
    assert (w0 = wt) as Hw0 by (unfold w0; first [reflexivity | by rewrite Et]). rewrite Hw0 in Hs.
    pose proof (build_loop_prefix X b _ [] _ _ Hs b eq_refl eq_refl) as E.
    rewrite app_nil_r in E. exact E. }
  assert (forall pre uk post wk wf, fst (declare_build_tag b w1) = Ok tt ->
            product_index m = pre ++ uk :: post ->
            units_succeed X b pre w0 wk ->
            _build_product_if_needed X b uk wk = (Ok false, wf) ->
            build X b w1 = (Ok (false, set_failed_at uk (add_built pre b)), wf)) as Hsome.
  { intros pre uk post wk wf Ht Hidx Hs Hf. unfold build.
    destruct (declare_build_tag b w1) as [[[]|e] wt] eqn:Et; [|discriminate].
    rewrite (bind_ok _ _ _ _ _ Et).
    assert (w0 = wt) as Hw0 by (unfold w0; first [reflexivity | by rewrite Et]). rewrite Hw0 in Hs.
    pose proof (build_loop_prefix X b pre (uk :: post) _ _ Hs b eq_refl eq_refl) as E.
    change (manifest b) with m. rewrite Hidx, E. simpl.
    rewrite (_build_product_if_needed_irrel X (add_built pre b) b uk eq_refl eq_refl).
    by rewrite (bind_ok _ _ _ _ _ Hf). }
  split; [split|].
  - intros Hex.
    destruct (build X b w1) as [[[ok b']|e] w2] eqn:Eb.
    + destruct ok; [|discriminate].
      unfold build in Eb.
      apply bind_inv_ok in Eb as ([] & wt & Et & Hl).
      assert (w0 = wt) as Hw0 by (unfold w0; first [reflexivity | by rewrite Et]).
      split; [by rewrite Et|].
      apply (build_loop_inv X b) in Hl
        as [(_ & Hs & _) | (Hok & _)]; [ | done | done | done].
      exists w2. by rewrite Hw0.
    + pose proof (ro_build X b _ _ _ Eb) as He. simpl in Hex. by destruct e.
  - intros (Ht & wend & Hs). by rewrite (Hall wend Ht Hs).
  - intros Ht (pre & uk & post & wk & wf & Hidx & Hs & Hf).
    by rewrite (Hsome pre uk post wk wf Ht Hidx Hs Hf).
Qed.

Lemma exit_code_follows_build_witness :
  (exit_status (fst (run Scenario.ext "/b" Scenario.world0)) = 0
   <-> fst (declare_build_tag (new_Builder "/b" Scenario.man)
              (snd (rm_status (new_Builder "/b" Scenario.man)
                      (set_stdout (w_stdout Scenario.world0
                                   ++ [TPrInfo (pr_info_of "/b" Scenario.world0)])
                                  Scenario.world0)))) = Ok tt
       /\ exists wend,
            units_succeed Scenario.ext (new_Builder "/b" Scenario.man)
              (product_index Scenario.man)
              (snd (declare_build_tag (new_Builder "/b" Scenario.man)
                      (snd (rm_status (new_Builder "/b" Scenario.man)
                              (set_stdout (w_stdout Scenario.world0
                                           ++ [TPrInfo (pr_info_of "/b" Scenario.world0)])
                                          Scenario.world0)))))
              wend)
  /\ (fst (declare_build_tag (new_Builder "/b" Scenario.man)
             (snd (rm_status (new_Builder "/b" Scenario.man)
                     (set_stdout (w_stdout Scenario.world0
                                  ++ [TPrInfo (pr_info_of "/b" Scenario.world0)])
                                 Scenario.world0)))) = Ok tt ->
      (exists pre uk post wk wf,
         product_index Scenario.man = pre ++ uk :: post
         /\ units_succeed Scenario.ext (new_Builder "/b" Scenario.man) pre
              (snd (declare_build_tag (new_Builder "/b" Scenario.man)
                      (snd (rm_status (new_Builder "/b" Scenario.man)
                              (set_stdout (w_stdout Scenario.world0
                                           ++ [TPrInfo (pr_info_of "/b" Scenario.world0)])
                                          Scenario.world0)))))
              wk
         /\ _build_product_if_needed Scenario.ext (new_Builder "/b" Scenario.man) uk wk
            = (Ok false, wf)) ->
      fst (run Scenario.ext "/b" Scenario.world0) = Raise (SystemExit 1)).
Proof.
  apply (exit_code_follows_build Scenario.ext "/b" Scenario.world0 Scenario.man).
  - reflexivity.
  - vm_compute. reflexivity.
  - left. vm_compute. reflexivity.
  - vm_compute. reflexivity.
Defined.
